(** * IFRC-NDRRMC-convert: location hierarchy reconstruction and P-code matching

    A shallow embedding of the hierarchy/matching core of the repository
    (pcodes.py, dromic_extractor.py, transformations.py) and the
    properties stated about it.

    Conventions of the embedding.
    - Python [str] values are modelled as [string]; the text handled is
      ASCII, on which [str.casefold] is [str.lower] and [unidecode] is the
      identity.
    - A pandas cell is a [cell]: the three nulls pandas knows ([None],
      [NaN], [pd.NA]), a string or a number.  Counts are integers, so
      numeric columns hold [Z] values and Python's [round] is the identity.
    - External libraries (thefuzz, [pd.to_numeric], the contents of the
      reference CSV files and of [config.py]) are section variables; so
      is the list of the columns of a number dtype, where the code asks
      for it.
    - The column of names ([Location], or the first column of a DROMIC
      table) has the object dtype: the string methods of pandas apply to
      it, and give a null on a cell that is no string. *)

From Stdlib Require Import ZArith Ascii String List Bool Lia DecimalString.
From stdpp Require Import base tactics option list gmap strings.

Open Scope string_scope.

(** ** Python string primitives (ASCII) *)

Module PyStr.

(** [str.isspace] on one ASCII character; also the class [\s] of [re]. *)
Definition is_space (c : ascii) : bool :=
  let n := nat_of_ascii c in
  ((9 <=? n)%nat && (n <=? 13)%nat) || ((28 <=? n)%nat && (n <=? 32)%nat).

Definition is_newline (c : ascii) : bool := Ascii.eqb c "010"%char.

Definition is_upper_char (c : ascii) : bool :=
  let n := nat_of_ascii c in (65 <=? n)%nat && (n <=? 90)%nat.

Definition is_lower_char (c : ascii) : bool :=
  let n := nat_of_ascii c in (97 <=? n)%nat && (n <=? 122)%nat.

Definition to_lower_char (c : ascii) : ascii :=
  if is_upper_char c then ascii_of_nat (nat_of_ascii c + 32) else c.

Definition to_upper_char (c : ascii) : ascii :=
  if is_lower_char c then ascii_of_nat (nat_of_ascii c - 32) else c.

Fixpoint map_str (f : ascii -> ascii) (s : string) : string :=
  match s with
  | EmptyString => EmptyString
  | String c s' => String (f c) (map_str f s')
  end.

Fixpoint forall_str (p : ascii -> bool) (s : string) : bool :=
  match s with
  | EmptyString => true
  | String c s' => p c && forall_str p s'
  end.

Fixpoint exists_str (p : ascii -> bool) (s : string) : bool :=
  match s with
  | EmptyString => false
  | String c s' => p c || exists_str p s'
  end.

(** [s.casefold()] / [s.lower()] *)
Definition casefold (s : string) : string := map_str to_lower_char s.

(** [s.upper()] *)
Definition upper (s : string) : string := map_str to_upper_char s.

(** [s.isupper()]: at least one cased character and no lower-case one. *)
Definition isupper (s : string) : bool :=
  exists_str is_upper_char s && forall_str (fun c => negb (is_lower_char c)) s.

Fixpoint lstrip (s : string) : string :=
  match s with
  | EmptyString => EmptyString
  | String c s' => if is_space c then lstrip s' else s
  end.

Fixpoint rstrip (s : string) : string :=
  match s with
  | EmptyString => EmptyString
  | String c s' =>
      match rstrip s' with
      | EmptyString => if is_space c then EmptyString else String c EmptyString
      | r => String c r
      end
  end.

(** [s.strip()] *)
Definition strip (s : string) : string := rstrip (lstrip s).

Fixpoint drop (n : nat) (s : string) : string :=
  match n, s with
  | O, _ => s
  | S k, String _ s' => drop k s'
  | S _, EmptyString => EmptyString
  end.

(** [p in s] for strings *)
Fixpoint contains (p s : string) : bool :=
  String.prefix p s ||
  match s with
  | EmptyString => false
  | String _ s' => contains p s'
  end.

Definition is_empty (s : string) : bool :=
  match s with EmptyString => true | _ => false end.

(** Character classes used to describe cleaned names. *)
Definition not_char (k : ascii) : ascii -> bool := fun d => negb (Ascii.eqb d k).
Definition not_upper : ascii -> bool := fun c => negb (is_upper_char c).

End PyStr.

(** ** The fragment of [re.sub] used by the cleaning pipeline

    A pattern is given by its matcher: [m s] is the length of the match
    that starts at the first character of the suffix [s], if there is one.
    None of the patterns below looks behind, so a matcher of the suffix is
    enough.  [sub] is [re.sub(pattern, repl, s)]: leftmost matches, not
    overlapping, one pass from left to right. *)

Module Re.
Import PyStr.

Definition matcher := string -> option nat.

(** [skip] counts the characters of the current match that are still to
    be consumed. *)
Fixpoint sub_from (m : matcher) (repl : string) (skip : nat) (s : string) : string :=
  match skip with
  | S k =>
      match s with
      | EmptyString => EmptyString
      | String _ s' => sub_from m repl k s'
      end
  | O =>
      match s with
      | EmptyString => EmptyString
      | String c s' =>
          match m s with
          | Some (S n) => repl ++ sub_from m repl n s'
          | Some O => repl ++ String c (sub_from m repl 0 s')
          | None => String c (sub_from m repl 0 s')
          end
      end
  end.

Definition sub (m : matcher) (repl : string) (s : string) : string :=
  sub_from m repl 0 s.

(** Does the pattern match anywhere in [s]? *)
Fixpoint search (m : matcher) (s : string) : bool :=
  match s with
  | EmptyString => false
  | String _ s' =>
      match m s with
      | Some _ => true
      | None => search m s'
      end
  end.

(** A pattern without metacharacters. *)
Definition lit (p : string) : matcher :=
  fun s => if String.prefix p s then Some (String.length p) else None.

(** [brgy.] : the four letters and any character but a newline. *)
Definition brgy_dot : matcher :=
  fun s =>
    if String.prefix "brgy" s then
      match drop 4 s with
      | String c _ => if is_newline c then None else Some 5
      | EmptyString => None
      end
    else None.

(** Position of the last [)] before the end of the line, counted from
    the start of [s], plus one. *)
Fixpoint last_close (s : string) : option nat :=
  match s with
  | EmptyString => None
  | String c s' =>
      if is_newline c then None
      else match last_close s' with
           | Some k => Some (S k)
           | None => if Ascii.eqb c ")"%char then Some 1 else None
           end
  end.

(** [\(.*\)] : greedy, [.] does not cross a newline. *)
Definition paren : matcher :=
  fun s =>
    match s with
    | String "("%char s' =>
        match last_close s' with
        | Some k => Some (S k)
        | None => None
        end
    | _ => None
    end.

(** [$] : at the end of the string, or before a final newline. *)
Definition at_dollar (s : string) : bool :=
  match s with
  | EmptyString => true
  | String c EmptyString => is_newline c
  | _ => false
  end.

(** [\s<roman>($|\s)] : the alternative [$] is tried first and consumes
    nothing. *)
Definition numeral (roman : string) : matcher :=
  fun s =>
    match s with
    | String c s' =>
        if is_space c && String.prefix roman s' then
          let rest := drop (String.length roman) s' in
          if at_dollar rest then Some (S (String.length roman))
          else match rest with
               | String d _ =>
                   if is_space d then Some (S (S (String.length roman))) else None
               | EmptyString => None
               end
        else None
    | EmptyString => None
    end.

End Re.

(** ** pandas values and frames *)

Module Pd.

Inductive cell :=
| CNone                (* None *)
| CNaN                 (* float('nan') *)
| CNA                  (* pd.NA *)
| CStr (s : string)
| CNum (z : Z)
| CBool (b : bool).

#[global] Instance cell_eq_dec : EqDecision cell.
Proof. solve_decision. Defined.

(** [pd.isna], [pd.notna] *)
Definition isna (c : cell) : bool :=
  match c with CNone | CNaN | CNA => true | _ => false end.
Definition notna (c : cell) : bool := negb (isna c).

(** Element-wise [==] of two columns: a null on either side is [False]. *)
Definition eq_elem (a b : cell) : bool :=
  match a, b with
  | CStr x, CStr y => String.eqb x y
  | CNum x, CNum y => Z.eqb x y
  | CBool x, CBool y => Bool.eqb x y
  | _, _ => false
  end.

(** Equality of cells for [duplicated]: nulls are one value. *)
Definition dup_eq (a b : cell) : bool := (isna a && isna b) || eq_elem a b.

(** A frame: the column labels in order, and the rows in order, each row
    mapping labels to cells.  The index is always the default
    [RangeIndex] (every filter is followed by [reset_index(drop=True)]). *)
Record DataFrame := mkDF {
  columns : list string;
  rows : list (gmap string cell)
}.

(** [row[c]]; reading a missing label gives a null ([row.get(c)]). *)
Definition get (r : gmap string cell) (c : string) : cell := default CNaN (r !! c).

Definition has_column (c : string) (df : DataFrame) : bool :=
  bool_decide (c ∈ columns df).

(** A new label goes to the end; an existing one keeps its place. *)
Definition with_column (c : string) (cols : list string) : list string :=
  if bool_decide (c ∈ cols) then cols else (cols ++ [c])%list.

(** [df[c] = f(row)], row by row.  This is also the meaning of a loop
    [for idx, row in df.iterrows(): df.at[idx, c] = f(row)]: [iterrows]
    reads the rows from the values taken when the loop starts. *)
Definition set_cell (c : string) (f : gmap string cell -> cell)
    (r : gmap string cell) : gmap string cell :=
  <[c := f r]> r.

Definition assign (c : string) (f : gmap string cell -> cell) (df : DataFrame) : DataFrame :=
  mkDF (with_column c (columns df)) (map (set_cell c f) (rows df)).

(** [df[c] = vals] for a column computed as a whole. *)
Definition set_column (c : string) (vals : list cell) (df : DataFrame) : DataFrame :=
  mkDF (with_column c (columns df)) (zip_with (fun r v => <[c := v]> r) (rows df) vals).

Definition column (c : string) (df : DataFrame) : list cell :=
  map (fun r => get r c) (rows df).

(** [df[mask].reset_index(drop=True)] *)
Definition select (p : gmap string cell -> bool) (df : DataFrame) : DataFrame :=
  mkDF (columns df) (List.filter p (rows df)).

(** [df.drop(cs, axis=1)] for labels that exist *)
Definition drop_cells (cs : list string) (r : gmap string cell) : gmap string cell :=
  foldr delete r cs.

Definition drop_columns (cs : list string) (df : DataFrame) : DataFrame :=
  mkDF (List.filter (fun c => negb (bool_decide (c ∈ cs))) (columns df))
       (map (drop_cells cs) (rows df)).

(** A step of a row pipeline that is taken only under a flag. *)
Definition when (b : bool) (F : gmap string cell -> gmap string cell)
    (r : gmap string cell) : gmap string cell :=
  if b then F r else r.

(** [df[cols]]: the same rows under a new order of labels *)
Definition reorder (cols : list string) (df : DataFrame) : DataFrame :=
  mkDF cols (rows df).

(** [Series.ffill()]: a null takes the last value that is not null; the
    nulls before the first value stay as they are. *)
Fixpoint ffill_from (last : cell) (l : list cell) : list cell :=
  match l with
  | [] => []
  | v :: l' =>
      if isna v then (if isna last then v else last) :: ffill_from last l'
      else v :: ffill_from v l'
  end.
Definition ffill (l : list cell) : list cell := ffill_from CNone l.

Fixpoint last_in_group (k : list cell) (seen : list (list cell * cell)) : cell :=
  match seen with
  | [] => CNaN
  | (k', v) :: seen' => if bool_decide (k = k') then v else last_in_group k seen'
  end.

(** [df.groupby(keys)[c].ffill()]: within the rows that share a key, in
    frame order; a row whose key holds a null is in no group and gets
    [NaN].  [seen] holds the values met so far, latest first. *)
Fixpoint group_ffill_from (seen : list (list cell * cell))
    (kvs : list (list cell * cell)) : list cell :=
  match kvs with
  | [] => []
  | (k, v) :: rest =>
      if existsb isna k then CNaN :: group_ffill_from seen rest
      else if isna v then last_in_group k seen :: group_ffill_from seen rest
      else v :: group_ffill_from ((k, v) :: seen) rest
  end.

Definition group_ffill (keys : list string) (c : string) (df : DataFrame) : list cell :=
  group_ffill_from [] (map (fun r => (map (get r) keys, get r c)) (rows df)).

(** [df[c] = df[c].ffill()] *)
Definition ffill_column (c : string) (df : DataFrame) : DataFrame :=
  set_column c (ffill (column c df)) df.

(** [df[c] = df.groupby(keys, group_keys=False)[c].ffill()] *)
Definition group_ffill_column (keys : list string) (c : string) (df : DataFrame) : DataFrame :=
  set_column c (group_ffill keys c df) df.

Definition row_dup_eq (cols : list string) (r1 r2 : gmap string cell) : bool :=
  forallb (fun c => dup_eq (get r1 c) (get r2 c)) cols.

Fixpoint drop_dups_from (cols : list string) (seen l : list (gmap string cell))
    : list (gmap string cell) :=
  match l with
  | [] => []
  | r :: l' =>
      if existsb (row_dup_eq cols r) seen then drop_dups_from cols seen l'
      else r :: drop_dups_from cols (r :: seen) l'
  end.

(** [df.drop_duplicates(subset=cols, keep='first').reset_index(drop=True)] *)
Definition drop_duplicates (cols : list string) (df : DataFrame) : DataFrame :=
  mkDF (columns df) (drop_dups_from cols [] (rows df)).

(** [Series.unique().tolist()]: first occurrences, in order. *)
Fixpoint unique (l : list string) : list string :=
  match l with
  | [] => []
  | x :: l' => x :: List.filter (fun y => negb (String.eqb x y)) (unique l')
  end.

End Pd.

(** ** Python objects, exceptions and calls

    Frames are mutable objects: a store maps addresses to frames, a Python
    variable holds an address.  A statement either changes the object its
    variable points to ([df[c] = ...], [df.at[...] = ...], [df.loc[...] =
    ...]) or binds the variable to a new object ([df = df.copy()],
    [df = df[mask]...], [df = df.drop(...)]). *)

Module Py.
Import Pd.

Inductive exn := ValueError | IndexError | KeyError | AttributeError.

Inductive result (A : Type) :=
| Ok (a : A)
| Raise (e : exn).
Arguments Ok {A} a.
Arguments Raise {A} e.

Definition rbind {A B} (m : result A) (k : A -> result B) : result B :=
  match m with Ok a => k a | Raise e => Raise e end.

Fixpoint traverse {A B} (f : A -> result B) (l : list A) : result (list B) :=
  match l with
  | [] => Ok []
  | x :: l' =>
      rbind (f x) (fun y => rbind (traverse f l') (fun ys => Ok (y :: ys)))
  end.

(** [df[c] = df.apply(f, axis=1)] where [f] may raise *)
Definition assign_try (c : string) (f : gmap string cell -> result cell)
    (df : DataFrame) : result DataFrame :=
  rbind (traverse (fun r => rbind (f r) (fun v => Ok (<[c := v]> r))) (rows df))
        (fun rs => Ok (mkDF (with_column c (columns df)) rs)).

Definition set_cells (cs : list string) (vs : list cell) (r : gmap string cell)
    : gmap string cell :=
  foldr (fun kv r' => <[kv.1 := kv.2]> r') r (zip cs vs).

Definition spread_cells (cs : list string) (g : gmap string cell -> list cell)
    (r : gmap string cell) : gmap string cell :=
  set_cells cs (g r) r.

(** [df[cs] = values], one list of values per row *)
Definition spread (cs : list string) (g : gmap string cell -> list cell)
    (df : DataFrame) : DataFrame :=
  mkDF (foldl (fun cols c => with_column c cols) (columns df) cs)
       (map (spread_cells cs g) (rows df)).

(** [df[cs] = df.apply(f, axis=1)] where [f] returns a Series with one
    value per label of [cs] *)
Definition apply_rows (cs : list string) (f : gmap string cell -> result (list cell))
    (df : DataFrame) : result DataFrame :=
  rbind (traverse (fun r => rbind (f r) (fun vs => Ok (set_cells cs vs r))) (rows df))
        (fun rs => Ok (mkDF (foldl (fun cols c => with_column c cols) (columns df) cs) rs)).

(** The value of a computation known not to raise. *)
Definition value_or {A} (d : A) (m : result A) : A :=
  match m with Ok a => a | Raise _ => d end.

(** [f] raises on no row of the frame. *)
Definition never_raises {A} (f : gmap string cell -> result A) (df : DataFrame) : Prop :=
  forall r, r ∈ rows df -> exists v, f r = Ok v.

Definition addr := nat.
Abbreviation store := (list DataFrame).

(** A computation returns a value or raises, and leaves a store. *)
Definition M (A : Type) := store -> result A * store.

Definition ret {A} (a : A) : M A := fun s => (Ok a, s).
Definition raise {A} (e : exn) : M A := fun s => (Raise e, s).
Definition bind {A B} (m : M A) (k : A -> M B) : M B :=
  fun s => match m s with
           | (Ok a, s') => k a s'
           | (Raise e, s') => (Raise e, s')
           end.

(** [w = f(v)] where [f] builds a new frame: [w] is a fresh address. *)
Definition new_from (v : addr) (f : DataFrame -> result DataFrame) : M addr :=
  fun s => match s !! v with
           | None => (Raise KeyError, s)
           | Some d =>
               match f d with
               | Ok d' => (Ok (List.length s), (s ++ [d'])%list)
               | Raise e => (Raise e, s)
               end
           end.

(** A statement that changes the frame at [v] in place. *)
Definition mutate (v : addr) (f : DataFrame -> result DataFrame) : M unit :=
  fun s => match s !! v with
           | None => (Raise KeyError, s)
           | Some d =>
               match f d with
               | Ok d' => (Ok tt, <[v := d']> s)
               | Raise e => (Raise e, s)
               end
           end.

(** [w = g(v)] and an in-place change, for steps that cannot raise. *)
Definition rebind (v : addr) (g : DataFrame -> DataFrame) : M addr :=
  new_from v (fun d => Ok (g d)).

Definition update (v : addr) (g : DataFrame -> DataFrame) : M unit :=
  mutate v (fun d => Ok (g d)).

(** An expression that reads the frame at [v]. *)
Definition peek {A} (v : addr) (g : DataFrame -> A) : M A :=
  fun s => match s !! v with
           | None => (Raise KeyError, s)
           | Some d => (Ok (g d), s)
           end.

(** [m] writes only at addresses from [n] on, and its value satisfies [Q]. *)
Definition local {A} (n : nat) (m : M A) (Q : A -> Prop) : Prop :=
  forall s, n <= List.length s ->
    (forall a, a < n -> (m s).2 !! a = s !! a) /\
    List.length s <= List.length (m s).2 /\
    match (m s).1 with Ok x => Q x | Raise _ => True end.

(** Calling a function of one frame on [d]: the store holds [d] at
    address 0; the result is the frame at the returned address. *)
Definition call (f : addr -> M addr) (d : DataFrame) : result DataFrame :=
  match f 0%nat [d] with
  | (Ok r, s') => match s' !! r with Some d' => Ok d' | None => Raise KeyError end
  | (Raise e, _) => Raise e
  end.

End Py.

Declare Scope py_scope.
Delimit Scope py_scope with py.
Notation "x <- m ;; k" := (Py.bind m (fun x => k))
  (at level 100, m at next level, right associativity) : py_scope.
Notation "m ;;; k" := (Py.bind m (fun _ => k))
  (at level 100, right associativity) : py_scope.

(** ** pcodes.py *)

Module Pcodes.
Import PyStr.

(** [strings_to_remove], in the order of the source. *)
Definition strings_to_remove : list Re.matcher :=
  [ Re.paren; Re.lit "city of"; Re.lit "city"; Re.brgy_dot; Re.lit "barangay";
    Re.lit "region"; Re.lit "province of"; Re.lit "municipality of";
    Re.lit "-"; Re.lit "*"; Re.lit "," ].

(** [numeral_dict], in insertion order. *)
Definition numeral_dict : list (string * string) :=
  [ ("i", " 1"); ("ii", " 2"); ("iii", " 3"); ("iv", " 4"); ("v", " 5");
    ("vi", " 6"); ("vii", " 7"); ("viii", " 8"); ("ix", " 9"); ("x", " 10");
    ("xi", " 11"); ("xii", " 12"); ("xiii", " 13") ].

Definition remove_all (pats : list Re.matcher) (s : string) : string :=
  fold_left (fun acc m => Re.sub m "" acc) pats s.

Definition convert_numerals (s : string) : string :=
  fold_left (fun acc ra => Re.sub (Re.numeral (fst ra)) (snd ra) acc) numeral_dict s.

(** [unidecode] is the identity on ASCII text. *)
Definition unidecode (s : string) : string := s.

(** [get_clean_names] on one element of the column. *)
Definition get_clean_names (origin : string) : string :=
  let new_column := casefold origin in
  let new_column := remove_all strings_to_remove new_column in
  let new_column := Re.sub (Re.lit ".") "" new_column in
  let new_column := unidecode new_column in
  let new_column := convert_numerals new_column in
  let new_column := Re.sub (Re.lit "st.") "san" new_column in
  let new_column := Re.sub (Re.lit "sta.") "santa" new_column in
  strip new_column.

(** The word-level patterns of the pipeline: the parenthetical, the
    noise words and the thirteen numeral tokens. *)
Definition noise_patterns : list Re.matcher :=
  [ Re.paren; Re.lit "city of"; Re.lit "city"; Re.brgy_dot; Re.lit "barangay";
    Re.lit "region"; Re.lit "province of"; Re.lit "municipality of" ]
  ++ map (fun ra => Re.numeral (fst ra)) numeral_dict.

(** Some word-level pattern still matches somewhere in [s]. *)
Definition residual_noise (s : string) : bool :=
  existsb (fun m => Re.search m s) noise_patterns.

(** The input is ASCII text, the domain of this embedding. *)
Definition ascii_text (s : string) : bool :=
  forall_str (fun c => (nat_of_ascii c <? 128)%nat) s.

(** The characters that a key may hold. *)
Definition key_char (c : ascii) : bool :=
  not_upper c && not_char "." c && not_char "-" c && not_char "*" c && not_char "," c.

(** *** [add_pcodes] *)

Import Pd Py.
Local Open Scope py_scope.

(** One line of [data/phl_adminareas_fixed.csv]; an empty field of the
    file is read as [NaN]. *)
Record gaz_row := mkGaz {
  ADM1_EN : option string; ADM1_new : option string; adm1_clean : option string;
  ADM2_EN : option string; ADM2_new : option string; adm2_clean : option string;
  ADM3_EN : option string; ADM3_new : option string; adm3_clean : option string;
  ADM4_EN : option string; ADM4_new : option string; adm4_clean : option string
}.

Definition cell_of (o : option string) : cell :=
  match o with Some x => CStr x | None => CNaN end.

(** [get_clean_names(output_df[c].fillna(''))] on one element; the
    string methods of pandas and [unidecode] do not accept a number. *)
Definition clean_cell (c : cell) : result cell :=
  match c with
  | CStr x => Ok (CStr (get_clean_names x))
  | CNum _ | CBool _ => Raise AttributeError
  | CNone | CNaN | CNA => Ok (CStr (get_clean_names ""))
  end.

(** The string held by one of the [*_clean] columns. *)
Definition text (c : cell) : string :=
  match c with CStr x => x | _ => "" end.

(** [s.fillna(other)] on one element *)
Definition fillna (v other : cell) : cell := if isna v then other else v.

(** ['c' in df.columns and df['c'].notna().any()] *)
Definition has_values (c : string) (df : DataFrame) : bool :=
  has_column c df && existsb (fun r => notna (get r c)) (rows df).

Definition score_cutoff : Z := 80.

(** The cells of the name columns are strings or nulls. *)
Definition is_text (c : cell) : bool :=
  match c with CNum _ | CBool _ => false | _ => true end.

Definition name_columns : list string := ["Region"; "Province"; "Municipality"; "Barangay"].

Definition names_are_text (df : DataFrame) : Prop :=
  forall r c, r ∈ rows df -> c ∈ name_columns -> is_text (get r c) = true.

(** The labels that [add_pcodes] writes. *)
Definition adm_labels : list string :=
  ["ADM1_EN"; "ADM1_PCODE"; "ADM2_EN"; "ADM2_PCODE";
   "ADM3_EN"; "ADM3_PCODE"; "ADM4_EN"; "ADM4_PCODE"].

(** All the labels that [add_pcodes] writes or drops. *)
Definition pcode_labels : list string :=
  ["ADM0_EN"; "ADM0_PCODE"; "region_clean"; "province_clean"; "mun_clean"; "brgy_clean";
   "ADM1_EN"; "ADM1_PCODE"; "ADM2_EN"; "ADM2_PCODE"; "ADM1_EN_check"; "ADM1_PCODE_check";
   "ADM3_EN"; "ADM3_PCODE"; "ADM4_EN"; "ADM4_PCODE"].

(** An output row next to its input row: the cells that [add_pcodes] does
    not own are the same, and the country is set. *)
Definition coded_from (r r0 : gmap string cell) : Prop :=
  (forall c, c ∉ pcode_labels -> get r c = get r0 c) /\
  get r "ADM0_EN" = CStr "Philippines" /\ get r "ADM0_PCODE" = CStr "PH".

(** The input frame does not hold values under those labels yet. *)
Definition without_pcodes (df : DataFrame) : Prop :=
  forall r c, r ∈ rows df -> c ∈ adm_labels -> isna (get r c) = true.

Section AddPcodes.

(** The scorer of thefuzz ([WRatio] after the default processor), a
    number from 0 to 100. *)
Variable scorer : string -> string -> Z.

(** The reference table [pcode_df], loaded once from the CSV file. *)
Variable pcode_df : list gaz_row.

(** One step of the scan of [extractOne]: a choice replaces the best one
    so far when it reaches the cutoff and scores strictly higher. *)
Definition pick (query : string) (cutoff : Z) (best : option (string * Z))
    (choice : string) : option (string * Z) :=
  let score := scorer query choice in
  if (cutoff <=? score)%Z
     && match best with Some (_, b) => (b <? score)%Z | None => true end
  then Some (choice, score) else best.

(** [process.extractOne(query, choices, score_cutoff=cutoff)]: the
    choice of highest score among those that reach the cutoff, the
    first one on a tie; [None] when no choice reaches it. *)
Definition extractOne (query : string) (choices : list string) (cutoff : Z)
    : option (string * Z) :=
  fold_left (pick query cutoff) choices None.

(** What the best choice so far stands for, after the choices [seen]. *)
Definition sound_best (query : string) (cutoff : Z) (seen : list string)
    (best : option (string * Z)) : Prop :=
  match best with
  | Some (c, sc) =>
      c ∈ seen /\ sc = scorer query c /\ (cutoff <= sc)%Z /\
      (forall d, d ∈ seen -> (scorer query d <= sc)%Z)
  | None => forall d, d ∈ seen -> (scorer query d < cutoff)%Z
  end.

Definition region_list : list string := unique (omap adm1_clean pcode_df).
Definition province_list : list string := unique (omap adm2_clean pcode_df).

Definition match_region (clean_name : string) : result (list cell) :=
  if is_empty clean_name then Ok [CNone; CNone]
  else
    match extractOne clean_name region_list score_cutoff with
    | Some (matched_name, _) =>
        match List.filter (fun g => bool_decide (adm1_clean g = Some matched_name)) pcode_df with
        | pcode_row :: _ =>
            Ok [cell_of (ADM1_EN pcode_row); cell_of (ADM1_new pcode_row)]
        | [] => Raise IndexError
        end
    | None => Ok [CNone; CNone]
    end.

Definition match_province (row : gmap string cell) : result (list cell) :=
  if is_empty (text (get row "province_clean")) then Ok [CNone; CNone; CNone; CNone]
  else
    match extractOne (text (get row "province_clean")) province_list score_cutoff with
    | Some (matched_name, _) =>
        match List.filter (fun g => bool_decide (adm2_clean g = Some matched_name)) pcode_df with
        | pcode_row :: _ =>
            Ok [cell_of (ADM2_EN pcode_row); cell_of (ADM2_new pcode_row);
                cell_of (ADM1_EN pcode_row); cell_of (ADM1_new pcode_row)]
        | [] => Raise IndexError
        end
    | None => Ok [CNone; CNone; CNone; CNone]
    end.

Definition match_municipality (row : gmap string cell) : result (list cell) :=
  if is_empty (text (get row "mun_clean")) || isna (get row "ADM2_PCODE")
  then Ok [CNone; CNone]
  else
    let in_province :=
      List.filter (fun g => eq_elem (cell_of (ADM2_new g)) (get row "ADM2_PCODE")) pcode_df in
    let mun_list := unique (omap adm3_clean in_province) in
    match mun_list with
    | [] => Ok [CNone; CNone]
    | _ =>
        match extractOne (text (get row "mun_clean")) mun_list score_cutoff with
        | Some (matched_name, _) =>
            match List.filter (fun g => bool_decide (adm3_clean g = Some matched_name))
                    in_province with
            | pcode_row :: _ =>
                Ok [cell_of (ADM3_EN pcode_row); cell_of (ADM3_new pcode_row)]
            | [] => Ok [CNone; CNone]
            end
        | None => Ok [CNone; CNone]
        end
    end.

Definition match_barangay (row : gmap string cell) : result (list cell) :=
  if is_empty (text (get row "brgy_clean")) || isna (get row "ADM3_PCODE")
  then Ok [CNone; CNone]
  else
    let in_municipality :=
      List.filter (fun g => eq_elem (cell_of (ADM3_new g)) (get row "ADM3_PCODE")) pcode_df in
    let brgy_list := unique (omap adm4_clean in_municipality) in
    match brgy_list with
    | [] => Ok [CNone; CNone]
    | _ =>
        match extractOne (text (get row "brgy_clean")) brgy_list score_cutoff with
        | Some (matched_name, _) =>
            match List.filter (fun g => bool_decide (adm4_clean g = Some matched_name))
                    in_municipality with
            | pcode_row :: _ =>
                Ok [cell_of (ADM4_EN pcode_row); cell_of (ADM4_new pcode_row)]
            | [] => Ok [CNone; CNone]
            end
        | None => Ok [CNone; CNone]
        end
    end.

Definition cols_to_drop : list string :=
  ["region_clean"; "province_clean"; "mun_clean"; "brgy_clean"].

Definition add_pcodes (df : addr) : M addr :=
  output_df <- new_from df Ok ;;
  mutate output_df (fun d => Ok (assign "ADM0_EN" (fun _ => CStr "Philippines") d)) ;;;
  mutate output_df (fun d => Ok (assign "ADM0_PCODE" (fun _ => CStr "PH") d)) ;;;
  has_region <- peek output_df (has_column "Region") ;;
  if negb has_region then ret output_df else
  mutate output_df (assign_try "region_clean" (fun r => clean_cell (get r "Region"))) ;;;
  has_province <- peek output_df (has_values "Province") ;;
  has_municipality <- peek output_df (has_values "Municipality") ;;
  has_barangay <- peek output_df (has_values "Barangay") ;;
  (if has_province
   then mutate output_df (assign_try "province_clean" (fun r => clean_cell (get r "Province")))
   else ret tt) ;;;
  (if has_municipality
   then mutate output_df (assign_try "mun_clean" (fun r => clean_cell (get r "Municipality")))
   else ret tt) ;;;
  (if has_barangay
   then mutate output_df (assign_try "brgy_clean" (fun r => clean_cell (get r "Barangay")))
   else ret tt) ;;;
  mutate output_df
    (apply_rows ["ADM1_EN"; "ADM1_PCODE"]
       (fun r => match_region (text (get r "region_clean")))) ;;;
  output_df <-
    (if has_province then
       mutate output_df
         (apply_rows ["ADM2_EN"; "ADM2_PCODE"; "ADM1_EN_check"; "ADM1_PCODE_check"]
            match_province) ;;;
       mutate output_df
         (fun d => Ok (assign "ADM1_EN"
                         (fun r => fillna (get r "ADM1_EN") (get r "ADM1_EN_check")) d)) ;;;
       mutate output_df
         (fun d => Ok (assign "ADM1_PCODE"
                         (fun r => fillna (get r "ADM1_PCODE") (get r "ADM1_PCODE_check")) d)) ;;;
       new_from output_df
         (fun d => Ok (drop_columns ["ADM1_EN_check"; "ADM1_PCODE_check"] d))
     else ret output_df) ;;
  (if has_municipality && has_province
   then mutate output_df (apply_rows ["ADM3_EN"; "ADM3_PCODE"] match_municipality)
   else ret tt) ;;;
  (if has_barangay && has_municipality
   then mutate output_df (apply_rows ["ADM4_EN"; "ADM4_PCODE"] match_barangay)
   else ret tt) ;;;
  new_from output_df
    (fun d => Ok (drop_columns
                    (List.filter (fun c => has_column c d) cols_to_drop) d)).

(** The effect of [add_pcodes] on one row, stage by stage ([add_pcodes_rows]
    below shows that this is what the function computes on each row of a
    frame with a [Region] column). *)
Definition with_clean_names (has_province has_municipality has_barangay : bool)
    (r : gmap string cell) : gmap string cell :=
  when has_barangay
    (set_cell "brgy_clean" (fun r => value_or CNaN (clean_cell (get r "Barangay"))))
    (when has_municipality
       (set_cell "mun_clean" (fun r => value_or CNaN (clean_cell (get r "Municipality"))))
       (when has_province
          (set_cell "province_clean" (fun r => value_or CNaN (clean_cell (get r "Province"))))
          (set_cell "region_clean" (fun r => value_or CNaN (clean_cell (get r "Region")))
             (set_cell "ADM0_PCODE" (fun _ => CStr "PH")
                (set_cell "ADM0_EN" (fun _ => CStr "Philippines") r))))).

Definition with_region (r : gmap string cell) : gmap string cell :=
  spread_cells ["ADM1_EN"; "ADM1_PCODE"]
    (fun r => value_or [] (match_region (text (get r "region_clean")))) r.

Definition with_province (r : gmap string cell) : gmap string cell :=
  drop_cells ["ADM1_EN_check"; "ADM1_PCODE_check"]
    (set_cell "ADM1_PCODE" (fun r => fillna (get r "ADM1_PCODE") (get r "ADM1_PCODE_check"))
       (set_cell "ADM1_EN" (fun r => fillna (get r "ADM1_EN") (get r "ADM1_EN_check"))
          (spread_cells ["ADM2_EN"; "ADM2_PCODE"; "ADM1_EN_check"; "ADM1_PCODE_check"]
             (fun r => value_or [] (match_province r)) r))).

Definition with_municipality (r : gmap string cell) : gmap string cell :=
  spread_cells ["ADM3_EN"; "ADM3_PCODE"] (fun r => value_or [] (match_municipality r)) r.

Definition with_barangay (r : gmap string cell) : gmap string cell :=
  spread_cells ["ADM4_EN"; "ADM4_PCODE"] (fun r => value_or [] (match_barangay r)) r.

Definition add_pcodes_row (has_province has_municipality has_barangay : bool)
    (dropped : list string) (r : gmap string cell) : gmap string cell :=
  drop_cells dropped
    (when (has_barangay && has_municipality) with_barangay
       (when (has_municipality && has_province) with_municipality
          (when has_province with_province
             (with_region
                (with_clean_names has_province has_municipality has_barangay r))))).

(** What the cascade guarantees on one output row (C1 as amended).  A
    Province code comes from a line of the table whose clean name scores
    at least the cutoff against the cleaned Province text, whatever its
    Region. *)
Definition province_from_table (r : gmap string cell) : Prop :=
  notna (get r "ADM2_PCODE") = true ->
  exists g m,
    g ∈ pcode_df /\ adm2_clean g = Some m /\
    (score_cutoff <= scorer (get_clean_names (text (get r "Province"))) m)%Z /\
    get r "ADM2_EN" = cell_of (ADM2_EN g) /\
    get r "ADM2_PCODE" = cell_of (ADM2_new g).

(** A Municipality code comes from a line under the Province code of the
    row. *)
Definition municipality_under_province (r : gmap string cell) : Prop :=
  notna (get r "ADM3_PCODE") = true ->
  exists g m,
    g ∈ pcode_df /\ cell_of (ADM2_new g) = get r "ADM2_PCODE" /\
    adm3_clean g = Some m /\
    (score_cutoff <= scorer (get_clean_names (text (get r "Municipality"))) m)%Z /\
    get r "ADM3_EN" = cell_of (ADM3_EN g) /\
    get r "ADM3_PCODE" = cell_of (ADM3_new g).

(** A Barangay code comes from a line under the Municipality code of the
    row. *)
Definition barangay_under_municipality (r : gmap string cell) : Prop :=
  notna (get r "ADM4_PCODE") = true ->
  exists g m,
    g ∈ pcode_df /\ cell_of (ADM3_new g) = get r "ADM3_PCODE" /\
    adm4_clean g = Some m /\
    (score_cutoff <= scorer (get_clean_names (text (get r "Barangay"))) m)%Z /\
    get r "ADM4_EN" = cell_of (ADM4_EN g) /\
    get r "ADM4_PCODE" = cell_of (ADM4_new g).

(** A miss at the Province or Municipality level leaves the levels below
    null (C3 as amended). *)
Definition misses_propagate (r : gmap string cell) : Prop :=
  (isna (get r "ADM2_PCODE") = true ->
   isna (get r "ADM3_EN") = true /\ isna (get r "ADM3_PCODE") = true /\
   isna (get r "ADM4_EN") = true /\ isna (get r "ADM4_PCODE") = true) /\
  (isna (get r "ADM3_PCODE") = true ->
   isna (get r "ADM4_EN") = true /\ isna (get r "ADM4_PCODE") = true).

(** C1 as the specification states it for the Province level, read on
    one output row: the line of the table behind the Province code lies
    under the Region code of the row. *)
Definition province_under_resolved_region (r : gmap string cell) : Prop :=
  forall code, get r "ADM2_PCODE" = CStr code ->
    exists g, g ∈ pcode_df /\ ADM2_new g = Some code /\
              cell_of (ADM1_new g) = get r "ADM1_PCODE".

End AddPcodes.

End Pcodes.

(** ** dromic_extractor.py: the sibling cleaning function *)

Module Dromic.
Import PyStr.

Definition strings_to_remove : list Re.matcher :=
  [ Re.paren; Re.lit "city of"; Re.lit "city"; Re.brgy_dot; Re.lit "barangay";
    Re.lit "region"; Re.lit "-"; Re.lit "*" ].

Definition get_clean_names (origin : string) : string :=
  let new_column := casefold origin in
  let new_column := Pcodes.remove_all strings_to_remove new_column in
  let new_column := Pcodes.unidecode new_column in
  let new_column := Pcodes.convert_numerals new_column in
  let new_column := Re.sub (Re.lit "st.") "san" new_column in
  let new_column := Re.sub (Re.lit "sta.") "santa" new_column in
  strip new_column.

End Dromic.

(** ** transformations.py *)

Module Transformations.
Import PyStr Pd Py.
Local Open Scope py_scope.

(** [str(x)] of a cell.  The Location column holds text or nulls; a
    number is printed as an integer. *)
Definition py_str (c : cell) : string :=
  match c with
  | CNone => "None"
  | CNaN => "nan"
  | CNA => "<NA>"
  | CStr x => x
  | CNum z => NilEmpty.string_of_int (Z.to_int z)
  | CBool true => "True"
  | CBool false => "False"
  end.

(** [pd.notna(x) and str(x).strip() != ''] *)
Definition is_filled (c : cell) : bool :=
  notna c && negb (is_empty (strip (py_str c))).

(** A numeric column read as numbers: the column [Affected_Persons] holds
    numbers or nulls (its only provider converts it with
    [pd.to_numeric(errors='coerce')]). *)
Definition num (c : cell) : option Z :=
  match c with CNum z => Some z | _ => None end.

Definition truth (c : cell) : bool :=
  match c with CBool b => b | _ => false end.

(** [df[c].unique()]: the values in order of first appearance. *)
Fixpoint unique_cells (l : list cell) : list cell :=
  match l with
  | [] => []
  | x :: l' => x :: List.filter (fun y => negb (bool_decide (x = y))) (unique_cells l')
  end.

Section Hierarchy.

(** The three tables of [config.py]. *)
Variable REGION_IDENTIFIERS : list string.
Variable REGION_PROVINCE_MAP : gmap string (list string).
Variable HUCS : gmap string string.

(** The column that marks the header rows ([subtotal_col]); the location
    column is ['Location'], as every caller passes it and as the body of
    the function itself assumes. *)
Variable subtotal_col : string.

Definition in_list (x : string) (l : list string) : bool := bool_decide (x ∈ l).

(** [location in HUCS and HUCS.get(location) == region] *)
Definition huc_of (location region : string) : bool :=
  bool_decide (HUCS !! location = Some region).

(** STEP 0: [~df[location_col].str.contains('GRAND TOTAL', case=False, na=False)] *)
Definition not_grand_total (r : gmap string cell) : bool :=
  match get r "Location" with
  | CStr x => negb (contains "GRAND TOTAL" (upper x))
  | _ => true
  end.

(** STEP 3: the loop that marks the Region rows *)
Definition mark_region (r : gmap string cell) : cell :=
  if in_list (upper (strip (py_str (get r "Location")))) REGION_IDENTIFIERS
  then get r "Location" else get r "Region".

(** STEP 5: is the row a Province header (a HUC of its Region, or an
    upper-case name of the province list of its Region)? *)
Definition province_header (r : gmap string cell) : bool :=
  notna (get r "Region") && isna (get r "Province") &&
  (let region := upper (strip (py_str (get r "Region"))) in
   let location := upper (strip (py_str (get r "Location"))) in
   let original_location := strip (py_str (get r "Location")) in
   huc_of location region ||
   match REGION_PROVINCE_MAP !! region with
   | Some provinces => in_list location provinces && isupper original_location
   | None => false
   end).

Definition mark_province (r : gmap string cell) : gmap string cell :=
  if province_header r
  then <["Is_Province_Header" := CBool true]> (<["Province" := get r "Location"]> r)
  else r.

(** STEP 5d, the inner scan below a candidate row: does the running sum
    of [Affected_Persons] reach the total of the candidate exactly? *)
Fixpoint sum_reaches (region : cell) (province_list : list string) (province_total : Z)
    (cumsum : Z) (rows_below : list (gmap string cell)) : bool :=
  match rows_below with
  | [] => false
  | below_row :: rest =>
      if negb (eq_elem (get below_row "Region") region) then false
      else
        let below_location := strip (py_str (get below_row "Location")) in
        if is_empty below_location || String.eqb below_location "nan"
           || String.eqb below_location "None"
        then sum_reaches region province_list province_total cumsum rest
        else
          let below_affected := default 0%Z (num (get below_row "Affected_Persons")) in
          if (0 <? below_affected)%Z then
            if in_list (upper below_location) province_list
               && (province_total <=? 2 * below_affected)%Z
            then false
            else
              let cumsum := (cumsum + below_affected)%Z in
              if (cumsum =? province_total)%Z then true
              else if (province_total <? cumsum)%Z then false
              else sum_reaches region province_list province_total cumsum rest
          else sum_reaches region province_list province_total cumsum rest
  end.

Definition promote (r : gmap string cell) : gmap string cell :=
  <["Is_Province_Header" := CBool true]> (<["Province" := get r "Location"]> r).

(** One [test_idx] of STEP 5d. *)
Definition test_candidate (region : cell) (province_list : list string) (test_idx : nat)
    (l : list (gmap string cell)) : list (gmap string cell) :=
  match l !! test_idx with
  | None => l
  | Some test_row =>
      match num (get test_row "Affected_Persons") with
      | None => l
      | Some province_total =>
          if (province_total <=? 0)%Z then l
          else if sum_reaches region province_list province_total 0
                    (skipn (S test_idx) l)
               then alter promote test_idx l
               else l
      end
  end.

(** The index of [potential_province_rows] *)
Definition potential_province_rows (region : cell) (province_name : string)
    (l : list (gmap string cell)) : list nat :=
  List.filter
    (fun i =>
       match l !! i with
       | Some r =>
           eq_elem (get r "Region") region
           && match get r "Location" with
              | CStr x => String.eqb (upper x) (upper province_name)
              | _ => false
              end
           && isna (get r "Province")
       | None => false
       end)
    (seq 0 (List.length l)).

Definition sum_matching_provinces (l : list (gmap string cell)) : list (gmap string cell) :=
  fold_left
    (fun l region =>
       if isna region then l
       else
         match REGION_PROVINCE_MAP !! upper (strip (py_str region)) with
         | None => l
         | Some province_list =>
             fold_left
               (fun l province_name =>
                  fold_left (fun l test_idx => test_candidate region province_list test_idx l)
                    (potential_province_rows region province_name l) l)
               province_list l
         end)
    (unique_cells (map (fun r => get r "Region") l)) l.

(** STEP 5d as a whole *)
Definition step_5d (df : DataFrame) : DataFrame :=
  if has_column "Affected_Persons" df
  then mkDF (columns df) (sum_matching_provinces (rows df))
  else df.

(** STEP 5a and STEP 11: the row is the row of a HUC of its Region *)
Definition is_huc_row (r : gmap string cell) : bool :=
  if notna (get r "Province") && notna (get r "Region")
  then huc_of (upper (strip (py_str (get r "Province"))))
              (upper (strip (py_str (get r "Region"))))
  else false.

(** STEP 5b: [huc_backup], the (Region, Location, Province) of the HUC rows *)
Definition huc_backup (df : DataFrame) : list (cell * cell * cell) :=
  map (fun r => (get r "Region", get r "Location", get r "Province"))
      (List.filter (fun r => truth (get r "Is_HUC")) (rows df)).

(** STEP 6: the rows that are kept *)
Definition not_region_header (r : gmap string cell) : bool :=
  negb (eq_elem (get r "Region") (get r "Location")
        && isna (get r "Province") && negb (truth (get r "Is_HUC"))).

(** STEP 7a: one row of the backup written back *)
Definition restore_huc (huc_row : cell * cell * cell) (r : gmap string cell) : cell :=
  if eq_elem (get r "Region") huc_row.1.1 && eq_elem (get r "Location") huc_row.1.2
  then huc_row.2 else get r "Province".

Definition restore_hucs (backup : list (cell * cell * cell)) (df : DataFrame) : DataFrame :=
  fold_left (fun d huc_row => assign "Province" (restore_huc huc_row) d) backup df.

(** STEP 15: [df.drop_duplicates(keep='first')], on all the columns *)
Definition drop_exact_duplicates (df : DataFrame) : DataFrame :=
  drop_duplicates (columns df) df.

(** The amended invariant of the hierarchy columns of a row: each level
    that is set has its parent set. *)
Definition hierarchy_monotone (r : gmap string cell) : Prop :=
  (notna (get r "Municipality") = true -> notna (get r "Province") = true) /\
  (notna (get r "Province") = true -> notna (get r "Region") = true).

Definition province_has_region (r : gmap string cell) : Prop :=
  notna (get r "Province") = true -> notna (get r "Region") = true.

(** STEP 8 and STEP 10 test the location against the HUCs of the Region *)
Definition huc_location (r : gmap string cell) : bool :=
  let region := if notna (get r "Region")
                then upper (strip (py_str (get r "Region"))) else "" in
  let location := if notna (get r "Location")
                  then upper (strip (py_str (get r "Location"))) else "" in
  huc_of location region.

Definition mark_municipality (r : gmap string cell) : cell :=
  if huc_location r then get r "Location"
  else if is_filled (get r subtotal_col) then get r "Location"
  else get r "Municipality".

(** STEP 10 *)
Definition mark_barangay (r : gmap string cell) : gmap string cell :=
  if huc_location r || is_filled (get r subtotal_col)
  then <["Barangay" := CNone]> (<["Municipality" := get r "Location"]> r)
  else <["Barangay" := get r "Location"]> r.

(** STEP 11: the rows that are kept *)
Definition not_province_header (r : gmap string cell) : bool :=
  negb (truth (get r "Is_Province_Header") && negb (is_huc_row r)).

(** STEP 12 and 12a *)
Definition not_page_break (r : gmap string cell) : bool :=
  negb (eq_elem (get r "Location") (CStr "None")).

Definition has_location_text (r : gmap string cell) : bool :=
  notna (get r "Location") && negb (is_empty (strip (py_str (get r "Location")))).

Definition location_cols : list string := ["Region"; "Province"; "Municipality"; "Barangay"].

(** STEP 14 *)
Definition hierarchy_first (df : DataFrame) : DataFrame :=
  reorder (location_cols ++ List.filter (fun c => negb (in_list c location_cols)) (columns df)) df.

(** STEP 16 *)
Definition level_of (r : gmap string cell) : cell :=
  let barangay_filled := is_filled (get r "Barangay") in
  let has_location :=
    notna (get r "Location")
    && negb (is_empty (upper (strip (py_str (get r "Location")))))
    && negb (String.eqb (upper (strip (py_str (get r "Location")))) "NONE") in
  if notna (get r "Municipality") && negb barangay_filled && has_location
  then CStr "Municipality"
  else if barangay_filled then CStr "Barangay"
  else CNone.

Definition map_rows (f : gmap string cell -> gmap string cell) (df : DataFrame) : DataFrame :=
  mkDF (columns df) (map f (rows df)).

Definition extract_location_hierarchy (df : addr) : M addr :=
  (* STEP 1 *)
  df <- rebind df (fun d => d) ;;
  has_location_col <- peek df (has_column "Location") ;;
  if negb has_location_col then raise KeyError else
  (* STEP 0 *)
  df <- rebind df (select not_grand_total) ;;
  (* STEP 3 *)
  update df (assign "Region" (fun _ => CNone)) ;;;
  update df (assign "Region" mark_region) ;;;
  (* STEP 4 *)
  update df (ffill_column "Region") ;;;
  (* STEP 5 *)
  update df (assign "Province" (fun _ => CNone)) ;;;
  update df (assign "Is_Province_Header" (fun _ => CBool false)) ;;;
  update df (map_rows mark_province) ;;;
  (* STEP 5d *)
  update df step_5d ;;;
  (* STEP 5a *)
  update df (assign "Is_HUC" (fun r => CBool (is_huc_row r))) ;;;
  (* STEP 5b *)
  backup <- peek df huc_backup ;;
  update df (assign "Province"
               (fun r => if truth (get r "Is_HUC") then CNA else get r "Province")) ;;;
  (* STEP 6 *)
  df <- rebind df (select not_region_header) ;;
  (* STEP 7 *)
  update df (group_ffill_column ["Region"] "Province") ;;;
  (* STEP 7a *)
  update df (restore_hucs backup) ;;;
  (* STEP 8 *)
  update df (assign "Municipality" (fun _ => CNone)) ;;;
  has_subtotal_col <- peek df (fun d => has_column subtotal_col d || Nat.eqb (List.length (rows d)) 0) ;;
  if negb has_subtotal_col then raise KeyError else
  update df (assign "Municipality" mark_municipality) ;;;
  (* STEP 9 *)
  update df (group_ffill_column ["Region"; "Province"] "Municipality") ;;;
  (* STEP 10 *)
  update df (assign "Barangay" (fun _ => CNone)) ;;;
  update df (map_rows mark_barangay) ;;;
  (* STEP 11 *)
  df <- rebind df (select not_province_header) ;;
  (* STEP 12, 12a *)
  df <- rebind df (select not_page_break) ;;
  df <- rebind df (select has_location_text) ;;
  (* STEP 13 *)
  df <- rebind df (drop_columns ["Is_HUC"]) ;;
  (* STEP 14 *)
  df <- rebind df hierarchy_first ;;
  (* STEP 15 *)
  df <- rebind df drop_exact_duplicates ;;
  (* STEP 16 *)
  update df (assign "Level" (fun _ => CNone)) ;;;
  update df (assign "Level" level_of) ;;;
  ret df.

(** The frames that [extract_location_hierarchy] builds, step by step:
    through STEP 8's new column, where the sub-total column is first
    read, and from there to the end. *)
Definition province_frame (df : DataFrame) : DataFrame :=
  let d := select not_grand_total df in
  let d := assign "Region" (fun _ => CNone) d in
  let d := assign "Region" mark_region d in
  let d := ffill_column "Region" d in
  let d := assign "Province" (fun _ => CNone) d in
  let d := assign "Is_Province_Header" (fun _ => CBool false) d in
  let d := map_rows mark_province d in
  let d := step_5d d in
  let d := assign "Is_HUC" (fun r => CBool (is_huc_row r)) d in
  let backup := huc_backup d in
  let d := assign "Province"
             (fun r => if truth (get r "Is_HUC") then CNA else get r "Province") d in
  let d := select not_region_header d in
  let d := group_ffill_column ["Region"] "Province" d in
  let d := restore_hucs backup d in
  assign "Municipality" (fun _ => CNone) d.

Definition finish_frame (d : DataFrame) : DataFrame :=
  let d := assign "Municipality" mark_municipality d in
  let d := group_ffill_column ["Region"; "Province"] "Municipality" d in
  let d := assign "Barangay" (fun _ => CNone) d in
  let d := map_rows mark_barangay d in
  let d := select not_province_header d in
  let d := select not_page_break d in
  let d := select has_location_text d in
  let d := drop_columns ["Is_HUC"] d in
  let d := hierarchy_first d in
  let d := drop_exact_duplicates d in
  let d := assign "Level" (fun _ => CNone) d in
  assign "Level" level_of d.

Definition hierarchy_frame (df : DataFrame) : DataFrame :=
  finish_frame (province_frame df).

End Hierarchy.

(** The labels that [extract_location_hierarchy] writes. *)
Definition derived_labels : list string :=
  ["Region"; "Province"; "Is_Province_Header"; "Is_HUC"; "Municipality"; "Barangay"; "Level"].

(** Two rows hold the same cells under the labels outside [labels]. *)
Definition agree_off (labels : list string) (r r0 : gmap string cell) : Prop :=
  forall c, c ∉ labels -> get r c = get r0 c.

(** The rows [l] are, in their order, rows of [l0] up to the cells under
    [labels]: no row is new and no two rows change places. *)
Definition kept_in_order (labels : list string) (l l0 : list (gmap string cell)) : Prop :=
  exists l1, sublist l1 l0 /\ Forall2 (agree_off labels) l l1.

(** The three kinds of rows of the result. *)
Definition barangay_row (r : gmap string cell) : Prop :=
  get r "Level" = CStr "Barangay" /\ get r "Barangay" = get r "Location".

Definition municipality_row (r : gmap string cell) : Prop :=
  get r "Level" = CStr "Municipality" /\
  get r "Municipality" = get r "Location" /\ get r "Barangay" = CNone.

Definition unlabelled_row (r : gmap string cell) : Prop :=
  get r "Level" = CNone /\ upper (strip (py_str (get r "Location"))) = "NONE" /\
  get r "Municipality" = get r "Location" /\ get r "Barangay" = CNone.

(** *** [transform_damaged_houses] *)

(** [df.columns = new]: the cells keep their places, the labels change;
    a list of another length is refused. *)
Definition rename_columns (new : list string) (df : DataFrame) : result DataFrame :=
  if Nat.eqb (List.length (columns df)) (List.length new)
  then Ok (mkDF new (map (fun r => list_to_map (zip new (map (get r) (columns df))))
                         (rows df)))
  else Raise ValueError.

(** [cols.remove(c); cols.insert(cols.index(anchor) + 1, c)] *)
Fixpoint insert_after (anchor c : string) (cols : list string) : list string :=
  match cols with
  | [] => []
  | x :: cols' =>
      if String.eqb x anchor then x :: c :: cols' else x :: insert_after anchor c cols'
  end.

Definition move_after (anchor c : string) (cols : list string) : list string :=
  insert_after anchor c (List.filter (fun x => negb (String.eqb x c)) cols).

(** [a != b] on two scalars of Python: [NaN] differs from everything. *)
Definition py_ne (a b : cell) : bool :=
  match a, b with
  | CNaN, _ | _, CNaN => true
  | _, _ => negb (bool_decide (a = b))
  end.

(** The state of the loop of Step 16. *)
Record tracker := mkTracker {
  tracking : bool;               (* current_municipality_idx is not None *)
  municipality_total : Z;
  cumulative_total : Z;
  previous_province : cell
}.

Definition start : tracker := mkTracker false 0 0 CNone.

(** [row['Grand_Total_Damaged'] if pd.notna(...) else 0] *)
Definition damaged (r : gmap string cell) : Z :=
  default 0%Z (num (get r "Grand_Total_Damaged")).

Definition blank_location (location : string) : bool :=
  String.eqb location "" || String.eqb location "nan".

(** One turn of the loop of Step 16. *)
Definition classify (t : tracker) (r : gmap string cell) : tracker * gmap string cell :=
  let location := strip (py_str (get r "Location")) in
  let t := if py_ne (get r "Province") (previous_province t)
           then mkTracker false 0 0 (get r "Province") else t in
  if blank_location location
  then (mkTracker false 0 0 (previous_province t), r)
  else if tracking t then
    let cumulative := (cumulative_total t + damaged r)%Z in
    let r' := <["Barangay" := CStr location]> r in
    if (municipality_total t <=? cumulative)%Z
    then (mkTracker false 0 0 (previous_province t), r')
    else (mkTracker true (municipality_total t) cumulative (previous_province t), r')
  else
    (mkTracker true (damaged r) 0 (previous_province t),
     <["Municipality" := CStr location]> r).

Fixpoint identify (t : tracker) (l : list (gmap string cell)) : list (gmap string cell) :=
  match l with
  | [] => []
  | r :: l' => (classify t r).2 :: identify (classify t r).1 l'
  end.

(** The two marks of the loop, and the rows it reads as named. *)
Definition location_of (r : gmap string cell) : string := strip (py_str (get r "Location")).

Definition as_municipality (r : gmap string cell) : gmap string cell :=
  <["Municipality" := CStr (location_of r)]> r.

Definition as_barangay (r : gmap string cell) : gmap string cell :=
  <["Barangay" := CStr (location_of r)]> r.

(** A row before the loop: the two columns are new. *)
Definition unmarked (r : gmap string cell) : Prop :=
  get r "Municipality" = CNone /\ get r "Barangay" = CNone.

Definition named_in (p : cell) (r : gmap string cell) : Prop :=
  blank_location (location_of r) = false /\ get r "Province" = p.

(** Step 16 on the frame *)
Definition identify_frame (d : DataFrame) : DataFrame :=
  mkDF (columns d) (identify start (rows d)).

(** The tracker after the rows [l]. *)
Definition tracker_after (t : tracker) (l : list (gmap string cell)) : tracker :=
  fold_left (fun t r => (classify t r).1) l t.

Section Houses.

Variable REGION_IDENTIFIERS : list string.
Variable REGION_PROVINCE_MAP : gmap string (list string).

(** [pd.to_numeric(text, errors='coerce')] on one element: a number, or
    [NaN] for a text that is no number. *)
Variable to_numeric : string -> cell.

(** Step 14 on one cell *)
Definition to_number (c : cell) : cell :=
  to_numeric (Re.sub (Re.lit ",") "" (py_str c)).

(** Step 2 *)
Definition not_repeated_header (r : gmap string cell) : bool :=
  negb (eq_elem (get r "Totally_Damaged") (CStr "TOTALLY")).

(** Step 10 *)
Definition house_province (r : gmap string cell) : cell :=
  if notna (get r "Region") && isna (get r "Province") then
    let region := upper (strip (py_str (get r "Region"))) in
    let location := strip (py_str (get r "Location")) in
    match REGION_PROVINCE_MAP !! region with
    | Some provinces =>
        if bool_decide (upper location ∈ provinces) && isupper location
        then get r "Location" else get r "Province"
    | None => get r "Province"
    end
  else get r "Province".

(** Step 17.5 *)
Definition house_level (r : gmap string cell) : cell :=
  if notna (get r "Barangay") then CStr "Barangay"
  else if notna (get r "Municipality") then CStr "Municipality"
  else CNone.

(** Step 18 *)
Definition has_house_location (r : gmap string cell) : bool :=
  notna (get r "Location")
  && match get r "Location" with
     | CStr x => negb (is_empty (strip x)) && negb (String.eqb x "nan")
     | _ => true
     end.

Definition house_columns : list string :=
  ["Location"; "Totally_Damaged"; "Partially_Damaged"; "Grand_Total_Damaged";
   "Amount_PHP"; "Remarks"].

Definition numeric_cols : list string :=
  ["Totally_Damaged"; "Partially_Damaged"; "Grand_Total_Damaged"; "Amount_PHP"].

(** Step 2 to Step 15, on the frame with its new labels *)
Definition houses_provinces (d : DataFrame) : DataFrame :=
  (* Step 2, 2.5 *)
  let d := select not_repeated_header d in
  let d := select not_grand_total d in
  (* Step 4, 5 *)
  let d := assign "Region" (fun _ => CNone) d in
  let d := assign "Region" (mark_region REGION_IDENTIFIERS) d in
  (* Step 6 *)
  let d := reorder ("Region" :: List.filter (fun c => negb (String.eqb c "Region")) (columns d)) d in
  (* Step 7, 8 *)
  let d := ffill_column "Region" d in
  let d := select (fun r => negb (eq_elem (get r "Region") (get r "Location"))) d in
  (* Step 9, 10 *)
  let d := assign "Province" (fun _ => CNone) d in
  let d := assign "Province" house_province d in
  (* Step 11 *)
  let d := reorder (move_after "Region" "Province" (columns d)) d in
  (* Step 12, 13 *)
  let d := ffill_column "Province" d in
  let d := select (fun r => negb (eq_elem (get r "Province") (get r "Location"))) d in
  (* Step 14 *)
  let d := fold_left (fun d c => assign c (fun r => to_number (get r c)) d) numeric_cols d in
  (* Step 15 *)
  let d := assign "Municipality" (fun _ => CNone) d in
  assign "Barangay" (fun _ => CNone) d.

(** Step 16 to Step 19 *)
Definition houses_levels (d : DataFrame) : DataFrame :=
  (* Step 16 *)
  let d := identify_frame d in
  (* Step 17 *)
  let d := ffill_column "Municipality" d in
  (* Step 17.5 *)
  let d := assign "Level" (fun _ => CNone) d in
  let d := assign "Level" house_level d in
  (* Step 18 *)
  let d := select has_house_location d in
  (* Step 19 *)
  reorder (move_after "Municipality" "Barangay"
             (move_after "Province" "Municipality" (columns d))) d.

Definition houses_frame (d : DataFrame) : DataFrame :=
  houses_levels (houses_provinces d).

(** The function works on a copy of its argument from its first line on,
    so that it is a function of the value of the frame. *)
Definition transform_damaged_houses (df : DataFrame) : result DataFrame :=
  (* Step 1 *)
  rbind (rename_columns house_columns df) (fun d => Ok (houses_frame d)).

(** The totals of the rows [cs] fill the total of their Municipality, and
    do so at the last of them. *)
Fixpoint fills (total cumulative : Z) (cs : list (gmap string cell)) : bool :=
  match cs with
  | [] => false
  | c :: cs' =>
      if (total <=? cumulative + damaged c)%Z
      then match cs' with [] => true | _ => false end
      else fills total (cumulative + damaged c)%Z cs'
  end.

End Houses.

(** *** [transform_affected_population] *)

Section Population.

Variable REGION_IDENTIFIERS : list string.
Variable REGION_PROVINCE_MAP : gmap string (list string).
Variable HUCS : gmap string string.
Variable to_numeric : string -> cell.

Definition population_numeric : list string :=
  ["Sub-total"; "Affected_Brgys"; "Affected_Families"; "Affected_Persons";
   "ECs_CUM"; "ECs_NOW"; "Inside_Families_CUM"; "Inside_Families_NOW";
   "Inside_Persons_CUM"; "Inside_Persons_NOW"; "Outside_Families_CUM";
   "Outside_Families_NOW"; "Outside_Persons_CUM"; "Outside_Persons_NOW";
   "Total_Families_CUM"; "Total_Families_NOW"; "Total_Persons_CUM"; "Total_Persons_NOW"].

Definition population_columns : list string := "Location" :: population_numeric.

Definition flag_columns : list string :=
  ["Is_Province_Header"; "Is_Municipality_Header"; "_location_upper"; "_is_huc"].

(** [s.astype(str).str.upper().isin(HUCS)] on one element *)
Definition in_hucs (c : cell) : bool :=
  bool_decide (is_Some (HUCS !! upper (py_str c))).

(** [df['Location'].str.upper()] on one element *)
Definition location_upper (r : gmap string cell) : cell :=
  match get r "Location" with
  | CStr x => CStr (upper x)
  | _ => CNaN
  end.

(** [s.isin(HUCS.keys())] on one element *)
Definition is_huc_name (c : cell) : bool :=
  match c with
  | CStr x => bool_decide (is_Some (HUCS !! x))
  | _ => false
  end.

(** Step 3a: the rows that are kept *)
Definition with_subtotal_or_huc (r : gmap string cell) : bool :=
  is_filled (get r "Sub-total") || in_hucs (get r "Province") || in_hucs (get r "Location").

(** Step 4: [dropna(subset=numeric_columns, how='all')] *)
Definition some_number (r : gmap string cell) : bool :=
  existsb (fun c => notna (get r c)) population_numeric.

(** [pd.concat([a, b], ignore_index=True)] of two frames with the same
    columns; the index is new, so that sorting on it changes nothing. *)
Definition concat (a b : DataFrame) : DataFrame :=
  mkDF (columns a) (rows a ++ rows b).

(** [df.drop(columns=[c for c in labels if c in df.columns])] *)
Definition drop_present (labels : list string) (d : DataFrame) : DataFrame :=
  drop_columns (List.filter (fun c => has_column c d) labels) d.

(** Step 3a to Step 7, on the frame of the hierarchy *)
Definition population_frame (d : DataFrame) : DataFrame :=
  (* Step 3a *)
  let d := select with_subtotal_or_huc d in
  (* Step 3b *)
  let d := assign "_location_upper" location_upper d in
  let d := assign "_is_huc" (fun r => CBool (is_huc_name (get r "_location_upper"))) d in
  let non_huc_rows := select (fun r => negb (truth (get r "_is_huc"))) d in
  let huc_rows := select (fun r => truth (get r "_is_huc")) d in
  let huc_rows := drop_duplicates ["Region"; "_location_upper"] huc_rows in
  let d := concat non_huc_rows huc_rows in
  let d := drop_columns ["_location_upper"; "_is_huc"] d in
  (* Step 4 *)
  let d := select some_number d in
  (* Step 7 *)
  drop_present flag_columns d.

Definition transform_affected_population (df : DataFrame) : result DataFrame :=
  (* Step 1 *)
  let d := mkDF (columns df) (skipn 3 (rows df)) in
  (* Step 2 *)
  rbind (rename_columns population_columns d) (fun d =>
  (* Step 2a *)
  let d := fold_left (fun d c => assign c (fun r => to_number to_numeric (get r c)) d)
             population_numeric d in
  (* Step 3 *)
  rbind (call (extract_location_hierarchy REGION_IDENTIFIERS REGION_PROVINCE_MAP HUCS
                 "Sub-total") d)
        (fun d => Ok (population_frame d))).

(** The row is the row of a highly urbanized city, by its Location. *)
Definition huc_row (r : gmap string cell) : bool := is_huc_name (location_upper r).

End Population.

(** *** [transform_related_incidents], [transform_power], [transform_water_supply] *)

(** [df.dropna(subset=labels, how='all')] *)
Definition dropna_all (labels : list string) (d : DataFrame) : DataFrame :=
  select (fun r => existsb (fun c => notna (get r c)) labels) d.

Section Details.

Variable REGION_IDENTIFIERS : list string.
Variable REGION_PROVINCE_MAP : gmap string (list string).
Variable HUCS : gmap string string.
Variable to_numeric : string -> cell.

Definition incident_columns : list string :=
  ["Location"; "Sub-total"; "Type_of_Incident"; "Date_of_Occurrence";
   "Time_of_Occurrence"; "Description"; "Actions_Taken"; "Remarks"; "Status"].

Definition transform_related_incidents (df : DataFrame) : result DataFrame :=
  (* Step 1 *)
  rbind (rename_columns incident_columns df) (fun d =>
  (* Step 2 *)
  rbind (call (extract_location_hierarchy REGION_IDENTIFIERS REGION_PROVINCE_MAP HUCS
                 "Sub-total") d) (fun d =>
  (* Step 3 *)
  let d := assign "Sub-total" (fun r => to_number to_numeric (get r "Sub-total")) d in
  (* Step 4 *)
  let d := dropna_all ("Sub-total" :: ["Type_of_Incident"; "Date_of_Occurrence"; "Description"])
             d in
  (* Step X *)
  Ok (drop_present flag_columns d))).

Definition utility_columns : list string :=
  ["Location"; "Sub-total"; "Type"; "Service_Provider"; "Date_of_Interruption";
   "Time_of_Interruption"; "Date_Restored"; "Time_Restored"; "Remarks"].

Definition transform_power (df : DataFrame) : result DataFrame :=
  (* Step 1 *)
  rbind (rename_columns utility_columns df) (fun d =>
  (* Step 2 *)
  rbind (call (extract_location_hierarchy REGION_IDENTIFIERS REGION_PROVINCE_MAP HUCS
                 "Sub-total") d) (fun d =>
  (* Step 3 *)
  let d := assign "Sub-total" (fun r => to_number to_numeric (get r "Sub-total")) d in
  (* Step 4 *)
  Ok (dropna_all ("Sub-total" :: ["Type"; "Service_Provider"]) d))).

Definition transform_water_supply (df : DataFrame) : result DataFrame :=
  (* Step 1 *)
  rbind (rename_columns utility_columns df) (fun d =>
  (* Step 2 *)
  rbind (call (extract_location_hierarchy REGION_IDENTIFIERS REGION_PROVINCE_MAP HUCS
                 "Sub-total") d) (fun d =>
  (* Step 3 *)
  let d := assign "Sub-total" (fun r => to_number to_numeric (get r "Sub-total")) d in
  (* Step 4 *)
  Ok (dropna_all ("Sub-total" :: ["Type"; "Service_Provider"]) d))).

End Details.

(** The labels that these functions write or drop, besides renaming. *)
Definition detail_labels : list string :=
  derived_labels ++ ["Sub-total"] ++ flag_columns.

(** What the three functions promise of a table that is [width] columns
    wide, renamed to [labels]: the rows of the result are rows of the
    table, in its order, and none of them is empty under [subset]. *)
Definition keeps_named_rows (labels subset : list string) (df : DataFrame)
    (res : result DataFrame) : Prop :=
  exists d out,
    rename_columns labels df = Ok d /\ res = Ok out /\
    kept_in_order detail_labels (rows out) (rows d) /\
    Forall (fun r => existsb (fun c => notna (get r c)) subset = true) (rows out).

End Transformations.

(** ** dromic_extractor.py: [detect_admin_levels] *)

Module DromicLevels.
Import PyStr Pd Py.
Import Transformations (num, truth).

(** [DataFrame.all()] on one column of numbers: a zero is false, a missing
    value is skipped. *)
Definition all_nonzero (c : string) (df : DataFrame) : bool :=
  forallb (fun r => match get r c with CNum z => negb (z =? 0)%Z | _ => true end) (rows df).

(** The state of the counter loop: is the row at hand an [adm2] row, the
    value of the [adm2] row that is open, and the counter of the row
    before. *)
Record counter := mkCounter {
  at_adm2 : bool;
  adm2_value : option Z;
  previous_counter : Z
}.

(** One turn of the loop on the value [v] of the row, [next] being the
    value of the row after it, if there is one.  A missing value is
    [NaN], which [round] refuses.  The result is the pair of [adm2] and
    [adm3] of the row. *)
Definition count_row (st : counter) (v : option Z) (next : option (option Z))
    : result (bool * bool * counter) :=
  match adm2_value st with
  | None => Raise ValueError
  | Some total =>
      match (if at_adm2 st then Some 0%Z
             else match v with Some z => Some (previous_counter st + z)%Z | None => None end)
      with
      | None => Raise ValueError
      | Some adm3_counter =>
          let adm3 := (adm3_counter <=? total)%Z && (0 <? adm3_counter)%Z in
          if (adm3_counter =? total)%Z then
            Ok (at_adm2 st, adm3,
                match next with
                | Some v' => mkCounter true v' 0
                | None => mkCounter false (Some total) 0
                end)
          else Ok (at_adm2 st, adm3, mkCounter false (Some total) adm3_counter)
      end
  end.

Fixpoint count_rows (st : counter) (vs : list (option Z)) : result (list (bool * bool)) :=
  match vs with
  | [] => Ok []
  | v :: vs' =>
      rbind (count_row st v (head vs')) (fun '(adm2, adm3, st') =>
      rbind (count_rows st' vs') (fun flags => Ok ((adm2, adm3) :: flags)))
  end.

(** The rows below an [adm2] row of value [total]: do their values sum
    to [total] exactly, at the last of them?  And the flags they get. *)
Fixpoint reaches (total c : Z) (zs : list Z) : bool :=
  match zs with
  | [] => false
  | z :: zs' =>
      if (c + z =? total)%Z then match zs' with [] => true | _ => false end
      else reaches total (c + z)%Z zs'
  end.

Fixpoint child_flags (total c : Z) (zs : list Z) : list (bool * bool) :=
  match zs with
  | [] => []
  | z :: zs' =>
      (false, (c + z <=? total)%Z && (0 <? c + z)%Z) :: child_flags total (c + z)%Z zs'
  end.

(** [pd.merge(..., how="outer")] on the old index: a row that the counter
    has not seen gets no [adm2] and no [adm3]. *)
Fixpoint merge_flags (l : list (gmap string cell)) (flags : list (bool * bool))
    : list (gmap string cell) :=
  match l with
  | [] => []
  | r :: l' =>
      if truth (get r "adm0") || truth (get r "adm1") || truth (get r "huc")
      then <["adm3" := CNaN]> (<["adm2" := CNaN]> r) :: merge_flags l' flags
      else match flags with
           | (adm2, adm3) :: flags' =>
               <["adm3" := CBool adm3]> (<["adm2" := CBool adm2]> r) :: merge_flags l' flags'
           | [] => <["adm3" := CNaN]> (<["adm2" := CNaN]> r) :: merge_flags l' []
           end
  end.

(** [reset_index()]: the old index becomes the first column. *)
Definition reset_index (df : DataFrame) : DataFrame :=
  mkDF ("index" :: columns df)
       (imap (fun i r => <["index" := CNum (Z.of_nat i)]> r) (rows df)).

Section AdminLevels.

(** The labels of the columns of a number dtype, in the order of the
    columns ([select_dtypes(include=np.number)]). *)
Variable numeric : list string.

(** [data/hucs_and_pcodes.csv]: the columns [city_first] and [city_last],
    or nothing when the file is not found. *)
Variable huc_df : option (list string * list string).

Definition is_adm0 (name : cell) : bool :=
  match name with CStr x => contains "GRAND TOTAL" x | _ => false end.

Definition is_adm1 (name : cell) : bool :=
  match name with CStr x => isupper x && negb (contains "GRAND TOTAL" x) | _ => false end.

Definition is_huc (name : cell) : bool :=
  match huc_df, name with
  | Some (city_first, city_last), CStr x =>
      if String.eqb x "City of Manila" then false
      else if String.eqb x "Ormoc City" then true
      else bool_decide (strip x ∈ city_first) || bool_decide (strip x ∈ city_last)
  | _, _ => false
  end.

Definition flag_rows (c0 : string) (df : DataFrame) : DataFrame :=
  assign "huc" (fun r => CBool (is_huc (get r c0)))
    (assign "adm1" (fun r => CBool (is_adm1 (get r c0)))
       (assign "adm0" (fun r => CBool (is_adm0 (get r c0))) df)).

(** The three flags on one row *)
Definition flagged (c0 : string) (r : gmap string cell) : gmap string cell :=
  set_cell "huc" (fun r => CBool (is_huc (get r c0)))
    (set_cell "adm1" (fun r => CBool (is_adm1 (get r c0)))
       (set_cell "adm0" (fun r => CBool (is_adm0 (get r c0))) r)).

(** The rows of [admin2_3] *)
Definition counted (r : gmap string cell) : bool :=
  negb (truth (get r "adm0")) && negb (truth (get r "adm1")) && negb (truth (get r "huc")).

Definition detect_admin_levels (df : DataFrame) : result DataFrame :=
  match List.filter (fun c => all_nonzero c df) numeric with
  | [] => Raise ValueError
  | first_numcol :: _ =>
      match columns df with
      | [] => Raise IndexError
      | c0 :: _ =>
          let admin_table := flag_rows c0 df in
          let admin2_3 := List.filter counted (rows admin_table) in
          let values := map (fun r => num (get r first_numcol)) admin2_3 in
          match values with
          | [] => Raise IndexError
          | v0 :: _ =>
              rbind (count_rows (mkCounter true v0 0) values) (fun flags =>
              let admin_table := reset_index admin_table in
              Ok (mkDF (columns admin_table ++ ["adm2"; "adm3"])
                       (merge_flags (rows admin_table) flags)))
          end
      end
  end.

(** The labels that [detect_admin_levels] adds. *)
Definition level_labels : list string := ["index"; "adm0"; "adm1"; "huc"; "adm2"; "adm3"].

(** A row of the result next to its row of the input, the names being in
    column [c0]. *)
Definition levelled (c0 : string) (r r0 : gmap string cell) : Prop :=
  (forall c, c ∉ level_labels -> get r c = get r0 c) /\
  get r "adm0" = CBool (is_adm0 (get r0 c0)) /\
  get r "adm1" = CBool (is_adm1 (get r0 c0)) /\
  get r "huc" = CBool (is_huc (get r0 c0)) /\
  (is_adm0 (get r0 c0) || is_adm1 (get r0 c0) || is_huc (get r0 c0) = true ->
   get r "adm2" = CNaN /\ get r "adm3" = CNaN).

End AdminLevels.

End DromicLevels.

(** ** Sample data *)

Module Samples.
Import Pd Py Pcodes.

(** A scorer that, like thefuzz, gives 100 to equal strings; it gives 80
    when one string starts with the other and 0 otherwise. *)
Definition sample_scorer (a b : string) : Z :=
  if String.eqb a b then 100%Z
  else if String.prefix a b || String.prefix b a then 80%Z
  else 0%Z.

Definition gaz_line (r1 c1 p c2 m c3 b c4 : string) : gaz_row :=
  mkGaz (Some r1) (Some c1) (Some (get_clean_names r1))
        (Some p) (Some c2) (Some (get_clean_names p))
        (Some m) (Some c3) (Some (get_clean_names m))
        (Some b) (Some c4) (Some (get_clean_names b)).

Definition sample_pcode_df : list gaz_row :=
  [ gaz_line "Ilocos" "PH01" "Pangasinan" "PH0155" "Dagupan" "PH015518"
             "Lucao" "PH015518001";
    gaz_line "Cordillera" "PH14" "Abra" "PH1401" "Bangued" "PH140101"
             "Agtangao" "PH140101001" ].

Definition names_row (region province municipality barangay : cell) : gmap string cell :=
  list_to_map [ ("Region", region); ("Province", province);
                ("Municipality", municipality); ("Barangay", barangay) ].

Definition names_frame (l : list (gmap string cell)) : DataFrame :=
  mkDF ["Region"; "Province"; "Municipality"; "Barangay"] l.

(** A Province of another Region than the one of the row. *)
Definition frame_wrong_region : DataFrame :=
  names_frame [ names_row (CStr "Ilocos") (CStr "Abra") (CStr "Bangued") (CStr "Lucao") ].

(** A Region text that matches nothing. *)
Definition frame_no_region : DataFrame :=
  names_frame [ names_row (CStr "Qqq") (CStr "Abra") (CStr "Bangued") (CStr "Agtangao") ].

(** A frame without a Region column, and one with a number for Region. *)
Definition frame_provinces_only : DataFrame :=
  mkDF ["Province"] [ {[ "Province" := CStr "Abra" ]} ].

Definition frame_number_region : DataFrame :=
  names_frame [ names_row (CNum 14) (CStr "Abra") (CStr "Bangued") (CStr "Agtangao") ].

(** The tables of [config.py] cut down to one Region, and a report page
    with its header rows. *)
Definition sample_regions : list string := ["REGION IV-A"].

Definition sample_province_map : gmap string (list string) :=
  {[ "REGION IV-A" := ["CAVITE"; "LAGUNA"] ]}.

Definition sample_hucs : gmap string string := {[ "LUCENA CITY" := "REGION IV-A" ]}.

Definition location_row (location subtotal : cell) : gmap string cell :=
  list_to_map [ ("Location", location); ("Sub-total", subtotal) ].

Definition location_frame (l : list (gmap string cell)) : DataFrame :=
  mkDF ["Location"; "Sub-total"] l.

Definition frame_tagaytay : DataFrame :=
  location_frame
    [ location_row (CStr "GRAND TOTAL") (CNum 120);
      location_row (CStr "REGION IV-A") CNaN;
      location_row (CStr "CAVITE") CNaN;
      location_row (CStr "Tagaytay City") (CNum 120);
      location_row (CStr "Brgy. Sungay") CNaN;
      location_row (CStr "Brgy. Iruhin") CNaN ].

(** A frame without the sub-total column. *)
Definition frame_locations_only : DataFrame :=
  mkDF ["Location"] [ {[ "Location" := CStr "Tagaytay City" ]} ].

(** A Municipality of fifty damaged houses and its three Barangays. *)
Definition house_row (location : string) (total : Z) : gmap string cell :=
  list_to_map [ ("Location", CStr location); ("Province", CStr "CAVITE");
                ("Grand_Total_Damaged", CNum total) ].

Definition houses_of_tagaytay : list (gmap string cell) :=
  [ house_row "Sungay" 20; house_row "Iruhin" 15; house_row "Kaybagal" 15 ].

(** A table of damaged houses as it is extracted, six columns wide, and a
    reader of numbers for its cells. *)
Definition extracted_row (location total : string) : gmap string cell :=
  list_to_map [ ("0", CStr location); ("1", CStr "-"); ("2", CStr total);
                ("3", CStr total); ("4", CStr "-"); ("5", CNone) ].

Definition frame_houses : DataFrame :=
  mkDF ["0"; "1"; "2"; "3"; "4"; "5"]
    [ extracted_row "REGION IV-A" "50"; extracted_row "CAVITE" "50";
      extracted_row "Tagaytay City" "50"; extracted_row "Sungay" "20";
      extracted_row "Iruhin" "15"; extracted_row "Kaybagal" "15" ].

Definition sample_to_numeric (s : string) : cell :=
  if String.eqb s "50" then CNum 50
  else if String.eqb s "20" then CNum 20
  else if String.eqb s "15" then CNum 15
  else CNaN.

(** A DROMIC table: names and one column of numbers. *)
Definition dromic_row (name : string) (houses : cell) : gmap string cell :=
  list_to_map [ ("name", CStr name); ("houses", houses) ].

Definition dromic_frame (l : list (gmap string cell)) : DataFrame :=
  mkDF ["name"; "houses"] l.

Definition frame_abra : DataFrame :=
  dromic_frame
    [ dromic_row "GRAND TOTAL" (CNum 50); dromic_row "REGION I" (CNum 50);
      dromic_row "Abra" (CNum 50); dromic_row "Bangued" (CNum 20);
      dromic_row "Lagangilang" (CNum 30) ].

Definition frame_with_zero : DataFrame :=
  dromic_frame [ dromic_row "GRAND TOTAL" (CNum 50); dromic_row "Abra" (CNum 0) ].

(** A table of the affected population as it is extracted: nineteen
    columns, three header rows, a city before a municipality. *)
Definition wide_labels : list string :=
  ["0"; "1"; "2"; "3"; "4"; "5"; "6"; "7"; "8"; "9"; "10"; "11"; "12"; "13"; "14"; "15";
   "16"; "17"; "18"].

Definition wide_row (location subtotal persons : string) : gmap string cell :=
  <["0" := CStr location]> (<["1" := CStr subtotal]> (<["4" := CStr persons]>
    (list_to_map (map (fun c => (c, CStr "")) wide_labels)))).

Definition frame_population : DataFrame :=
  mkDF wide_labels
    [ wide_row "h" "" ""; wide_row "h" "" ""; wide_row "h" "" "";
      wide_row "REGION IV-A" "" "50"; wide_row "Lucena City" "20" "20";
      wide_row "CAVITE" "" "15"; wide_row "Tagaytay City" "15" "15" ].

(** A table of power interruptions as it is extracted: nine columns. *)
Definition nine_labels : list string := ["0"; "1"; "2"; "3"; "4"; "5"; "6"; "7"; "8"].

Definition nine_row (location subtotal type : cell) : gmap string cell :=
  <["0" := location]> (<["1" := subtotal]> (<["2" := type]>
    (list_to_map (map (fun c => (c, CNone)) nine_labels)))).

Definition frame_power : DataFrame :=
  mkDF nine_labels
    [ nine_row (CStr "REGION IV-A") CNaN CNone; nine_row (CStr "CAVITE") CNaN CNone;
      nine_row (CStr "Tagaytay City") (CStr "15") CNone;
      nine_row (CStr "Sungay") CNaN (CStr "Power") ].

End Samples.

(* ================================================================== *)
(** * Properties *)

(** ** Strings and substitution *)

Module StrFacts.
Import PyStr.

Lemma forall_str_app p s t :
  forall_str p (s ++ t) = forall_str p s && forall_str p t.
Proof.
  induction s as [|c s IH]; simpl; [reflexivity|].
  rewrite IH. apply andb_assoc.
Qed.

Lemma forall_str_weaken (p q : ascii -> bool) s :
  (forall c, p c = true -> q c = true) ->
  forall_str p s = true -> forall_str q s = true.
Proof.
  intros Hpq. induction s as [|c s IH]; simpl; [reflexivity|].
  intros [Hc Hs]%andb_true_iff. rewrite (Hpq _ Hc). simpl. auto.
Qed.

Lemma forall_str_prefix p pre s :
  String.prefix pre s = true -> forall_str p s = true -> forall_str p pre = true.
Proof.
  revert s. induction pre as [|a pre IH]; intros s; simpl; [reflexivity|].
  destruct s as [|b s]; simpl; [discriminate|].
  destruct (ascii_dec a b) as [->|]; [|discriminate].
  intros Hpre [Hb Hs]%andb_true_iff. rewrite Hb. simpl. eauto.
Qed.

Lemma forall_str_lstrip p s :
  forall_str p s = true -> forall_str p (lstrip s) = true.
Proof.
  induction s as [|c s IH]; simpl; [reflexivity|].
  intros H. destruct (is_space c); [|exact H].
  apply andb_true_iff in H as [_ H]. auto.
Qed.

Lemma forall_str_rstrip p s :
  forall_str p s = true -> forall_str p (rstrip s) = true.
Proof.
  induction s as [|c s IH]; simpl; [reflexivity|].
  intros [Hc Hs]%andb_true_iff. specialize (IH Hs).
  destruct (rstrip s) as [|d r].
  - destruct (is_space c); simpl; [reflexivity|]. rewrite Hc. reflexivity.
  - simpl in *. rewrite Hc. exact IH.
Qed.

Lemma forall_str_strip p s :
  forall_str p s = true -> forall_str p (strip s) = true.
Proof. intros H. apply forall_str_rstrip, forall_str_lstrip, H. Qed.

Lemma rstrip_idem s : rstrip (rstrip s) = rstrip s.
Proof.
  induction s as [|c s IH]; simpl; [reflexivity|].
  destruct (rstrip s) as [|d r] eqn:E.
  - destruct (is_space c) eqn:Ec; simpl; [reflexivity|]. rewrite Ec. reflexivity.
  - change (rstrip (String c (String d r)) = String c (String d r)).
    simpl rstrip at 1. simpl in IH. rewrite IH. reflexivity.
Qed.

(** Trimming on the right does not bring white space to the front. *)
Lemma lstrip_rstrip_fixed s :
  lstrip s = s -> lstrip (rstrip s) = rstrip s.
Proof.
  destruct s as [|c s]; simpl; [reflexivity|].
  destruct (is_space c) eqn:Ec.
  - intros H. exfalso.
    assert (Hlen : forall t, String.length (lstrip t) <= String.length t).
    { induction t as [|a t IHt]; simpl; [lia|]. destruct (is_space a); simpl; lia. }
    specialize (Hlen s). rewrite H in Hlen. simpl in Hlen. lia.
  - intros _. destruct (rstrip s); simpl; rewrite Ec; reflexivity.
Qed.

Lemma lstrip_idem s : lstrip (lstrip s) = lstrip s.
Proof.
  induction s as [|c s IH]; simpl; [reflexivity|].
  destruct (is_space c) eqn:Ec; [exact IH|]. simpl. rewrite Ec. reflexivity.
Qed.

Lemma strip_idem s : strip (strip s) = strip s.
Proof.
  unfold strip.
  rewrite (lstrip_rstrip_fixed (lstrip s)) by apply lstrip_idem.
  apply rstrip_idem.
Qed.

Lemma to_lower_not_upper c : is_upper_char (to_lower_char c) = false.
Proof. destruct c as [[] [] [] [] [] [] [] []]; reflexivity. Qed.

Lemma to_lower_fixed c : is_upper_char c = false -> to_lower_char c = c.
Proof. unfold to_lower_char. intros ->. reflexivity. Qed.

Lemma casefold_no_upper s :
  forall_str (fun c => negb (is_upper_char c)) (casefold s) = true.
Proof.
  unfold casefold. induction s as [|c s IH]; simpl; [reflexivity|].
  rewrite to_lower_not_upper. exact IH.
Qed.

Lemma casefold_fixed s :
  forall_str (fun c => negb (is_upper_char c)) s = true -> casefold s = s.
Proof.
  unfold casefold. induction s as [|c s IH]; simpl; [reflexivity|].
  intros [Hc Hs]%andb_true_iff. apply negb_true_iff in Hc.
  rewrite (to_lower_fixed _ Hc), (IH Hs). reflexivity.
Qed.

End StrFacts.

Module ReFacts.
Import PyStr StrFacts.

(** Substitution only keeps characters of the subject and inserts the
    replacement. *)
Lemma sub_from_forall p m repl s :
  forall_str p repl = true ->
  forall_str p s = true ->
  forall k, forall_str p (Re.sub_from m repl k s) = true.
Proof.
  intros Hr. induction s as [|c s IH]; intros Hs k.
  - destruct k; reflexivity.
  - simpl in Hs. apply andb_true_iff in Hs as [Hc Hs].
    destruct k as [|k]; simpl; [|auto].
    destruct (m (String c s)) as [[|n]|]; simpl;
      rewrite ?forall_str_app, ?Hr; simpl; rewrite ?Hc; simpl; auto.
Qed.

Lemma sub_forall p m repl s :
  forall_str p repl = true -> forall_str p s = true ->
  forall_str p (Re.sub m repl s) = true.
Proof. intros. apply sub_from_forall; assumption. Qed.

(** Where the pattern matches nowhere, substitution changes nothing. *)
Lemma sub_no_match m repl s : Re.search m s = false -> Re.sub m repl s = s.
Proof.
  unfold Re.sub. induction s as [|c s IH]; simpl; [reflexivity|].
  destruct (m (String c s)); [discriminate|].
  intros H. rewrite (IH H). reflexivity.
Qed.

(** Deleting a one-character literal leaves no occurrence of it. *)
Lemma sub_char_gone c s :
  forall_str (fun d => negb (Ascii.eqb d c)) (Re.sub (Re.lit (String c "")) "" s) = true.
Proof.
  unfold Re.sub. induction s as [|d s IH]; simpl; [reflexivity|].
  unfold Re.lit at 1. simpl.
  destruct (ascii_dec c d) as [->|Hne]; simpl.
  - destruct s; exact IH.
  - assert (Ascii.eqb d c = false) as -> by (apply Ascii.eqb_neq; congruence).
    simpl. exact IH.
Qed.

(** A literal containing a character that the subject lacks matches
    nowhere. *)
Lemma search_lit_absent (q : ascii -> bool) p s :
  forall_str q p = false -> forall_str q s = true -> Re.search (Re.lit p) s = false.
Proof.
  intros Hp. induction s as [|c s IH]; simpl; [reflexivity|].
  intros Hs. unfold Re.lit at 1.
  destruct (String.prefix p (String c s)) eqn:E.
  - pose proof (forall_str_prefix q _ _ E Hs) as H. congruence.
  - apply andb_true_iff in Hs as [_ Hs]. auto.
Qed.

End ReFacts.

(** ** The Name Normalizer ([get_clean_names]) *)

Module CleanNamesFacts.
Import PyStr StrFacts ReFacts.

Ltac open_pipeline :=
  unfold Pcodes.get_clean_names, Pcodes.remove_all, Pcodes.convert_numerals,
    Pcodes.strings_to_remove, Pcodes.numeral_dict, Pcodes.unidecode;
  cbn [fold_left fst snd].

(** Walk down the pipeline from its last step, as long as the step keeps
    the character property. *)
Ltac descend :=
  repeat first
    [ apply forall_str_strip
    | apply sub_char_gone
    | apply casefold_no_upper
    | apply sub_forall; [reflexivity|] ].

Lemma clean_no_upper x : forall_str not_upper (Pcodes.get_clean_names x) = true.
Proof. open_pipeline. unfold not_upper. descend. Qed.

Lemma clean_no_hyphen x : forall_str (not_char "-") (Pcodes.get_clean_names x) = true.
Proof. open_pipeline. unfold not_char. descend. Qed.

Lemma clean_no_star x : forall_str (not_char "*") (Pcodes.get_clean_names x) = true.
Proof. open_pipeline. unfold not_char. descend. Qed.

Lemma clean_no_comma x : forall_str (not_char ",") (Pcodes.get_clean_names x) = true.
Proof. open_pipeline. unfold not_char. descend. Qed.

Lemma clean_no_period x : forall_str (not_char ".") (Pcodes.get_clean_names x) = true.
Proof. open_pipeline. unfold not_char. descend. Qed.

Lemma clean_stripped x : strip (Pcodes.get_clean_names x) = Pcodes.get_clean_names x.
Proof. unfold Pcodes.get_clean_names. apply strip_idem. Qed.

(** In pcodes.py every period has been deleted before the two
    abbreviation rewrites run, so they never fire. *)
Lemma abbreviation_rewrites_dead s :
  let t := Pcodes.convert_numerals (Pcodes.unidecode (Re.sub (Re.lit ".") "" s)) in
  Re.sub (Re.lit "sta.") "santa" (Re.sub (Re.lit "st.") "san" t) = t.
Proof.
  intros t.
  assert (Ht : forall_str (not_char ".") t = true).
  { subst t. unfold Pcodes.convert_numerals, Pcodes.numeral_dict, Pcodes.unidecode.
    cbn [fold_left fst snd]. unfold not_char. descend. }
  rewrite (sub_no_match (Re.lit "st.") "san" t)
    by (apply (search_lit_absent (not_char ".")); [reflexivity|exact Ht]).
  apply sub_no_match.
  apply (search_lit_absent (not_char ".")); [reflexivity|exact Ht].
Qed.

Ltac noop y :=
  match goal with
  | |- context [Re.sub ?m ?r y] =>
      rewrite (sub_no_match m r y) by
        first [ assumption
              | apply (search_lit_absent (not_char "-")); [reflexivity|assumption]
              | apply (search_lit_absent (not_char "*")); [reflexivity|assumption]
              | apply (search_lit_absent (not_char ",")); [reflexivity|assumption]
              | apply (search_lit_absent (not_char ".")); [reflexivity|assumption] ]
  end.

(** C6 (as amended).  The normalizer is idempotent on every ASCII input
    whose normalized form holds no residual word-level noise (no
    parenthetical, noise word or standalone Roman numeral): the
    character-level cleaning (case folding, deletion of periods,
    hyphens, asterisks and commas, trimming) is always stable, so a
    second run has nothing left to do. *)
Theorem C6_normalize_idempotent_without_residual_noise (x : string) :
  Pcodes.ascii_text x = true ->
  Pcodes.residual_noise (Pcodes.get_clean_names x) = false ->
  Pcodes.get_clean_names (Pcodes.get_clean_names x) = Pcodes.get_clean_names x.
Proof.
  intros _ Hnoise.
  pose proof (clean_no_upper x) as Hup.
  pose proof (clean_no_hyphen x) as Hhy.
  pose proof (clean_no_star x) as Hst.
  pose proof (clean_no_comma x) as Hco.
  pose proof (clean_no_period x) as Hpe.
  pose proof (clean_stripped x) as Hstrip.
  remember (Pcodes.get_clean_names x) as y eqn:Ey. clear Ey x.
  unfold Pcodes.residual_noise, Pcodes.noise_patterns, Pcodes.numeral_dict in Hnoise.
  cbn [existsb app map fst] in Hnoise.
  repeat (apply orb_false_iff in Hnoise as [? Hnoise]).
  open_pipeline.
  rewrite (casefold_fixed y Hup).
  repeat noop y.
  exact Hstrip.
Qed.

Lemma C6_normalize_idempotent_witness :
  Pcodes.ascii_text "Brgy. San Jose (Pob.)" = true /\
  Pcodes.residual_noise (Pcodes.get_clean_names "Brgy. San Jose (Pob.)") = false /\
  Pcodes.get_clean_names (Pcodes.get_clean_names "Brgy. San Jose (Pob.)")
  = Pcodes.get_clean_names "Brgy. San Jose (Pob.)".
Proof.
  split; [vm_compute; reflexivity|]. split; [vm_compute; reflexivity|].
  apply (C6_normalize_idempotent_without_residual_noise "Brgy. San Jose (Pob.)");
    vm_compute; reflexivity.
Defined.

(** C6 (as stated) fails: a deletion can splice a new noise word
    together, which only the next run removes. *)
Lemma C6_normalize_not_idempotent :
  Pcodes.get_clean_names "Ci-ty" = "city" /\
  Pcodes.get_clean_names (Pcodes.get_clean_names "Ci-ty") = "" /\
  Pcodes.get_clean_names (Pcodes.get_clean_names "Ci-ty") <> Pcodes.get_clean_names "Ci-ty".
Proof. repeat split; vm_compute; congruence. Qed.

(** C7.  In pcodes.py the abbreviated and the spelled-out form do not
    meet: "Sta. Cruz" is cleaned to "sta cruz" and "St. Cruz" to
    "st cruz", while the sibling in dromic_extractor.py, which keeps the
    periods, rewrites both. *)
Theorem C7_abbreviation_not_rewritten :
  Pcodes.get_clean_names "Sta. Cruz" = "sta cruz" /\
  Pcodes.get_clean_names "Santa Cruz" = "santa cruz" /\
  Pcodes.get_clean_names "St. Cruz" = "st cruz" /\
  Dromic.get_clean_names "Sta. Cruz" = "santa cruz" /\
  Dromic.get_clean_names "St. Cruz" = "san cruz".
Proof. repeat split; vm_compute; reflexivity. Qed.

End CleanNamesFacts.

(** ** The fuzzy matcher and the per-level match functions *)

Module MatchFacts.
Import PyStr Pd Py Pcodes.

Section WithScorer.
Variable scorer : string -> string -> Z.

Lemma pick_sound query cutoff seen best choice :
  sound_best scorer query cutoff seen best ->
  sound_best scorer query cutoff (seen ++ [choice]) (pick scorer query cutoff best choice).
Proof.
  unfold pick, sound_best. cbv zeta.
  destruct best as [[b sb]|]; intros H.
  - destruct H as (Hin & -> & Hcut & Hmax).
    destruct (Z.leb_spec cutoff (scorer query choice));
      destruct (Z.ltb_spec (scorer query b) (scorer query choice)); simpl.
    + repeat split; [set_solver|lia|].
      intros d [Hd| ->%list_elem_of_singleton]%elem_of_app; [specialize (Hmax d Hd)|]; lia.
    + repeat split; [set_solver|lia|].
      intros d [Hd| ->%list_elem_of_singleton]%elem_of_app; [auto|lia].
    + repeat split; [set_solver|lia|].
      intros d [Hd| ->%list_elem_of_singleton]%elem_of_app; [auto|lia].
    + repeat split; [set_solver|lia|].
      intros d [Hd| ->%list_elem_of_singleton]%elem_of_app; [auto|lia].
  - destruct (Z.leb_spec cutoff (scorer query choice)); simpl.
    + repeat split; [set_solver|lia|].
      intros d [Hd| ->%list_elem_of_singleton]%elem_of_app; [specialize (H d Hd)|]; lia.
    + intros d [Hd| ->%list_elem_of_singleton]%elem_of_app; [auto|lia].
Qed.

Lemma scan_sound query cutoff choices seen best :
  sound_best scorer query cutoff seen best ->
  sound_best scorer query cutoff (seen ++ choices)
    (fold_left (pick scorer query cutoff) choices best).
Proof.
  revert seen best. induction choices as [|c choices IH]; intros seen best H; simpl.
  - rewrite app_nil_r. exact H.
  - replace (seen ++ c :: choices)%list with ((seen ++ [c]) ++ choices)%list
      by (rewrite <- app_assoc; reflexivity).
    apply IH, pick_sound, H.
Qed.

Lemma extractOne_sound query choices cutoff :
  sound_best scorer query cutoff choices (extractOne scorer query choices cutoff).
Proof.
  unfold extractOne.
  apply (scan_sound query cutoff choices [] None).
  intros d Hd. inversion Hd.
Qed.

(** The winner of [extractOne] reaches the cutoff and no choice beats it. *)
Lemma extractOne_Some query choices cutoff c sc :
  extractOne scorer query choices cutoff = Some (c, sc) ->
  c ∈ choices /\ sc = scorer query c /\ (cutoff <= sc)%Z /\
  (forall d, d ∈ choices -> (scorer query d <= sc)%Z).
Proof.
  intros E. pose proof (extractOne_sound query choices cutoff) as H.
  rewrite E in H. exact H.
Qed.

(** [extractOne] gives [None] exactly when every choice is below the
    cutoff. *)
Lemma extractOne_None query choices cutoff :
  extractOne scorer query choices cutoff = None <->
  (forall d, d ∈ choices -> (scorer query d < cutoff)%Z).
Proof.
  pose proof (extractOne_sound query choices cutoff) as H. split.
  - intros E. rewrite E in H. exact H.
  - intros Hall. destruct (extractOne scorer query choices cutoff) as [[c sc]|];
      [|reflexivity].
    destruct H as (Hin & -> & Hcut & _). specialize (Hall c Hin). lia.
Qed.

End WithScorer.

Lemma elem_of_unique x l : x ∈ unique l <-> x ∈ l.
Proof.
  induction l as [|y l IH]; simpl; [reflexivity|].
  rewrite !elem_of_cons, <- IH.
  rewrite (list_elem_of_In (List.filter _ _) x), filter_In, <- list_elem_of_In.
  destruct (String.eqb_spec y x) as [->|Hne]; simpl; [tauto|].
  split; [intros [->|[? _]]; auto|intros [->|?]; auto].
Qed.

(** A name drawn from a clean-name column has a line in the table. *)
Lemma filter_clean_nonempty (proj : gaz_row -> option string) pcode_df name :
  name ∈ omap proj pcode_df ->
  exists g rest,
    List.filter (fun g => bool_decide (proj g = Some name)) pcode_df = g :: rest /\
    g ∈ pcode_df /\ proj g = Some name.
Proof.
  intros (g & Hg & Hp)%list_elem_of_omap.
  destruct (List.filter (fun g => bool_decide (proj g = Some name)) pcode_df)
    as [|g' rest] eqn:E.
  - exfalso. assert (Hin : In g (List.filter (fun g => bool_decide (proj g = Some name)) pcode_df)).
    { apply filter_In. split; [apply list_elem_of_In, Hg|]. apply bool_decide_eq_true, Hp. }
    rewrite E in Hin. inversion Hin.
  - exists g', rest. split; [reflexivity|].
    assert (Hin : In g' (List.filter (fun g => bool_decide (proj g = Some name)) pcode_df))
      by (rewrite E; left; reflexivity).
    apply filter_In in Hin as [Hin Hd]. split; [apply list_elem_of_In, Hin|].
    apply bool_decide_eq_true in Hd. exact Hd.
Qed.

End MatchFacts.

Module ThresholdFacts.
Import PyStr Pd Py Pcodes MatchFacts.


End ThresholdFacts.

(** ** Frames, rows and the store *)

Module FrameFacts.
Import Pd Py.

Lemma get_insert_eq (r : gmap string cell) c v : get (<[c := v]> r) c = v.
Proof. unfold get. rewrite lookup_insert_eq. reflexivity. Qed.

Lemma get_insert_ne (r : gmap string cell) c k v :
  k <> c -> get (<[k := v]> r) c = get r c.
Proof. intros H. unfold get. rewrite lookup_insert_ne by exact H. reflexivity. Qed.

Lemma get_delete_ne (r : gmap string cell) c k :
  k <> c -> get (delete k r) c = get r c.
Proof. intros H. unfold get. rewrite lookup_delete_ne by exact H. reflexivity. Qed.

Lemma get_delete_eq (r : gmap string cell) c : get (delete c r) c = CNaN.
Proof. unfold get. rewrite lookup_delete_eq. reflexivity. Qed.

Lemma get_foldr_delete (r : gmap string cell) c ks :
  c ∉ ks -> get (foldr delete r ks) c = get r c.
Proof.
  induction ks as [|k ks IH]; simpl; [reflexivity|].
  intros H. apply not_elem_of_cons in H as [Hne Hks].
  rewrite get_delete_ne by congruence. auto.
Qed.

Lemma traverse_ok {A B} (f : A -> result B) (g : A -> B) (l : list A) :
  (forall x, x ∈ l -> f x = Ok (g x)) -> traverse f l = Ok (map g l).
Proof.
  induction l as [|x l IH]; intros H; simpl; [reflexivity|].
  rewrite (H x) by left. simpl. rewrite IH; [reflexivity|].
  intros y Hy. apply H. right. exact Hy.
Qed.

Lemma never_raises_value {A} (f : gmap string cell -> result A) (d : A) df r :
  never_raises f df -> r ∈ rows df -> f r = Ok (value_or d (f r)).
Proof. intros H Hr. destruct (H r Hr) as [v ->]. reflexivity. Qed.

Lemma assign_try_ok c f df :
  never_raises f df ->
  assign_try c f df = Ok (assign c (fun r => value_or CNaN (f r)) df).
Proof.
  intros H. unfold assign_try, assign.
  rewrite (traverse_ok _ (set_cell c (fun r => value_or CNaN (f r)))); [reflexivity|].
  intros r Hr. rewrite (never_raises_value f CNaN df r H Hr). reflexivity.
Qed.

Lemma apply_rows_ok cs f df :
  never_raises f df ->
  apply_rows cs f df = Ok (spread cs (fun r => value_or [] (f r)) df).
Proof.
  intros H. unfold apply_rows, spread.
  rewrite (traverse_ok _ (spread_cells cs (fun r => value_or [] (f r)))); [reflexivity|].
  intros r Hr. rewrite (never_raises_value f [] df r H Hr). reflexivity.
Qed.

Lemma elem_of_with_column c k cols : c ∈ with_column k cols <-> c ∈ cols \/ c = k.
Proof.
  unfold with_column. case_bool_decide as Hk.
  - split; [auto|]. intros [?| ->]; assumption.
  - rewrite elem_of_app, list_elem_of_singleton. reflexivity.
Qed.

End FrameFacts.

(** ** [add_pcodes] *)

Module AddPcodesFacts.
Import PyStr Pd Py Pcodes MatchFacts FrameFacts.

Lemma bind_mutate {B} v f (k : unit -> M B) s d d' :
  s !! v = Some d -> f d = Ok d' ->
  bind (mutate v f) k s = k tt (<[v := d']> s).
Proof. intros Hs Hf. unfold bind, mutate. rewrite Hs, Hf. reflexivity. Qed.

Lemma bind_peek {A B} v (g : DataFrame -> A) (k : A -> M B) s d :
  s !! v = Some d -> bind (peek v g) k s = k (g d) s.
Proof. intros Hs. unfold bind, peek. rewrite Hs. reflexivity. Qed.

Lemma bind_new_from {B} v f (k : addr -> M B) s d d' :
  s !! v = Some d -> f d = Ok d' ->
  bind (new_from v f) k s = k (List.length s) (s ++ [d'])%list.
Proof. intros Hs Hf. unfold bind, new_from. rewrite Hs, Hf. reflexivity. Qed.

Lemma bind_ret {A B} (a : A) (k : A -> M B) s : bind (ret a) k s = k a s.
Proof. reflexivity. Qed.

Lemma bind_bind {A B C} (m : M A) (k : A -> M B) (h : B -> M C) s :
  bind (bind m k) h s = bind m (fun a => bind (k a) h) s.
Proof. unfold bind. destruct (m s) as [[a|e] s']; reflexivity. Qed.

Lemma clean_cell_text c : is_text c = true -> exists v, clean_cell c = Ok v.
Proof. destruct c; simpl; intros; eauto; discriminate. Qed.

Lemma has_values_assign c k g df :
  k <> c -> has_values c (assign k g df) = has_values c df.
Proof.
  intros Hne. unfold has_values, has_column, assign. simpl. f_equal.
  - apply bool_decide_ext. rewrite elem_of_with_column. split; [intros [?|?]; congruence|auto].
  - induction (rows df) as [|r l IH]; simpl; [reflexivity|].
    unfold set_cell at 1. rewrite get_insert_ne by exact Hne. rewrite IH. reflexivity.
Qed.


Lemma has_column_assign c k g df :
  k <> c -> has_column c (assign k g df) = has_column c df.
Proof.
  intros Hne. unfold has_column, assign. simpl.
  apply bool_decide_ext. rewrite elem_of_with_column. split; [intros [?|?]; congruence|auto].
Qed.

Lemma never_raises_clean_base df c :
  names_are_text df -> c ∈ name_columns ->
  never_raises (fun r => clean_cell (get r c)) df.
Proof. intros H Hc r Hr. apply clean_cell_text, H; assumption. Qed.

Lemma never_raises_clean_assign c k g df :
  k <> c ->
  never_raises (fun r => clean_cell (get r c)) df ->
  never_raises (fun r => clean_cell (get r c)) (assign k g df).
Proof.
  intros Hne H r Hr. unfold assign in Hr. simpl in Hr.
  apply list_elem_of_fmap in Hr as (r0 & -> & Hr0).
  unfold set_cell. rewrite get_insert_ne by exact Hne. apply H, Hr0.
Qed.

Lemma rows_assign c f df : rows (assign c f df) = map (set_cell c f) (rows df).
Proof. reflexivity. Qed.

Lemma rows_drop_columns cs df :
  rows (drop_columns cs df) = map (drop_cells cs) (rows df).
Proof. reflexivity. Qed.

Lemma rows_spread cs g df :
  rows (spread cs g df) = map (spread_cells cs g) (rows df).
Proof. reflexivity. Qed.

Section Run.
Variable scorer : string -> string -> Z.
Variable pcode_df : list gaz_row.

Lemma match_region_total x : exists v, match_region scorer pcode_df x = Ok v.
Proof.
  unfold match_region. destruct (is_empty x); [eauto|].
  destruct (extractOne _ _ _ _) as [[m sc]|] eqn:E; [|eauto].
  apply extractOne_Some in E as (Hin & _).
  apply (proj1 (elem_of_unique _ _)) in Hin.
  destruct (filter_clean_nonempty adm1_clean pcode_df m Hin) as (g & rest & -> & _).
  eauto.
Qed.

Lemma match_province_total r : exists v, match_province scorer pcode_df r = Ok v.
Proof.
  unfold match_province. destruct (is_empty _); [eauto|].
  destruct (extractOne _ _ _ _) as [[m sc]|] eqn:E; [|eauto].
  apply extractOne_Some in E as (Hin & _).
  apply (proj1 (elem_of_unique _ _)) in Hin.
  destruct (filter_clean_nonempty adm2_clean pcode_df m Hin) as (g & rest & -> & _).
  eauto.
Qed.

Lemma match_municipality_total r : exists v, match_municipality scorer pcode_df r = Ok v.
Proof. unfold match_municipality. repeat case_match; eauto. Qed.

Lemma match_barangay_total r : exists v, match_barangay scorer pcode_df r = Ok v.
Proof. unfold match_barangay. repeat case_match; eauto. Qed.

Ltac side_text Htxt :=
  repeat (apply never_raises_clean_assign; [discriminate|]);
  apply never_raises_clean_base; [exact Htxt|unfold name_columns; set_solver].

Ltac total_step Htxt :=
  first
    [ reflexivity
    | apply assign_try_ok; side_text Htxt
    | apply apply_rows_ok; intros ? _;
      first [ apply match_region_total | apply match_province_total
            | apply match_municipality_total | apply match_barangay_total ] ].

Ltac go Htxt :=
  repeat first
    [ rewrite bind_bind
    | rewrite bind_ret
    | erewrite bind_peek; [|reflexivity]
    | erewrite bind_mutate; [|reflexivity|total_step Htxt]; cbn [insert list_insert]
    | erewrite bind_new_from; [|reflexivity|total_step Htxt]; cbn [length app] ].

Lemma add_pcodes_rows df :
  names_are_text df -> has_column "Region" df = true ->
  exists out dropped,
    call (add_pcodes scorer pcode_df) df = Ok out /\
    (forall c, c ∈ dropped -> c ∈ cols_to_drop) /\
    rows out = map (add_pcodes_row scorer pcode_df
                      (has_values "Province" df) (has_values "Municipality" df)
                      (has_values "Barangay" df) dropped) (rows df).
Proof.
  intros Htxt HR. unfold call, add_pcodes.
  erewrite bind_new_from; [|reflexivity|reflexivity]. cbn [length app].
  do 2 (erewrite bind_mutate; [|reflexivity|reflexivity]; cbn [insert list_insert]).
  erewrite bind_peek; [|reflexivity].
  rewrite !has_column_assign, HR by discriminate. cbn [negb].
  erewrite bind_mutate; [|reflexivity|total_step Htxt]; cbn [insert list_insert].
  do 3 (erewrite bind_peek; [|reflexivity]).
  rewrite !has_values_assign by discriminate.
  destruct (has_values "Province" df), (has_values "Municipality" df),
    (has_values "Barangay" df); cbn [andb]; go Htxt.
  all: unfold new_from, ret; cbn [lookup list_lookup length app].
  all: eexists _, _; split; [reflexivity|]; split;
    [ intros c Hc; apply list_elem_of_In, filter_In in Hc as [Hc _];
      apply list_elem_of_In, Hc | ].
  all: repeat first [ rewrite rows_assign | rewrite rows_drop_columns | rewrite rows_spread
                    | rewrite map_map ].
  all: apply map_ext; intros r.
  all: cbv beta delta [add_pcodes_row with_clean_names with_province when andb] iota.
  all: reflexivity.
Qed.

Lemma add_pcodes_no_region df :
  has_column "Region" df = false ->
  call (add_pcodes scorer pcode_df) df
  = Ok (assign "ADM0_PCODE" (fun _ => CStr "PH")
          (assign "ADM0_EN" (fun _ => CStr "Philippines") df)).
Proof.
  intros HR. unfold call, add_pcodes.
  erewrite bind_new_from; [|reflexivity|reflexivity]. cbn [length app].
  do 2 (erewrite bind_mutate; [|reflexivity|reflexivity]; cbn [insert list_insert]).
  erewrite bind_peek; [|reflexivity].
  rewrite !has_column_assign, HR by discriminate. reflexivity.
Qed.

(** *** The stages on one row *)

Lemma eq_elem_eq a b : eq_elem a b = true -> a = b.
Proof.
  destruct a, b; simpl; try discriminate.
  - intros ->%String.eqb_eq. reflexivity.
  - intros ->%Z.eqb_eq. reflexivity.
  - intros ->%Bool.eqb_prop. reflexivity.
Qed.

Lemma text_clean c : text (value_or CNaN (clean_cell c)) = get_clean_names (text c).
Proof. destruct c; reflexivity. Qed.

Lemma match_province_cases r :
  match_province scorer pcode_df r = Ok [CNone; CNone; CNone; CNone] \/
  exists g m,
    g ∈ pcode_df /\ adm2_clean g = Some m /\
    (score_cutoff <= scorer (text (get r "province_clean")) m)%Z /\
    match_province scorer pcode_df r
    = Ok [cell_of (ADM2_EN g); cell_of (ADM2_new g);
          cell_of (ADM1_EN g); cell_of (ADM1_new g)].
Proof.
  unfold match_province. destruct (is_empty _); [auto|].
  destruct (extractOne _ _ _ _) as [[m sc]|] eqn:E; [|auto].
  apply extractOne_Some in E as (Hin & -> & Hcut & _).
  apply (proj1 (elem_of_unique _ _)) in Hin.
  destruct (filter_clean_nonempty adm2_clean pcode_df m Hin) as (g & rest & -> & Hg & Hm).
  right. exists g, m. auto.
Qed.

Lemma match_municipality_null r :
  isna (get r "ADM2_PCODE") = true ->
  match_municipality scorer pcode_df r = Ok [CNone; CNone].
Proof. intros H. unfold match_municipality. rewrite H, orb_true_r. reflexivity. Qed.

Lemma match_municipality_cases r :
  match_municipality scorer pcode_df r = Ok [CNone; CNone] \/
  exists g m,
    g ∈ pcode_df /\ cell_of (ADM2_new g) = get r "ADM2_PCODE" /\
    adm3_clean g = Some m /\
    (score_cutoff <= scorer (text (get r "mun_clean")) m)%Z /\
    match_municipality scorer pcode_df r
    = Ok [cell_of (ADM3_EN g); cell_of (ADM3_new g)].
Proof.
  unfold match_municipality. destruct (_ || _); [auto|]. cbv zeta.
  set (inp := List.filter _ pcode_df).
  destruct (unique (omap adm3_clean inp)) as [|x l] eqn:El; [auto|]. rewrite <- El.
  destruct (extractOne _ _ _ _) as [[m sc]|] eqn:E; [|auto].
  apply extractOne_Some in E as (Hin & -> & Hcut & _).
  destruct (List.filter _ inp) as [|g rest] eqn:Ef; [auto|].
  assert (Hg : In g (List.filter (fun g => bool_decide (adm3_clean g = Some m)) inp))
    by (rewrite Ef; left; reflexivity).
  apply filter_In in Hg as [Hg Hm]. apply bool_decide_eq_true in Hm.
  apply filter_In in Hg as [Hg Hp]. apply eq_elem_eq in Hp.
  right. exists g, m. repeat split; auto. apply list_elem_of_In, Hg.
Qed.

Lemma match_barangay_null r :
  isna (get r "ADM3_PCODE") = true ->
  match_barangay scorer pcode_df r = Ok [CNone; CNone].
Proof. intros H. unfold match_barangay. rewrite H, orb_true_r. reflexivity. Qed.

Lemma match_barangay_cases r :
  match_barangay scorer pcode_df r = Ok [CNone; CNone] \/
  exists g m,
    g ∈ pcode_df /\ cell_of (ADM3_new g) = get r "ADM3_PCODE" /\
    adm4_clean g = Some m /\
    (score_cutoff <= scorer (text (get r "brgy_clean")) m)%Z /\
    match_barangay scorer pcode_df r
    = Ok [cell_of (ADM4_EN g); cell_of (ADM4_new g)].
Proof.
  unfold match_barangay. destruct (_ || _); [auto|]. cbv zeta.
  set (inp := List.filter _ pcode_df).
  destruct (unique (omap adm4_clean inp)) as [|x l] eqn:El; [auto|]. rewrite <- El.
  destruct (extractOne _ _ _ _) as [[m sc]|] eqn:E; [|auto].
  apply extractOne_Some in E as (Hin & -> & Hcut & _).
  destruct (List.filter _ inp) as [|g rest] eqn:Ef; [auto|].
  assert (Hg : In g (List.filter (fun g => bool_decide (adm4_clean g = Some m)) inp))
    by (rewrite Ef; left; reflexivity).
  apply filter_In in Hg as [Hg Hm]. apply bool_decide_eq_true in Hm.
  apply filter_In in Hg as [Hg Hp]. apply eq_elem_eq in Hp.
  right. exists g, m. repeat split; auto. apply list_elem_of_In, Hg.
Qed.


Ltac getsimp :=
  repeat first
    [ rewrite get_insert_eq
    | rewrite get_insert_ne by discriminate
    | rewrite get_delete_ne by discriminate ].

Ltac decide_it := apply (bool_decide_unpack _); vm_compute; exact I.

Lemma get_set_cells_other cs vs (r : gmap string cell) c :
  c ∉ cs -> get (set_cells cs vs r) c = get r c.
Proof.
  unfold set_cells. revert vs. induction cs as [|k cs IH]; intros vs H; [reflexivity|].
  apply not_elem_of_cons in H as [Hne Hcs].
  destruct vs as [|v vs]; [reflexivity|]. simpl.
  rewrite get_insert_ne by congruence. apply IH, Hcs.
Qed.

Lemma get_with_clean_names hp hm hb r c :
  c ∉ ["ADM0_EN"; "ADM0_PCODE"; "region_clean"; "province_clean"; "mun_clean"; "brgy_clean"] ->
  get (with_clean_names hp hm hb r) c = get r c.
Proof.
  intros H. repeat (apply not_elem_of_cons in H as [? H]).
  unfold with_clean_names, when, set_cell. destruct hp, hm, hb;
    repeat (rewrite get_insert_ne by congruence); reflexivity.
Qed.

Lemma get_with_region r c :
  c ∉ ["ADM1_EN"; "ADM1_PCODE"] -> get (with_region scorer pcode_df r) c = get r c.
Proof. unfold with_region, spread_cells. apply get_set_cells_other. Qed.

Lemma get_with_province r c :
  c ∉ ["ADM2_EN"; "ADM2_PCODE"; "ADM1_EN_check"; "ADM1_PCODE_check"; "ADM1_EN"; "ADM1_PCODE"] ->
  get (with_province scorer pcode_df r) c = get r c.
Proof.
  intros H. unfold with_province, drop_cells, set_cell, spread_cells. cbn [foldr].
  pose proof H as H'. repeat (apply not_elem_of_cons in H' as [? H']).
  repeat (rewrite get_delete_ne by congruence).
  repeat (rewrite get_insert_ne by congruence).
  apply get_set_cells_other.
  rewrite !not_elem_of_cons. repeat split; first [congruence | apply not_elem_of_nil].
Qed.

Lemma get_with_municipality r c :
  c ∉ ["ADM3_EN"; "ADM3_PCODE"] -> get (with_municipality scorer pcode_df r) c = get r c.
Proof. unfold with_municipality, spread_cells. apply get_set_cells_other. Qed.

Lemma get_with_barangay r c :
  c ∉ ["ADM4_EN"; "ADM4_PCODE"] -> get (with_barangay scorer pcode_df r) c = get r c.
Proof. unfold with_barangay, spread_cells. apply get_set_cells_other. Qed.

Lemma get_dropped (r : gmap string cell) dropped c :
  (forall x, x ∈ dropped -> x ∈ cols_to_drop) -> c ∉ cols_to_drop ->
  get (drop_cells dropped r) c = get r c.
Proof. intros Hsub Hc. apply get_foldr_delete. intros Hd. apply Hc, Hsub, Hd. Qed.

Lemma province_clean_value hm hb r :
  text (get (with_clean_names true hm hb r) "province_clean")
  = get_clean_names (text (get r "Province")).
Proof.
  unfold with_clean_names, when, set_cell. destruct hm, hb; getsimp; apply text_clean.
Qed.

Lemma mun_clean_value hp hb r :
  text (get (with_clean_names hp true hb r) "mun_clean")
  = get_clean_names (text (get r "Municipality")).
Proof.
  unfold with_clean_names, when, set_cell. destruct hp, hb; getsimp; apply text_clean.
Qed.

Lemma brgy_clean_value hp hm r :
  text (get (with_clean_names hp hm true r) "brgy_clean")
  = get_clean_names (text (get r "Barangay")).
Proof.
  unfold with_clean_names, when, set_cell. destruct hp, hm; getsimp; apply text_clean.
Qed.

(** The Province stage. *)
Lemma with_province_spec r :
  get (with_province scorer pcode_df r) "ADM2_PCODE" = CNone \/
  exists g m,
    g ∈ pcode_df /\ adm2_clean g = Some m /\
    (score_cutoff <= scorer (text (get r "province_clean")) m)%Z /\
    get (with_province scorer pcode_df r) "ADM2_EN" = cell_of (ADM2_EN g) /\
    get (with_province scorer pcode_df r) "ADM2_PCODE" = cell_of (ADM2_new g).
Proof.
  unfold with_province, drop_cells, set_cell, spread_cells.
  destruct (match_province_cases r) as [E|(g & m & Hg & Hm & Hs & E)]; rewrite E;
    cbn [value_or set_cells zip zip_with foldr fst snd].
  - left. getsimp. reflexivity.
  - right. exists g, m. repeat split; auto; getsimp; reflexivity.
Qed.

Lemma with_municipality_spec r :
  (get (with_municipality scorer pcode_df r) "ADM3_EN" = CNone /\
   get (with_municipality scorer pcode_df r) "ADM3_PCODE" = CNone) \/
  exists g m,
    g ∈ pcode_df /\ cell_of (ADM2_new g) = get r "ADM2_PCODE" /\
    adm3_clean g = Some m /\
    (score_cutoff <= scorer (text (get r "mun_clean")) m)%Z /\
    get (with_municipality scorer pcode_df r) "ADM3_EN" = cell_of (ADM3_EN g) /\
    get (with_municipality scorer pcode_df r) "ADM3_PCODE" = cell_of (ADM3_new g).
Proof.
  unfold with_municipality, spread_cells.
  destruct (match_municipality_cases r) as [E|(g & m & Hg & Hp & Hm & Hs & E)]; rewrite E;
    cbn [value_or set_cells zip zip_with foldr fst snd].
  - left. getsimp. auto.
  - right. exists g, m. repeat split; auto; getsimp; reflexivity.
Qed.

Lemma with_municipality_null r :
  isna (get r "ADM2_PCODE") = true ->
  get (with_municipality scorer pcode_df r) "ADM3_EN" = CNone /\
  get (with_municipality scorer pcode_df r) "ADM3_PCODE" = CNone.
Proof.
  intros H. unfold with_municipality, spread_cells. rewrite (match_municipality_null r H).
  cbn [value_or set_cells zip zip_with foldr fst snd]. getsimp. auto.
Qed.

Lemma with_barangay_spec r :
  (get (with_barangay scorer pcode_df r) "ADM4_EN" = CNone /\
   get (with_barangay scorer pcode_df r) "ADM4_PCODE" = CNone) \/
  exists g m,
    g ∈ pcode_df /\ cell_of (ADM3_new g) = get r "ADM3_PCODE" /\
    adm4_clean g = Some m /\
    (score_cutoff <= scorer (text (get r "brgy_clean")) m)%Z /\
    get (with_barangay scorer pcode_df r) "ADM4_EN" = cell_of (ADM4_EN g) /\
    get (with_barangay scorer pcode_df r) "ADM4_PCODE" = cell_of (ADM4_new g).
Proof.
  unfold with_barangay, spread_cells.
  destruct (match_barangay_cases r) as [E|(g & m & Hg & Hp & Hm & Hs & E)]; rewrite E;
    cbn [value_or set_cells zip zip_with foldr fst snd].
  - left. getsimp. auto.
  - right. exists g, m. repeat split; auto; getsimp; reflexivity.
Qed.

Lemma with_barangay_null r :
  isna (get r "ADM3_PCODE") = true ->
  get (with_barangay scorer pcode_df r) "ADM4_EN" = CNone /\
  get (with_barangay scorer pcode_df r) "ADM4_PCODE" = CNone.
Proof.
  intros H. unfold with_barangay, spread_cells. rewrite (match_barangay_null r H).
  cbn [value_or set_cells zip zip_with foldr fst snd]. getsimp. auto.
Qed.

(** Reading a label through the stages that leave it alone. *)
Ltac thru c Hsub :=
  repeat first
    [ rewrite (get_dropped _ _ c Hsub) by decide_it
    | rewrite (get_with_barangay _ c) by decide_it
    | rewrite (get_with_municipality _ c) by decide_it
    | rewrite (get_with_province _ c) by decide_it
    | rewrite (get_with_region _ c) by decide_it
    | rewrite (get_with_clean_names _ _ _ _ c) by decide_it ].

Ltac thru_in c Hsub H :=
  repeat first
    [ rewrite (get_dropped _ _ c Hsub) in H by decide_it
    | rewrite (get_with_barangay _ c) in H by decide_it
    | rewrite (get_with_municipality _ c) in H by decide_it
    | rewrite (get_with_province _ c) in H by decide_it
    | rewrite (get_with_region _ c) in H by decide_it
    | rewrite (get_with_clean_names _ _ _ _ c) in H by decide_it ].

Ltac through Hsub :=
  thru "Province" Hsub; thru "Municipality" Hsub; thru "Barangay" Hsub;
  thru "province_clean" Hsub; thru "mun_clean" Hsub; thru "brgy_clean" Hsub;
  thru "ADM2_EN" Hsub; thru "ADM2_PCODE" Hsub; thru "ADM3_EN" Hsub;
  thru "ADM3_PCODE" Hsub; thru "ADM4_EN" Hsub; thru "ADM4_PCODE" Hsub.

Ltac through_in Hsub H :=
  thru_in "Province" Hsub H; thru_in "Municipality" Hsub H; thru_in "Barangay" Hsub H;
  thru_in "province_clean" Hsub H; thru_in "mun_clean" Hsub H; thru_in "brgy_clean" Hsub H;
  thru_in "ADM2_EN" Hsub H; thru_in "ADM2_PCODE" Hsub H; thru_in "ADM3_EN" Hsub H;
  thru_in "ADM3_PCODE" Hsub H; thru_in "ADM4_EN" Hsub H; thru_in "ADM4_PCODE" Hsub H.

Ltac stale Hfresh :=
  let H := fresh in
  intros H; rewrite Hfresh in H by decide_it; discriminate H.

Lemma province_scoped hp hm hb dropped r :
  (forall x, x ∈ dropped -> x ∈ cols_to_drop) ->
  (forall c, c ∈ adm_labels -> isna (get r c) = true) ->
  province_from_table scorer pcode_df
    (add_pcodes_row scorer pcode_df hp hm hb dropped r).
Proof.
  intros Hsub Hfresh. unfold province_from_table, add_pcodes_row, notna.
  destruct hp, hm, hb; unfold when; cbn [andb]; through Hsub; try (stale Hfresh).
  all: intros H.
  all: match type of H with
       | context [with_province scorer pcode_df ?R] =>
           destruct (with_province_spec R)
             as [E|(g & m & Hg & Hm & Hs & E1 & E2)]
       end.
  all: try (rewrite E in H; discriminate H).
  all: exists g, m; through Hsub; through_in Hsub Hs.
  all: rewrite province_clean_value in Hs; repeat split; assumption.
Qed.

Lemma municipality_scoped hp hm hb dropped r :
  (forall x, x ∈ dropped -> x ∈ cols_to_drop) ->
  (forall c, c ∈ adm_labels -> isna (get r c) = true) ->
  municipality_under_province scorer pcode_df
    (add_pcodes_row scorer pcode_df hp hm hb dropped r).
Proof.
  intros Hsub Hfresh. unfold municipality_under_province, add_pcodes_row, notna.
  destruct hp, hm, hb; unfold when; cbn [andb]; through Hsub; try (stale Hfresh).
  all: intros H.
  all: match type of H with
       | context [with_municipality scorer pcode_df ?R] =>
           destruct (with_municipality_spec R)
             as [[E1 E2]|(g & m & Hg & Hp & Hm & Hs & E1 & E2)]
       end.
  all: try (rewrite E2 in H; discriminate H).
  all: exists g, m; through Hsub; through_in Hsub Hs.
  all: rewrite mun_clean_value in Hs; repeat split; assumption.
Qed.

Lemma barangay_scoped hp hm hb dropped r :
  (forall x, x ∈ dropped -> x ∈ cols_to_drop) ->
  (forall c, c ∈ adm_labels -> isna (get r c) = true) ->
  barangay_under_municipality scorer pcode_df
    (add_pcodes_row scorer pcode_df hp hm hb dropped r).
Proof.
  intros Hsub Hfresh. unfold barangay_under_municipality, add_pcodes_row, notna.
  destruct hp, hm, hb; unfold when; cbn [andb]; through Hsub; try (stale Hfresh).
  all: intros H.
  all: match type of H with
       | context [with_barangay scorer pcode_df ?R] =>
           destruct (with_barangay_spec R)
             as [[E1 E2]|(g & m & Hg & Hp & Hm & Hs & E1 & E2)]
       end.
  all: try (rewrite E2 in H; discriminate H).
  all: exists g, m; through Hsub; through_in Hsub Hs; through_in Hsub Hp.
  all: rewrite brgy_clean_value in Hs; repeat split; assumption.
Qed.

Lemma misses_propagate_row hp hm hb dropped r :
  (forall x, x ∈ dropped -> x ∈ cols_to_drop) ->
  (forall c, c ∈ adm_labels -> isna (get r c) = true) ->
  misses_propagate (add_pcodes_row scorer pcode_df hp hm hb dropped r).
Proof.
  intros Hsub Hfresh. unfold misses_propagate, add_pcodes_row.
  destruct hp, hm, hb; unfold when; cbn [andb]; through Hsub.
  all: split; intros H.
  all: try match goal with
           | |- context [with_municipality scorer pcode_df ?R] =>
               destruct (with_municipality_null R H) as [E1 E2]
           end.
  all: try match goal with
           | |- context [with_barangay scorer pcode_df ?R] =>
               let E := fresh "E" in
               assert (E : isna (get R "ADM3_PCODE") = true)
                 by first [ exact H
                          | rewrite E2; reflexivity
                          | through Hsub; rewrite Hfresh by decide_it; reflexivity ];
               destruct (with_barangay_null R E) as [E3 E4]
           end.
  all: repeat match goal with
              | E : get _ _ = CNone |- _ => rewrite E; clear E
              end.
  all: rewrite ?Hfresh by decide_it; repeat split; reflexivity.
Qed.

End Run.
End AddPcodesFacts.

(** ** The Code Resolver on frames *)

Module ResolverFacts.
Import PyStr Pd Py Pcodes MatchFacts FrameFacts AddPcodesFacts Samples.

Ltac decide_it := apply (bool_decide_unpack _); vm_compute; exact I.

Lemma fresh_after_country df r c :
  without_pcodes df -> c ∈ adm_labels ->
  r ∈ rows (assign "ADM0_PCODE" (fun _ => CStr "PH")
              (assign "ADM0_EN" (fun _ => CStr "Philippines") df)) ->
  isna (get r c) = true.
Proof.
  intros Hfresh Hc Hr. rewrite !rows_assign, map_map in Hr.
  apply list_elem_of_fmap in Hr as (r0 & -> & Hr0).
  unfold set_cell.
  assert (c <> "ADM0_EN" /\ c <> "ADM0_PCODE") as [H1 H2].
  { unfold adm_labels in Hc. rewrite !elem_of_cons, elem_of_nil in Hc.
    split; intros ->; repeat destruct Hc as [Hc|Hc]; try discriminate Hc; exact Hc. }
  rewrite !get_insert_ne by congruence. apply Hfresh; assumption.
Qed.

(** Every row of the result is the image of a row of the input. *)
Lemma add_pcodes_result scorer pcode_df df :
  names_are_text df -> without_pcodes df ->
  exists out,
    call (add_pcodes scorer pcode_df) df = Ok out /\
    forall r, r ∈ rows out ->
      (forall c, c ∈ adm_labels -> isna (get r c) = true) \/
      exists hp hm hb dropped r0,
        (forall x, x ∈ dropped -> x ∈ cols_to_drop) /\
        (forall c, c ∈ adm_labels -> isna (get r0 c) = true) /\
        r = add_pcodes_row scorer pcode_df hp hm hb dropped r0.
Proof.
  intros Htxt Hfresh. destruct (has_column "Region" df) eqn:HR.
  - destruct (add_pcodes_rows scorer pcode_df df Htxt HR) as (out & dropped & E & Hsub & Hrows).
    exists out. split; [exact E|]. intros r Hr. right.
    rewrite Hrows in Hr. apply list_elem_of_fmap in Hr as (r0 & -> & Hr0).
    exists (has_values "Province" df), (has_values "Municipality" df),
      (has_values "Barangay" df), dropped, r0.
    split; [exact Hsub|]. split; [|reflexivity].
    intros c Hc. apply Hfresh; assumption.
  - rewrite (add_pcodes_no_region scorer pcode_df df HR). eexists. split; [reflexivity|].
    intros r Hr. left. intros c Hc. eapply fresh_after_country; eassumption.
Qed.



Lemma sample_frames_ok (l : list (gmap string cell)) :
  Forall (fun r => forallb (fun c => is_text (get r c)) name_columns = true /\
                   forallb (fun c => isna (get r c)) adm_labels = true) l ->
  names_are_text (names_frame l) /\ without_pcodes (names_frame l).
Proof.
  intros H. rewrite Forall_forall in H. split; intros r c Hr Hc.
  - destruct (H r Hr) as [Ht _]. rewrite forallb_forall in Ht.
    apply Ht, list_elem_of_In, Hc.
  - destruct (H r Hr) as [_ Hn]. rewrite forallb_forall in Hn.
    apply Hn, list_elem_of_In, Hc.
Qed.





End ResolverFacts.

(** ** Frames as mutable objects *)

Module StoreFacts.
Import Pd Py Pcodes.
Local Open Scope py_scope.

Ltac same := cbn [fst snd]; split; [intros; reflexivity|split; [lia|auto]].

Lemma local_ret {A} n (x : A) (Q : A -> Prop) : Q x -> local n (ret x) Q.
Proof. intros H s Hs. unfold ret. same. Qed.

Lemma local_peek {A} n v (g : DataFrame -> A) : local n (peek v g) (fun _ => True).
Proof. intros s Hs. unfold peek. case_match; same. Qed.

Lemma local_mutate n v f : n <= v -> local n (mutate v f) (fun _ => True).
Proof.
  intros Hv s Hs. unfold mutate. case_match; [|same].
  case_match; [|same]. cbn [fst snd].
  rewrite length_insert. repeat split; [|lia].
  intros b Hb. apply list_lookup_insert_ne. lia.
Qed.

Lemma local_new_from n v f : local n (new_from v f) (fun w => n <= w).
Proof.
  intros s Hn. unfold new_from. case_match; [|same].
  case_match; [|same]. cbn [fst snd].
  rewrite length_app. simpl. repeat split; [|lia|lia].
  intros b Hb. apply lookup_app_l. lia.
Qed.

Lemma local_bind {A B} n (m : M A) (k : A -> M B) (Q : A -> Prop) (R : B -> Prop) :
  local n m Q -> (forall x, Q x -> local n (k x) R) -> local n (bind m k) R.
Proof.
  intros Hm Hk s Hs. unfold bind.
  destruct (Hm s Hs) as (H1 & H2 & H3).
  destruct (m s) as [[x|e] s'] eqn:E; simpl in *; [|repeat split; auto].
  destruct (Hk x H3 s' ltac:(lia)) as (K1 & K2 & K3).
  repeat split; [|lia|exact K3].
  intros a Ha. rewrite K1, H1 by exact Ha. reflexivity.
Qed.

Lemma local_weaken {A} n (m : M A) (Q R : A -> Prop) :
  (forall x, Q x -> R x) -> local n m Q -> local n m R.
Proof.
  intros HQR Hm s Hs. destruct (Hm s Hs) as (H1 & H2 & H3).
  repeat split; [exact H1|exact H2|]. destruct (m s).1; auto.
Qed.

Ltac local_step :=
  lazymatch goal with
  | |- local _ (bind (new_from _ _) _) _ =>
      eapply local_bind; [apply local_new_from | cbv beta; intros ? ?]
  | |- local _ (bind (peek _ _) _) _ =>
      eapply local_bind; [apply local_peek | cbv beta; intros ? ?]
  | |- local _ (bind (mutate _ _) _) _ =>
      eapply local_bind; [apply local_mutate; assumption | cbv beta; intros ? ?]
  | |- local ?n (bind (if _ then _ else ret tt) _) _ =>
      eapply (local_bind n _ _ (fun _ => True)); [ | cbv beta; intros ? ?]
  | |- local ?n (bind (if _ then _ else ret _) _) _ =>
      eapply (local_bind n _ _ (fun w => n <= w)); [ | cbv beta; intros ? ?]
  | |- local _ (if ?b then _ else _) _ => destruct b
  | |- local _ (new_from _ _) _ => apply local_new_from
  | |- local _ (mutate _ _) _ => apply local_mutate; assumption
  | |- local _ (ret _) _ => apply local_ret; first [ assumption | exact I ]
  end.

Lemma add_pcodes_local scorer pcode_df n df :
  local n (add_pcodes scorer pcode_df df) (fun w => n <= w).
Proof.
  unfold add_pcodes. repeat local_step.
Qed.

End StoreFacts.

(** ** [extract_location_hierarchy] *)

Module HierarchyFacts.
Import PyStr Pd Py Transformations FrameFacts AddPcodesFacts.
Local Open Scope py_scope.

(** Rows of the frames built by the steps *)

Lemma elem_of_select p d r : r ∈ rows (select p d) -> r ∈ rows d /\ p r = true.
Proof.
  unfold select. simpl. intros H. apply list_elem_of_In, filter_In in H as [H1 H2].
  split; [apply list_elem_of_In, H1|exact H2].
Qed.

Lemma elem_of_drop_dups cols seen l r : r ∈ drop_dups_from cols seen l -> r ∈ l.
Proof.
  revert seen. induction l as [|x l IH]; simpl; intros seen H; [exact H|].
  destruct (existsb _ seen).
  - right. eapply IH, H.
  - apply elem_of_cons in H as [->|H]; [left|right; eapply IH, H].
Qed.

Lemma elem_of_assign c f d r :
  r ∈ rows (assign c f d) -> exists r0, r0 ∈ rows d /\ r = set_cell c f r0.
Proof.
  rewrite rows_assign. intros H. apply list_elem_of_fmap in H as (r0 & -> & H). eauto.
Qed.

Lemma elem_of_map_rows f d r :
  r ∈ rows (map_rows f d) -> exists r0, r0 ∈ rows d /\ r = f r0.
Proof.
  unfold map_rows. simpl. intros H. apply list_elem_of_fmap in H as (r0 & -> & H). eauto.
Qed.

Lemma elem_of_zip_with_insert c (l : list (gmap string cell)) (vs : list cell) r :
  r ∈ zip_with (fun r v => <[c := v]> r) l vs ->
  exists r0 v, r0 ∈ l /\ r = <[c := v]> r0.
Proof.
  revert vs. induction l as [|x l IH]; intros [|v vs]; simpl; intros H;
    try (apply elem_of_nil in H; destruct H).
  apply elem_of_cons in H as [->|H].
  - exists x, v. split; [left|reflexivity].
  - destruct (IH vs H) as (r0 & v0 & H0 & ->). exists r0, v0. split; [right; exact H0|reflexivity].
Qed.

Lemma elem_of_ffill_column c d r :
  r ∈ rows (ffill_column c d) -> exists r0 v, r0 ∈ rows d /\ r = <[c := v]> r0.
Proof. apply elem_of_zip_with_insert. Qed.

(** A value that a grouped forward fill gives to a row is null unless
    every key of the row is set. *)
Lemma elem_of_group_ffill keys c seen (l : list (gmap string cell)) r :
  r ∈ zip_with (fun r v => <[c := v]> r) l
        (group_ffill_from seen (map (fun r => (map (get r) keys, get r c)) l)) ->
  exists r0 v, r0 ∈ l /\ r = <[c := v]> r0 /\
    (notna v = true -> existsb isna (map (get r0) keys) = false).
Proof.
  revert seen. induction l as [|x l IH]; simpl; intros seen H;
    [apply elem_of_nil in H; destruct H|].
  destruct (existsb isna (map (get x) keys)) eqn:Ek; [|destruct (isna (get x c))];
    simpl in H; apply elem_of_cons in H as [->|H].
  - exists x, CNaN. split; [left|]. split; [reflexivity|discriminate].
  - destruct (IH _ H) as (r0 & v & H0 & -> & Hv). exists r0, v. split; [right; exact H0|auto].
  - exists x, (last_in_group (map (get x) keys) seen). split; [left|]. split; [reflexivity|auto].
  - destruct (IH _ H) as (r0 & v & H0 & -> & Hv). exists r0, v. split; [right; exact H0|auto].
  - exists x, (get x c). split; [left|]. split; [reflexivity|auto].
  - destruct (IH _ H) as (r0 & v & H0 & -> & Hv). exists r0, v. split; [right; exact H0|auto].
Qed.

Lemma elem_of_group_ffill_column keys c d r :
  r ∈ rows (group_ffill_column keys c d) ->
  exists r0 v, r0 ∈ rows d /\ r = <[c := v]> r0 /\
    (notna v = true -> existsb isna (map (get r0) keys) = false).
Proof. apply elem_of_group_ffill. Qed.

(** Labels are kept by every step that adds or rewrites a column *)

Lemma has_column_assign_mono c k g d :
  has_column c d = true -> has_column c (assign k g d) = true.
Proof.
  unfold has_column, assign. simpl. intros H. apply bool_decide_eq_true in H.
  apply bool_decide_eq_true. apply elem_of_with_column. auto.
Qed.

Lemma has_column_set_column_mono c k vs d :
  has_column c d = true -> has_column c (set_column k vs d) = true.
Proof.
  unfold has_column, set_column. simpl. intros H. apply bool_decide_eq_true in H.
  apply bool_decide_eq_true. apply elem_of_with_column. auto.
Qed.

Lemma has_column_restore_hucs c backup d :
  has_column c d = true -> has_column c (restore_hucs backup d) = true.
Proof.
  unfold restore_hucs. revert d. induction backup as [|h backup IH]; simpl; intros d H;
    [exact H|]. apply IH, has_column_assign_mono, H.
Qed.

Lemma has_column_step_5d pmap c d :
  has_column c d = true -> has_column c (step_5d pmap d) = true.
Proof. unfold step_5d. destruct (has_column "Affected_Persons" d); auto. Qed.

Lemma has_column_select_mono c p d :
  has_column c d = true -> has_column c (select p d) = true.
Proof. intros H. exact H. Qed.

Lemma has_column_map_rows_mono c f d :
  has_column c d = true -> has_column c (map_rows f d) = true.
Proof. intros H. exact H. Qed.

Lemma has_column_ffill_mono c k d :
  has_column c d = true -> has_column c (ffill_column k d) = true.
Proof. apply has_column_set_column_mono. Qed.

Lemma has_column_group_ffill_mono c ks k d :
  has_column c d = true -> has_column c (group_ffill_column ks k d) = true.
Proof. apply has_column_set_column_mono. Qed.

Lemma rows_hierarchy_first d : rows (hierarchy_first d) = rows d.
Proof. reflexivity. Qed.

Lemma elem_of_drop_exact d r : r ∈ rows (drop_exact_duplicates d) -> r ∈ rows d.
Proof. apply elem_of_drop_dups. Qed.

Ltac has_label :=
  repeat lazymatch goal with
  | |- has_column _ (assign _ _ _) = true => apply has_column_assign_mono
  | |- has_column _ (select _ _) = true => apply has_column_select_mono
  | |- has_column _ (map_rows _ _) = true => apply has_column_map_rows_mono
  | |- has_column _ (ffill_column _ _) = true => apply has_column_ffill_mono
  | |- has_column _ (group_ffill_column _ _ _) = true => apply has_column_group_ffill_mono
  | |- has_column _ (restore_hucs _ _) = true => apply has_column_restore_hucs
  | |- has_column _ (step_5d _ _) = true => apply has_column_step_5d
  | H : has_column ?c ?d = true |- has_column ?c ?d = true => exact H
  end.

Ltac run :=
  repeat first
    [ rewrite bind_bind
    | rewrite bind_ret
    | erewrite bind_peek; [|reflexivity]
    | erewrite bind_mutate; [|reflexivity|reflexivity]; cbn [insert list_insert]
    | erewrite bind_new_from; [|reflexivity|reflexivity]; cbn [length app] ].

Ltac gets :=
  unfold set_cell, drop_cells; cbn [foldr];
  repeat first
    [ rewrite get_insert_eq
    | rewrite get_insert_ne by discriminate
    | rewrite get_delete_ne by discriminate ].

Section Run.
Variable REGION_IDENTIFIERS : list string.
Variable REGION_PROVINCE_MAP : gmap string (list string).
Variable HUCS : gmap string string.
Variable subtotal_col : string.

Local Abbreviation province_frame_of :=
  (province_frame REGION_IDENTIFIERS REGION_PROVINCE_MAP HUCS).
Local Abbreviation finish_frame_of := (finish_frame HUCS subtotal_col).
Local Abbreviation the_call :=
  (call (extract_location_hierarchy REGION_IDENTIFIERS REGION_PROVINCE_MAP HUCS subtotal_col)).

(** The function as a whole: the two tests that raise, and the frame. *)
Lemma extract_location_hierarchy_eval df :
  the_call df
  = if negb (has_column "Location" df) then Raise KeyError
    else if negb (has_column subtotal_col (province_frame_of df)
                  || Nat.eqb (List.length (rows (province_frame_of df))) 0)
         then Raise KeyError
         else Ok (finish_frame_of (province_frame_of df)).
Proof.
  unfold call, extract_location_hierarchy, rebind, update.
  erewrite bind_new_from; [|reflexivity|reflexivity]. cbn [length app].
  erewrite bind_peek; [|reflexivity].
  destruct (has_column "Location" df); [|reflexivity]. cbn [negb].
  run. unfold province_frame. cbv zeta.
  match goal with |- context [negb ?b] => destruct b end; cbn [negb]; [|reflexivity].
  run. reflexivity.
Qed.

Lemma province_frame_has_column c df :
  has_column c df = true -> has_column c (province_frame_of df) = true.
Proof. intros H. unfold province_frame. cbv zeta. has_label. Qed.

Lemma extract_location_hierarchy_frame df :
  has_column "Location" df = true -> has_column subtotal_col df = true ->
  the_call df
  = Ok (hierarchy_frame REGION_IDENTIFIERS REGION_PROVINCE_MAP HUCS subtotal_col df).
Proof.
  intros HL HS. rewrite extract_location_hierarchy_eval, HL.
  rewrite province_frame_has_column by exact HS. reflexivity.
Qed.

Lemma restore_hucs_region backup d :
  (forall r, r ∈ rows d -> province_has_region r) ->
  forall r, r ∈ rows (restore_hucs backup d) -> province_has_region r.
Proof.
  unfold restore_hucs. revert d. induction backup as [|h backup IH]; simpl; intros d H;
    [exact H|].
  apply IH. intros r Hr. apply elem_of_assign in Hr as (r0 & Hr0 & ->).
  unfold province_has_region, set_cell, restore_huc.
  rewrite get_insert_eq, get_insert_ne by discriminate.
  destruct (eq_elem (get r0 "Region") h.1.1) eqn:E; simpl; [|apply H, Hr0].
  intros _. destruct (get r0 "Region"); try discriminate E; reflexivity.
Qed.

Lemma group_ffill_province_region d r :
  r ∈ rows (group_ffill_column ["Region"] "Province" d) -> province_has_region r.
Proof.
  intros Hr. apply elem_of_group_ffill_column in Hr as (r0 & v & _ & -> & Hv).
  unfold province_has_region. rewrite get_insert_eq, get_insert_ne by discriminate.
  intros Hn. specialize (Hv Hn). simpl in Hv. unfold notna.
  destruct (isna (get r0 "Region")); [discriminate Hv|reflexivity].
Qed.

Lemma province_frame_region df r :
  r ∈ rows (province_frame_of df) -> province_has_region r.
Proof.
  unfold province_frame. cbv zeta. intros Hr.
  apply elem_of_assign in Hr as (r0 & Hr & ->).
  apply restore_hucs_region in Hr; [|apply group_ffill_province_region].
  unfold province_has_region in *. revert Hr. gets. auto.
Qed.

Lemma level_barangay r :
  level_of r = CStr "Barangay" -> notna (get r "Barangay") = true.
Proof.
  unfold level_of, is_filled. destruct (notna (get r "Barangay")); [reflexivity|].
  cbn [andb negb]. repeat case_match; discriminate.
Qed.

(** The rows of the last frame, traced back through STEP 10 to STEP 16. *)
Lemma finish_frame_rows d r :
  r ∈ rows (finish_frame_of d) ->
  exists r3 r5 v,
    r = set_cell "Level" level_of
          (set_cell "Level" (fun _ => CNone)
             (drop_cells ["Is_HUC"] (mark_barangay HUCS subtotal_col r3))) /\
    has_location_text (mark_barangay HUCS subtotal_col r3) = true /\
    not_page_break (mark_barangay HUCS subtotal_col r3) = true /\
    r3 = set_cell "Barangay" (fun _ => CNone)
           (<["Municipality" := v]>
              (set_cell "Municipality" (mark_municipality HUCS subtotal_col) r5)) /\
    r5 ∈ rows d /\
    (notna v = true ->
     existsb isna
       (map (get (set_cell "Municipality" (mark_municipality HUCS subtotal_col) r5))
          ["Region"; "Province"]) = false).
Proof.
  unfold finish_frame. cbv zeta. intros Hr.
  apply elem_of_assign in Hr as (r1 & Hr & ->).
  apply elem_of_assign in Hr as (r2 & Hr & ->).
  apply elem_of_drop_exact in Hr. rewrite rows_hierarchy_first in Hr.
  rewrite rows_drop_columns in Hr. apply list_elem_of_fmap in Hr as (r3 & -> & Hr).
  apply elem_of_select in Hr as [Hr Htext]. apply elem_of_select in Hr as [Hr Hbreak].
  apply elem_of_select in Hr as [Hr _].
  apply elem_of_map_rows in Hr as (r4 & Hr & ->).
  apply elem_of_assign in Hr as (r5 & Hr & ->).
  apply elem_of_group_ffill_column in Hr as (r6 & v & Hr & -> & Hv).
  apply elem_of_assign in Hr as (r7 & Hr & ->).
  eexists _, r7, v. repeat split; eassumption.
Qed.

Lemma is_empty_upper s : is_empty (upper s) = is_empty s.
Proof. destruct s; reflexivity. Qed.

Lemma finish_frame_classified d r :
  r ∈ rows (finish_frame_of d) ->
  has_location_text r = true /\ not_page_break r = true /\
  (barangay_row r \/ municipality_row r \/ unlabelled_row r).
Proof.
  intros Hr. apply finish_frame_rows in Hr as (r3 & r5 & v & -> & Htext & Hbreak & _).
  revert Htext Hbreak.
  unfold has_location_text, not_page_break, barangay_row, municipality_row, unlabelled_row,
    level_of, is_filled, mark_barangay.
  destruct (_ || _); gets; intros Htext Hbreak;
    (split; [exact Htext|]); (split; [exact Hbreak|]).
  - apply andb_true_iff in Htext as [Hn He]. rewrite Hn. cbn [notna isna negb andb].
    rewrite is_empty_upper, He. cbn [andb].
    destruct (String.eqb _ "NONE") eqn:E; cbn [negb].
    + right. right. apply String.eqb_eq in E. auto.
    + right. left. auto.
  - rewrite Htext. cbn [negb andb]. rewrite andb_false_r. cbn [andb]. left. auto.
Qed.

(** From STEP 7 on: a row of the result that holds a Barangay holds the
    parents of each level it holds. *)
Lemma finish_frame_monotone d r :
  (forall r0, r0 ∈ rows d -> province_has_region r0) ->
  r ∈ rows (finish_frame_of d) ->
  get r "Level" = CStr "Barangay" ->
  notna (get r "Barangay") = true /\ hierarchy_monotone r.
Proof.
  intros Hd Hr. apply finish_frame_rows in Hr as (r3 & r5 & v & -> & _ & _ & -> & Hr & Hv).
  apply Hd in Hr.
  unfold set_cell at 1. rewrite get_insert_eq. intros HB. apply level_barangay in HB.
  revert HB. unfold hierarchy_monotone, province_has_region, mark_barangay in *.
  destruct (_ || _); gets; [discriminate|].
  intros HB. split; [exact HB|]. split; [|exact Hr].
  intros Hn. specialize (Hv Hn). simpl in Hv. revert Hv. gets. unfold notna.
  destruct (isna (get r5 "Region")); [discriminate|].
  destruct (isna (get r5 "Province")); [discriminate|reflexivity].
Qed.

End Run.
End HierarchyFacts.
Module KeptFacts.
Import PyStr Pd Py Transformations FrameFacts AddPcodesFacts HierarchyFacts.

Section Kept.
Variable L : list string.

Lemma agree_refl r : agree_off L r r.
Proof. intros c _. reflexivity. Qed.

Lemma agree_insert c v r r0 : c ∈ L -> agree_off L r r0 -> agree_off L (<[c := v]> r) r0.
Proof.
  intros Hc H k Hk. rewrite get_insert_ne; [apply H, Hk|]. intros ->. exact (Hk Hc).
Qed.

Lemma agree_delete c r r0 : c ∈ L -> agree_off L r r0 -> agree_off L (delete c r) r0.
Proof.
  intros Hc H k Hk. rewrite get_delete_ne; [apply H, Hk|]. intros ->. exact (Hk Hc).
Qed.

Lemma kept_refl l : kept_in_order L l l.
Proof.
  exists l. split; [reflexivity|]. induction l; constructor; [apply agree_refl|assumption].
Qed.

Lemma kept_sub l l' l0 :
  (forall l1, Forall2 (agree_off L) l l1 ->
     exists l1', sublist l1' l1 /\ Forall2 (agree_off L) l' l1') ->
  kept_in_order L l l0 -> kept_in_order L l' l0.
Proof.
  intros H (l1 & Hsub & HF). destruct (H l1 HF) as (l1' & Hsub' & HF').
  exists l1'. split; [etransitivity; eassumption|exact HF'].
Qed.

Lemma kept_filter p l l0 : kept_in_order L l l0 -> kept_in_order L (List.filter p l) l0.
Proof.
  apply kept_sub. intros l1 HF. induction HF as [|x y l l1 Hxy HF IH]; simpl.
  - exists []. split; [reflexivity|constructor].
  - destruct IH as (l1' & Hsub & HF'). destruct (p x).
    + exists (y :: l1'). split; [apply sublist_skip, Hsub|constructor; assumption].
    + exists l1'. split; [apply sublist_cons, Hsub|exact HF'].
Qed.

Lemma kept_map f l l0 :
  (forall r r0, agree_off L r r0 -> agree_off L (f r) r0) ->
  kept_in_order L l l0 -> kept_in_order L (map f l) l0.
Proof.
  intros Hf. apply kept_sub. intros l1 HF. exists l1. split; [reflexivity|].
  induction HF; simpl; constructor; auto.
Qed.

Lemma kept_zip_insert c vs l l0 :
  c ∈ L -> kept_in_order L l l0 ->
  kept_in_order L (zip_with (fun r v => <[c := v]> r) l vs) l0.
Proof.
  intros Hc. apply kept_sub. intros l1 HF. revert vs.
  induction HF as [|x y l l1 Hxy HF IH]; intros vs; simpl.
  - exists []. split; [reflexivity|constructor].
  - destruct vs as [|v vs].
    + exists []. split; [apply sublist_nil_l|constructor].
    + destruct (IH vs) as (l1' & Hsub & HF').
      exists (y :: l1'). split; [apply sublist_skip, Hsub|].
      constructor; [apply agree_insert; assumption|exact HF'].
Qed.

Lemma kept_alter f i l l0 :
  (forall r r0, agree_off L r r0 -> agree_off L (f r) r0) ->
  kept_in_order L l l0 -> kept_in_order L (alter f i l) l0.
Proof.
  intros Hf. apply kept_sub. intros l1 HF. exists l1. split; [reflexivity|].
  apply Forall2_alter_l; [exact HF|]. intros x y _ _ Hxy. apply Hf, Hxy.
Qed.

Lemma kept_drop_dups cols seen l l0 :
  kept_in_order L l l0 -> kept_in_order L (drop_dups_from cols seen l) l0.
Proof.
  apply kept_sub. intros l1 HF. revert seen.
  induction HF as [|x y l l1 Hxy HF IH]; intros seen; simpl.
  - exists []. split; [reflexivity|constructor].
  - destruct (existsb _ seen).
    + destruct (IH seen) as (l1' & Hsub & HF').
      exists l1'. split; [apply sublist_cons, Hsub|exact HF'].
    + destruct (IH (x :: seen)) as (l1' & Hsub & HF').
      exists (y :: l1'). split; [apply sublist_skip, Hsub|constructor; assumption].
Qed.

Lemma kept_fold_left {A} (step : list (gmap string cell) -> A -> list (gmap string cell))
    (xs : list A) l l0 :
  (forall l x, kept_in_order L l l0 -> kept_in_order L (step l x) l0) ->
  kept_in_order L l l0 -> kept_in_order L (fold_left step xs l) l0.
Proof.
  intros Hstep. revert l. induction xs as [|x xs IH]; simpl; intros l H; [exact H|].
  apply IH, Hstep, H.
Qed.

End Kept.

Ltac derived := apply (bool_decide_unpack _); vm_compute; exact I.

Section Run.
Variable REGION_IDENTIFIERS : list string.
Variable REGION_PROVINCE_MAP : gmap string (list string).
Variable HUCS : gmap string string.
Variable subtotal_col : string.

Local Abbreviation kept := (kept_in_order derived_labels).

Lemma kept_sum_matching l l0 :
  kept l l0 -> kept (sum_matching_provinces REGION_PROVINCE_MAP l) l0.
Proof.
  intros H. unfold sum_matching_provinces.
  apply kept_fold_left; [|exact H]. clear l H. intros l region H.
  destruct (isna region); [exact H|].
  destruct (REGION_PROVINCE_MAP !! _) as [province_list|]; [|exact H].
  apply kept_fold_left; [|exact H]. clear l H. intros l province_name H.
  apply kept_fold_left; [|exact H]. intros l1 test_idx H1.
  unfold test_candidate. repeat case_match; try exact H1.
  apply kept_alter; [|exact H1].
  intros r r0 Hr. unfold promote. repeat apply agree_insert; [derived|derived|exact Hr].
Qed.

Lemma kept_restore_hucs backup d l0 :
  kept (rows d) l0 -> kept (rows (restore_hucs backup d)) l0.
Proof.
  unfold restore_hucs. revert d. induction backup as [|h backup IH]; simpl; intros d H;
    [exact H|].
  apply IH. rewrite rows_assign. apply kept_map; [|exact H].
  intros r r0 Hr. apply agree_insert; [derived|exact Hr].
Qed.

Ltac kept_step :=
  lazymatch goal with
  | |- kept (rows (assign _ _ _)) _ =>
      rewrite rows_assign; apply kept_map;
      [intros ? ? ?; apply agree_insert; [derived|assumption]|]
  | |- kept (rows (select _ _)) _ => apply kept_filter
  | |- kept (rows (ffill_column _ _)) _ => apply kept_zip_insert; [derived|]
  | |- kept (rows (group_ffill_column _ _ _)) _ => apply kept_zip_insert; [derived|]
  | |- kept (rows (map_rows _ _)) _ =>
      apply kept_map;
      [intros ? ? ?; unfold mark_province, mark_barangay; case_match;
       repeat apply agree_insert; first [derived|assumption]|]
  | |- kept (rows (restore_hucs _ _)) _ => apply kept_restore_hucs
  | |- kept (rows (drop_columns _ _)) _ =>
      rewrite rows_drop_columns; apply kept_map;
      [intros ? ? ?; apply agree_delete; [derived|assumption]|]
  | |- kept (rows (hierarchy_first _)) _ => unfold hierarchy_first, reorder; cbn [rows]
  | |- kept (rows (drop_exact_duplicates _)) _ => apply kept_drop_dups
  | |- kept (rows (step_5d _ _)) _ =>
      unfold step_5d; case_match; [apply kept_sum_matching|]
  end.

Lemma finish_frame_kept d l0 :
  kept (rows d) l0 -> kept (rows (finish_frame HUCS subtotal_col d)) l0.
Proof. intros H. unfold finish_frame. cbv zeta. repeat kept_step. exact H. Qed.

Lemma province_frame_kept df :
  kept (rows (province_frame REGION_IDENTIFIERS REGION_PROVINCE_MAP HUCS df))
       (rows (select not_grand_total df)).
Proof.
  unfold province_frame. cbv zeta. generalize (select not_grand_total df). intros d0.
  repeat kept_step; apply kept_refl.
Qed.

Lemma hierarchy_frame_kept df :
  kept (rows (hierarchy_frame REGION_IDENTIFIERS REGION_PROVINCE_MAP HUCS subtotal_col df))
       (rows (select not_grand_total df)).
Proof. apply finish_frame_kept, province_frame_kept. Qed.

End Run.
End KeptFacts.
Module ColumnFacts.
Import PyStr Pd Py Transformations FrameFacts AddPcodesFacts HierarchyFacts.

Lemma with_column_fresh c l : c ∉ l -> with_column c l = (l ++ [c])%list.
Proof. intros H. unfold with_column. rewrite bool_decide_eq_false_2 by exact H. reflexivity. Qed.

Lemma with_column_old c l : c ∈ l -> with_column c l = l.
Proof. intros H. unfold with_column. rewrite bool_decide_eq_true_2 by exact H. reflexivity. Qed.

Lemma filter_all {A} (p : A -> bool) l : (forall x, x ∈ l -> p x = true) -> List.filter p l = l.
Proof.
  induction l as [|x l IH]; simpl; intros H; [reflexivity|].
  rewrite (H x) by left. rewrite IH; [reflexivity|]. intros y Hy. apply H. right. exact Hy.
Qed.

Lemma columns_restore_hucs backup d :
  "Province" ∈ columns d -> columns (restore_hucs backup d) = columns d.
Proof.
  unfold restore_hucs. revert d. induction backup as [|h backup IH]; simpl; intros d H;
    [reflexivity|].
  rewrite IH; simpl; rewrite with_column_old by exact H; [reflexivity|exact H].
Qed.

Lemma columns_step_5d pmap d : columns (step_5d pmap d) = columns d.
Proof. unfold step_5d. case_match; reflexivity. Qed.

Section Run.
Variable REGION_IDENTIFIERS : list string.
Variable REGION_PROVINCE_MAP : gmap string (list string).
Variable HUCS : gmap string string.
Variable subtotal_col : string.

Ltac explicit := apply (bool_decide_unpack _); vm_compute; exact I.

Ltac fresh_label H :=
  match goal with
  | |- context [with_column ?c (columns ?d)] =>
      rewrite (with_column_fresh c (columns d)) by (apply H; explicit)
  | |- context [with_column ?c (columns ?d ++ ?l)%list] =>
      first
        [ rewrite (with_column_old c (columns d ++ l)) by (apply elem_of_app; right; explicit)
        | rewrite (with_column_fresh c (columns d ++ l))
            by (apply not_elem_of_app; split; [apply H; explicit|explicit]);
          rewrite <- app_assoc; cbn [app] ]
  end.

Lemma columns_assign c f d : columns (assign c f d) = with_column c (columns d).
Proof. reflexivity. Qed.
Lemma columns_select p d : columns (select p d) = columns d.
Proof. reflexivity. Qed.
Lemma columns_map_rows f d : columns (map_rows f d) = columns d.
Proof. reflexivity. Qed.
Lemma columns_ffill_column c d : columns (ffill_column c d) = with_column c (columns d).
Proof. reflexivity. Qed.
Lemma columns_group_ffill_column ks c d :
  columns (group_ffill_column ks c d) = with_column c (columns d).
Proof. reflexivity. Qed.
Lemma columns_drop_columns cs d :
  columns (drop_columns cs d)
  = List.filter (fun c => negb (bool_decide (c ∈ cs))) (columns d).
Proof. reflexivity. Qed.
Lemma columns_hierarchy_first d :
  columns (hierarchy_first d)
  = (location_cols ++ List.filter (fun c => negb (in_list c location_cols)) (columns d))%list.
Proof. reflexivity. Qed.
Lemma columns_drop_exact_duplicates d : columns (drop_exact_duplicates d) = columns d.
Proof. reflexivity. Qed.

Ltac cols :=
  repeat first
    [ rewrite columns_assign | rewrite columns_select | rewrite columns_map_rows
    | rewrite columns_ffill_column | rewrite columns_group_ffill_column
    | rewrite columns_drop_columns | rewrite columns_hierarchy_first
    | rewrite columns_drop_exact_duplicates | rewrite columns_step_5d ].

Lemma hierarchy_frame_columns df :
  (forall c, c ∈ derived_labels -> c ∉ columns df) ->
  columns (hierarchy_frame REGION_IDENTIFIERS REGION_PROVINCE_MAP HUCS subtotal_col df)
  = (location_cols ++ columns df ++ ["Is_Province_Header"; "Level"])%list.
Proof.
  intros H. unfold hierarchy_frame, finish_frame, province_frame. cbv zeta. cols.
  rewrite columns_restore_hucs.
  2:{ cols. repeat fresh_label H. apply elem_of_app. right. explicit. }
  cols. repeat fresh_label H.
  rewrite !List.filter_app.
  rewrite (filter_all _ (columns df)).
  2:{ intros x Hx. apply negb_true_iff, bool_decide_eq_false_2. intros Hin.
      apply (H x); [|exact Hx]. apply list_elem_of_singleton in Hin as ->. explicit. }
  rewrite (filter_all _ (columns df)).
  2:{ intros x Hx. apply negb_true_iff, bool_decide_eq_false_2. intros Hin.
      apply (H x); [|exact Hx]. unfold location_cols in Hin.
      rewrite !elem_of_cons, elem_of_nil in Hin.
      destruct Hin as [->|[->|[->|[->|[]]]]]; explicit. }
  match goal with
  | |- context [List.filter ?p (List.filter ?q ?l)] =>
      let v := eval vm_compute in (List.filter p (List.filter q l)) in
      change (List.filter p (List.filter q l)) with v
  end.
  assert (HLevel : "Level" ∉ (location_cols ++ columns df ++ ["Is_Province_Header"])%list).
  { unfold location_cols. cbn [app].
    rewrite !not_elem_of_cons, not_elem_of_app. repeat split; try discriminate.
    { apply H. explicit. } explicit. }
  rewrite (with_column_fresh _ _ HLevel).
  rewrite with_column_old by (apply elem_of_app; right; left).
  rewrite <- !app_assoc. reflexivity.
Qed.

End Run.
End ColumnFacts.
Module HierarchyErrors.
Import PyStr Pd Py Transformations FrameFacts AddPcodesFacts HierarchyFacts StoreFacts.
Local Open Scope py_scope.

Lemma local_raise {A} n e (Q : A -> Prop) : local n (raise e) Q.
Proof. intros s Hs. unfold raise. same. Qed.

Ltac local_step' :=
  lazymatch goal with
  | |- local _ (bind (new_from _ _) _) _ =>
      eapply local_bind; [apply local_new_from | cbv beta; intros ? ?]
  | |- local _ (bind (peek _ _) _) _ =>
      eapply local_bind; [apply local_peek | cbv beta; intros ? ?]
  | |- local _ (bind (mutate _ _) _) _ =>
      eapply local_bind; [apply local_mutate; assumption | cbv beta; intros ? ?]
  | |- local _ (if ?b then _ else _) _ => destruct b
  | |- local _ (raise _) _ => apply local_raise
  | |- local _ (ret _) _ => apply local_ret; first [ assumption | exact I ]
  end.

Section Run.
Variable REGION_IDENTIFIERS : list string.
Variable REGION_PROVINCE_MAP : gmap string (list string).
Variable HUCS : gmap string string.
Variable subtotal_col : string.

Lemma extract_location_hierarchy_local n df :
  local n (extract_location_hierarchy REGION_IDENTIFIERS REGION_PROVINCE_MAP HUCS
             subtotal_col df) (fun w => n <= w).
Proof.
  unfold extract_location_hierarchy, rebind, update. repeat local_step'.
Qed.

Lemma rows_empty_assign c f d : rows d = [] -> rows (assign c f d) = [].
Proof. rewrite rows_assign. intros ->. reflexivity. Qed.

Lemma rows_empty_select p d : rows d = [] -> rows (select p d) = [].
Proof. unfold select. simpl. intros ->. reflexivity. Qed.

Lemma rows_empty_map_rows f d : rows d = [] -> rows (map_rows f d) = [].
Proof. unfold map_rows. simpl. intros ->. reflexivity. Qed.

Lemma rows_empty_group_ffill ks c d : rows d = [] -> rows (group_ffill_column ks c d) = [].
Proof. unfold group_ffill_column, set_column. simpl. intros ->. reflexivity. Qed.

Lemma rows_empty_drop_columns cs d : rows d = [] -> rows (drop_columns cs d) = [].
Proof. rewrite rows_drop_columns. intros ->. reflexivity. Qed.

Lemma rows_empty_drop_exact d : rows d = [] -> rows (drop_exact_duplicates d) = [].
Proof. unfold drop_exact_duplicates, drop_duplicates. simpl. intros ->. reflexivity. Qed.

Lemma rows_empty_hierarchy_first d : rows d = [] -> rows (hierarchy_first d) = [].
Proof. intros H. exact H. Qed.

Ltac empty_rows :=
  repeat lazymatch goal with
  | |- rows (assign _ _ _) = [] => apply rows_empty_assign
  | |- rows (select _ _) = [] => apply rows_empty_select
  | |- rows (map_rows _ _) = [] => apply rows_empty_map_rows
  | |- rows (group_ffill_column _ _ _) = [] => apply rows_empty_group_ffill
  | |- rows (drop_columns _ _) = [] => apply rows_empty_drop_columns
  | |- rows (drop_exact_duplicates _) = [] => apply rows_empty_drop_exact
  | |- rows (hierarchy_first _) = [] => apply rows_empty_hierarchy_first
  | H : rows ?d = [] |- rows ?d = [] => exact H
  end.

Lemma finish_frame_empty d : rows d = [] -> rows (finish_frame HUCS subtotal_col d) = [].
Proof. intros H. unfold finish_frame. cbv zeta. empty_rows. Qed.

Lemma missing_location df :
  has_column "Location" df = false ->
  call (extract_location_hierarchy REGION_IDENTIFIERS REGION_PROVINCE_MAP HUCS subtotal_col) df
  = Raise KeyError.
Proof. intros HL. rewrite extract_location_hierarchy_eval, HL. reflexivity. Qed.

Lemma has_column_set_column c k vs d :
  k <> c -> has_column c (set_column k vs d) = has_column c d.
Proof.
  intros Hne. unfold has_column, set_column. simpl.
  apply bool_decide_ext. rewrite elem_of_with_column. split; [intros [?|?]; congruence|auto].
Qed.

Lemma has_column_restore_hucs_ne c backup d :
  "Province" <> c -> has_column c (restore_hucs backup d) = has_column c d.
Proof.
  intros Hne. unfold restore_hucs. revert d.
  induction backup as [|h backup IH]; simpl; intros d; [reflexivity|].
  rewrite IH. apply has_column_assign, Hne.
Qed.

Lemma has_column_step_5d_eq c d :
  has_column c (step_5d REGION_PROVINCE_MAP d) = has_column c d.
Proof. unfold step_5d. case_match; reflexivity. Qed.

Lemma has_column_select c p d : has_column c (select p d) = has_column c d.
Proof. reflexivity. Qed.

Lemma has_column_map_rows c f d : has_column c (map_rows f d) = has_column c d.
Proof. reflexivity. Qed.

Lemma province_frame_lacks_column c df :
  c ∉ derived_labels -> has_column c df = false ->
  has_column c (province_frame REGION_IDENTIFIERS REGION_PROVINCE_MAP HUCS df) = false.
Proof.
  intros Hd HS. unfold derived_labels in Hd. rewrite !not_elem_of_cons in Hd.
  destruct Hd as (H1 & H2 & H3 & H4 & H5 & _).
  unfold province_frame. cbv zeta.
  rewrite has_column_assign by congruence.
  rewrite has_column_restore_hucs_ne by congruence.
  unfold group_ffill_column, ffill_column.
  rewrite has_column_set_column by congruence.
  rewrite has_column_select.
  rewrite !has_column_assign by congruence.
  rewrite has_column_step_5d_eq, has_column_map_rows.
  rewrite !has_column_assign by congruence.
  rewrite has_column_set_column by congruence.
  rewrite !has_column_assign by congruence.
  rewrite has_column_select. exact HS.
Qed.

Lemma missing_subtotal df :
  has_column "Location" df = true -> has_column subtotal_col df = false ->
  subtotal_col ∉ derived_labels ->
  call (extract_location_hierarchy REGION_IDENTIFIERS REGION_PROVINCE_MAP HUCS subtotal_col) df
  = Raise KeyError \/
  exists out,
    call (extract_location_hierarchy REGION_IDENTIFIERS REGION_PROVINCE_MAP HUCS subtotal_col) df
    = Ok out /\ rows out = [].
Proof.
  intros HL HS Hd. rewrite extract_location_hierarchy_eval, HL. cbn [negb].
  rewrite province_frame_lacks_column by assumption. cbn [orb].
  destruct (rows (province_frame _ _ _ df)) eqn:E; cbn [length Nat.eqb negb].
  - right. eexists. split; [reflexivity|]. apply finish_frame_empty, E.
  - left. reflexivity.
Qed.

End Run.
End HierarchyErrors.
Module HierarchyTheorems.
Import PyStr Pd Py Transformations Samples.
Import HierarchyFacts KeptFacts ColumnFacts HierarchyErrors StoreFacts.
Local Open Scope py_scope.









(** The function works on a copy: run on any store, at any address, it
    leaves every frame of the store as it was (the frame it was given
    among them), and the frame it returns is a new object. *)
Theorem hierarchy_leaves_the_store
    (REGION_IDENTIFIERS : list string) (REGION_PROVINCE_MAP : gmap string (list string))
    (HUCS : gmap string string) (subtotal_col : string)
    (s : list DataFrame) (df b : addr) :
  b < List.length s ->
  let run := extract_location_hierarchy REGION_IDENTIFIERS REGION_PROVINCE_MAP HUCS
               subtotal_col df s in
  run.2 !! b = s !! b /\
  match run.1 with Ok w => List.length s <= w | Raise _ => True end.
Proof.
  intros Hb run.
  destruct (extract_location_hierarchy_local REGION_IDENTIFIERS REGION_PROVINCE_MAP HUCS
              subtotal_col (List.length s) df s (le_n _)) as (H1 & _ & H3).
  split; [apply H1, Hb|exact H3].
Qed.

Lemma hierarchy_leaves_the_store_witness :
  let run := extract_location_hierarchy sample_regions sample_province_map sample_hucs
               "Sub-total" 0 [frame_tagaytay] in
  run.2 !! 0 = Some frame_tagaytay /\
  match run.1 with Ok w => 1 <= w | Raise _ => True end.
Proof.
  apply (hierarchy_leaves_the_store sample_regions sample_province_map sample_hucs
           "Sub-total" [frame_tagaytay] 0 0). simpl. lia.
Defined.



End HierarchyTheorems.

(** ** [add_pcodes]: rows, columns, errors *)

Module AddPcodesTheorems.
Import PyStr Pd Py Pcodes MatchFacts FrameFacts AddPcodesFacts ResolverFacts StoreFacts Samples.
Local Open Scope py_scope.

Lemma bind_ok_inv {A B} (m : M A) (k : A -> M B) s w s' :
  bind m k s = (Ok w, s') -> exists x s1, m s = (Ok x, s1) /\ k x s1 = (Ok w, s').
Proof.
  unfold bind. destruct (m s) as [[x|e] s1]; [eauto|discriminate].
Qed.

Lemma new_from_ok_inv v f s w s' :
  new_from v f s = (Ok w, s') ->
  exists d d', f d = Ok d' /\ s' !! w = Some d'.
Proof.
  unfold new_from. destruct (s !! v) as [d|]; [|discriminate].
  destruct (f d) as [d'|e] eqn:E; [|discriminate].
  intros [= <- <-]. exists d, d'. split; [exact E|].
  rewrite lookup_app_r by reflexivity. rewrite Nat.sub_diag. reflexivity.
Qed.

Lemma bind_mutate_raise {B} v f (k : unit -> M B) s d e :
  s !! v = Some d -> f d = Raise e -> bind (mutate v f) k s = (Raise e, s).
Proof. intros Hs Hf. unfold bind, mutate. rewrite Hs, Hf. reflexivity. Qed.

Lemma traverse_raise {A B} (f : A -> result B) (l : list A) e :
  (forall x, x ∈ l -> f x = Raise e \/ exists y, f x = Ok y) ->
  (exists x, x ∈ l /\ f x = Raise e) ->
  traverse f l = Raise e.
Proof.
  induction l as [|x l IH]; intros Hall (x0 & Hin & Hx0); [inversion Hin|].
  simpl. destruct (Hall x ltac:(left)) as [Hx|[y Hx]]; rewrite Hx; [reflexivity|]. simpl.
  apply elem_of_cons in Hin as [->|Hin]; [rewrite Hx0 in Hx; discriminate Hx|].
  rewrite IH; [reflexivity| |eauto]. intros z Hz. apply Hall. right. exact Hz.
Qed.

Ltac getsimp :=
  repeat first
    [ rewrite get_insert_eq
    | rewrite get_insert_ne by discriminate
    | rewrite get_delete_ne by discriminate ].

Lemma Forall2_map_self {A} (P : A -> A -> Prop) (f : A -> A) l :
  (forall x, P (f x) x) -> Forall2 P (map f l) l.
Proof. intros H. induction l; simpl; constructor; auto. Qed.

Section Run.
Variable scorer : string -> string -> Z.
Variable pcode_df : list gaz_row.

Lemma add_pcodes_last df out :
  has_column "Region" df = true ->
  call (add_pcodes scorer pcode_df) df = Ok out ->
  exists d, out = drop_columns (List.filter (fun c => has_column c d) cols_to_drop) d.
Proof.
  intros HR. unfold call.
  destruct (add_pcodes scorer pcode_df 0 [df]) as [[w|e] s'] eqn:E; [|discriminate].
  revert E. unfold add_pcodes.
  erewrite bind_new_from; [|reflexivity|reflexivity]. cbn [length app].
  do 2 (erewrite bind_mutate; [|reflexivity|reflexivity]; cbn [insert list_insert]).
  erewrite bind_peek; [|reflexivity].
  rewrite !has_column_assign, HR by discriminate. cbn [negb].
  intros E.
  repeat (apply bind_ok_inv in E as (? & ? & _ & E)).
  apply new_from_ok_inv in E as (d & d' & [= <-] & ->).
  intros [= <-]. exists d. reflexivity.
Qed.

Lemma dropped_label_gone c d :
  c ∈ cols_to_drop ->
  has_column c (drop_columns (List.filter (fun c => has_column c d) cols_to_drop) d) = false.
Proof.
  intros Hc. unfold has_column at 1, drop_columns. cbn [columns].
  apply bool_decide_eq_false_2. intros Hin.
  apply list_elem_of_In, filter_In in Hin as [Hin Hp].
  apply negb_true_iff, bool_decide_eq_false_1 in Hp. apply Hp.
  apply list_elem_of_In, filter_In. split; [apply list_elem_of_In, Hc|].
  unfold has_column. apply bool_decide_eq_true_2, list_elem_of_In, Hin.
Qed.

Lemma add_pcodes_row_coded hp hm hb dropped r :
  (forall x, x ∈ dropped -> x ∈ cols_to_drop) ->
  coded_from (add_pcodes_row scorer pcode_df hp hm hb dropped r) r.
Proof.
  intros Hsub.
  assert (Hget : forall c,
            c ∉ ["region_clean"; "province_clean"; "mun_clean"; "brgy_clean";
                 "ADM1_EN"; "ADM1_PCODE"; "ADM2_EN"; "ADM2_PCODE"; "ADM1_EN_check";
                 "ADM1_PCODE_check"; "ADM3_EN"; "ADM3_PCODE"; "ADM4_EN"; "ADM4_PCODE"] ->
            get (add_pcodes_row scorer pcode_df hp hm hb dropped r) c
            = get (with_clean_names hp hm hb r) c).
  { intros c Hc. pose proof Hc as H'. repeat (apply not_elem_of_cons in H' as [? H']).
    unfold add_pcodes_row, when.
    rewrite get_dropped;
      [|exact Hsub
       |unfold cols_to_drop; rewrite !not_elem_of_cons; repeat split;
        first [congruence|apply not_elem_of_nil]].
    destruct (hb && hm);
      [rewrite get_with_barangay
         by (rewrite !not_elem_of_cons; repeat split;
             first [congruence|apply not_elem_of_nil])|];
      (destruct (hm && hp);
       [rewrite get_with_municipality
          by (rewrite !not_elem_of_cons; repeat split;
              first [congruence|apply not_elem_of_nil])|]);
      (destruct hp;
       [rewrite get_with_province
          by (rewrite !not_elem_of_cons; repeat split;
              first [congruence|apply not_elem_of_nil])|]);
      apply get_with_region; rewrite !not_elem_of_cons; repeat split;
        first [congruence|apply not_elem_of_nil]. }
  split; [|split].
  - intros c Hc. pose proof Hc as H'. unfold pcode_labels in H'.
    repeat (apply not_elem_of_cons in H' as [? H']).
    rewrite Hget
      by (rewrite !not_elem_of_cons; repeat split; first [congruence|apply not_elem_of_nil]).
    apply get_with_clean_names. rewrite !not_elem_of_cons. repeat split;
      first [congruence|apply not_elem_of_nil].
  - rewrite Hget by decide_it.
    unfold with_clean_names, when, set_cell. destruct hp, hm, hb; getsimp; reflexivity.
  - rewrite Hget by decide_it.
    unfold with_clean_names, when, set_cell. destruct hp, hm, hb; getsimp; reflexivity.
Qed.

End Run.





(** Without a Region column [add_pcodes] returns early: the result is the
    input with the country name and code added, and no name is matched
    (nor cleaned: the call does not raise whatever the other columns
    hold). *)
Theorem add_pcodes_without_region
    (scorer : string -> string -> Z) (pcode_df : list gaz_row) (df : DataFrame) :
  has_column "Region" df = false ->
  call (add_pcodes scorer pcode_df) df
  = Ok (assign "ADM0_PCODE" (fun _ => CStr "PH")
          (assign "ADM0_EN" (fun _ => CStr "Philippines") df)).
Proof. apply add_pcodes_no_region. Qed.

Lemma add_pcodes_without_region_witness :
  call (add_pcodes sample_scorer sample_pcode_df) frame_provinces_only
  = Ok (assign "ADM0_PCODE" (fun _ => CStr "PH")
          (assign "ADM0_EN" (fun _ => CStr "Philippines") frame_provinces_only)).
Proof.
  apply (add_pcodes_without_region sample_scorer sample_pcode_df frame_provinces_only).
  vm_compute. reflexivity.
Defined.

(** A number (or a truth value) in the Region column makes [add_pcodes]
    raise AttributeError: the cleaning of names accepts text and nulls
    only. *)
Theorem add_pcodes_number_in_region_raises
    (scorer : string -> string -> Z) (pcode_df : list gaz_row) (df : DataFrame) :
  has_column "Region" df = true ->
  (exists r, r ∈ rows df /\ is_text (get r "Region") = false) ->
  call (add_pcodes scorer pcode_df) df = Raise AttributeError.
Proof.
  intros HR (r & Hr & Hnum). unfold call, add_pcodes.
  erewrite bind_new_from; [|reflexivity|reflexivity]. cbn [length app].
  do 2 (erewrite bind_mutate; [|reflexivity|reflexivity]; cbn [insert list_insert]).
  erewrite bind_peek; [|reflexivity].
  rewrite !has_column_assign, HR by discriminate. cbn [negb].
  erewrite bind_mutate_raise; [reflexivity|reflexivity|].
  unfold assign_try. rewrite (traverse_raise _ _ AttributeError); [reflexivity| |].
  - intros x _. destruct (clean_cell (get x "Region")) as [v|e] eqn:E; simpl; [eauto|].
    left. destruct (get x "Region"); simpl in E; congruence.
  - rewrite !rows_assign, map_map.
    exists (set_cell "ADM0_PCODE" (fun _ => CStr "PH")
              (set_cell "ADM0_EN" (fun _ => CStr "Philippines") r)).
    split; [apply list_elem_of_fmap; exists r; auto|].
    unfold set_cell. getsimp. destruct (get r "Region"); simpl in *; congruence.
Qed.

Lemma add_pcodes_number_in_region_raises_witness :
  call (add_pcodes sample_scorer sample_pcode_df) frame_number_region = Raise AttributeError.
Proof.
  apply (add_pcodes_number_in_region_raises sample_scorer sample_pcode_df frame_number_region).
  - vm_compute. reflexivity.
  - eexists. split; [left|]. vm_compute. reflexivity.
Defined.

(** [add_pcodes] works on a copy: run on any store, at any address, it
    leaves every frame of the store as it was, and the frame it returns
    is a new object. *)
Theorem add_pcodes_leaves_the_store
    (scorer : string -> string -> Z) (pcode_df : list gaz_row)
    (s : list DataFrame) (df b : addr) :
  b < List.length s ->
  let run := add_pcodes scorer pcode_df df s in
  run.2 !! b = s !! b /\
  match run.1 with Ok w => List.length s <= w | Raise _ => True end.
Proof.
  intros Hb run.
  destruct (add_pcodes_local scorer pcode_df (List.length s) df s (le_n _)) as (H1 & _ & H3).
  split; [apply H1, Hb|exact H3].
Qed.

Lemma add_pcodes_leaves_the_store_witness :
  let run := add_pcodes sample_scorer sample_pcode_df 0 [frame_no_region] in
  run.2 !! 0 = Some frame_no_region /\
  match run.1 with Ok w => 1 <= w | Raise _ => True end.
Proof.
  apply (add_pcodes_leaves_the_store sample_scorer sample_pcode_df [frame_no_region] 0 0).
  simpl. lia.
Defined.

End AddPcodesTheorems.

(** ** The two [get_clean_names] *)

Module CleanNamesTheorems.
Import PyStr StrFacts ReFacts CleanNamesFacts.

Lemma forall_str_and (p q : ascii -> bool) s :
  forall_str (fun c => p c && q c) s = forall_str p s && forall_str q s.
Proof.
  induction s as [|c s IH]; simpl; [reflexivity|]. rewrite IH.
  destruct (p c), (q c), (forall_str p s), (forall_str q s); reflexivity.
Qed.

Lemma to_lower_upper c : to_lower_char (to_upper_char c) = to_lower_char c.
Proof.
  destruct c as [[] [] [] [] [] [] [] []]; vm_compute; reflexivity.
Qed.

Lemma casefold_upper s : casefold (upper s) = casefold s.
Proof.
  unfold casefold, upper. induction s as [|c s IH]; simpl; [reflexivity|].
  rewrite to_lower_upper, IH. reflexivity.
Qed.

Ltac open_dromic :=
  unfold Dromic.get_clean_names, Pcodes.remove_all, Pcodes.convert_numerals,
    Dromic.strings_to_remove, Pcodes.numeral_dict, Pcodes.unidecode;
  cbn [fold_left fst snd].

(** A key made by [get_clean_names] of pcodes.py holds no upper-case
    letter, period, hyphen, asterisk or comma, and no white space at
    either end. *)
Theorem pcodes_key_alphabet (x : string) :
  Pcodes.ascii_text x = true ->
  forall_str Pcodes.key_char (Pcodes.get_clean_names x) = true /\
  strip (Pcodes.get_clean_names x) = Pcodes.get_clean_names x.
Proof.
  intros _. split; [|apply clean_stripped].
  unfold Pcodes.key_char. rewrite !forall_str_and.
  rewrite clean_no_upper, clean_no_period, clean_no_hyphen, clean_no_star, clean_no_comma.
  reflexivity.
Qed.

Lemma pcodes_key_alphabet_witness :
  forall_str Pcodes.key_char (Pcodes.get_clean_names "City of Sta. Cruz (Capital)") = true /\
  strip (Pcodes.get_clean_names "City of Sta. Cruz (Capital)")
  = Pcodes.get_clean_names "City of Sta. Cruz (Capital)".
Proof. apply (pcodes_key_alphabet "City of Sta. Cruz (Capital)"). reflexivity. Defined.

(** The sibling of dromic_extractor.py keeps periods and commas: its keys
    hold no upper-case letter, hyphen or asterisk, and no white space at
    either end. *)
Theorem dromic_key_alphabet (x : string) :
  Pcodes.ascii_text x = true ->
  forall_str (fun c => not_upper c && not_char "-" c && not_char "*" c)
    (Dromic.get_clean_names x) = true /\
  strip (Dromic.get_clean_names x) = Dromic.get_clean_names x.
Proof.
  intros _. split; [|unfold Dromic.get_clean_names; apply strip_idem].
  rewrite !forall_str_and.
  assert (H1 : forall_str not_upper (Dromic.get_clean_names x) = true)
    by (open_dromic; unfold not_upper; descend).
  assert (H2 : forall_str (not_char "-") (Dromic.get_clean_names x) = true)
    by (open_dromic; unfold not_char; descend).
  assert (H3 : forall_str (not_char "*") (Dromic.get_clean_names x) = true)
    by (open_dromic; unfold not_char; descend).
  rewrite H1, H2, H3. reflexivity.
Qed.

Lemma dromic_key_alphabet_witness :
  forall_str (fun c => not_upper c && not_char "-" c && not_char "*" c)
    (Dromic.get_clean_names "Brgy. Sta. Cruz-Poblacion *") = true /\
  strip (Dromic.get_clean_names "Brgy. Sta. Cruz-Poblacion *")
  = Dromic.get_clean_names "Brgy. Sta. Cruz-Poblacion *".
Proof. apply (dromic_key_alphabet "Brgy. Sta. Cruz-Poblacion *"). reflexivity. Defined.

(** Both cleaning functions ignore the case of their input: a name in
    upper case gets the key of the name as written. *)
Theorem clean_names_ignore_case (x : string) :
  Pcodes.ascii_text x = true ->
  Pcodes.get_clean_names (upper x) = Pcodes.get_clean_names x /\
  Dromic.get_clean_names (upper x) = Dromic.get_clean_names x.
Proof.
  intros _. unfold Pcodes.get_clean_names, Dromic.get_clean_names.
  rewrite casefold_upper. split; reflexivity.
Qed.

Lemma clean_names_ignore_case_witness :
  Pcodes.get_clean_names (upper "Tagaytay City") = Pcodes.get_clean_names "Tagaytay City" /\
  Dromic.get_clean_names (upper "Tagaytay City") = Dromic.get_clean_names "Tagaytay City".
Proof. apply (clean_names_ignore_case "Tagaytay City"). reflexivity. Defined.

End CleanNamesTheorems.

(** ** [transform_damaged_houses] *)

Module HousesFacts.
Import PyStr Pd Py Transformations FrameFacts AddPcodesFacts HierarchyFacts ColumnFacts.

Lemma classify_cases t r :
  unmarked r ->
  let t' := (classify t r).1 in
  let r' := (classify t r).2 in
  (get r' "Municipality" = CNone /\ get r' "Barangay" = CNone /\
   tracking t' = false) \/
  (get r' "Municipality" = CNone /\ notna (get r' "Barangay") = true /\
   tracking t = true /\ py_ne (get r "Province") (previous_province t) = false) \/
  (notna (get r' "Municipality") = true /\ get r' "Barangay" = CNone /\
   tracking t' = true).
Proof.
  intros [HM HB]. unfold classify.
  destruct (py_ne (get r "Province") (previous_province t)) eqn:Ene;
    destruct (blank_location _); cbn [tracking fst snd];
    try (left; auto; fail).
  - right. right. rewrite get_insert_eq, get_insert_ne by discriminate. auto.
  - destruct (tracking t) eqn:Et.
    + right. left. destruct (_ <=? _)%Z; cbn [fst snd];
        rewrite get_insert_eq, get_insert_ne by discriminate; auto.
    + right. right. cbn [fst snd tracking].
      rewrite get_insert_eq, get_insert_ne by discriminate. auto.
Qed.

(** After Step 17 a row that holds a Barangay holds a Municipality. *)
Lemma identify_ffill t last l :
  Forall unmarked l ->
  (tracking t = true -> notna last = true) ->
  Forall (fun r => (notna (get r "Barangay") = true -> notna (get r "Municipality") = true) /\
                   (isna (get r "Barangay") = true \/ notna (get r "Barangay") = true))
    (zip_with (fun r v => <["Municipality" := v]> r) (identify t l)
       (ffill_from last (map (fun r => get r "Municipality") (identify t l)))).
Proof.
  intros Hl. revert t last. induction Hl as [|r l Hr Hl IH]; intros t last Ht; simpl;
    [constructor|].
  destruct (classify_cases t r Hr) as [(HM & HB & Ht')|[(HM & HB & Ht1 & _)|(HM & HB & Ht')]].
  - rewrite HM. simpl. constructor.
    + rewrite get_insert_ne by discriminate. rewrite HB. split; [discriminate|left; reflexivity].
    + destruct (isna last); apply IH; rewrite Ht'; discriminate.
  - rewrite HM. simpl. pose proof (Ht Ht1) as Hlast. unfold notna in Hlast.
    destruct (isna last) eqn:El; [discriminate Hlast|]. constructor.
    + rewrite get_insert_eq, get_insert_ne by discriminate. unfold notna. rewrite El.
      split; [reflexivity|right; exact HB].
    + apply IH. intros _. unfold notna. rewrite El. reflexivity.
  - unfold notna in HM. destruct (isna (get (classify t r).2 "Municipality")) eqn:E;
      [discriminate HM|]. constructor.
    + rewrite get_insert_eq, get_insert_ne by discriminate. unfold notna. rewrite E, HB.
      split; [reflexivity|left; reflexivity].
    + apply IH. intros _. unfold notna. rewrite E. reflexivity.
Qed.

Lemma ffill_identify_rows d r :
  (forall x, x ∈ rows d -> unmarked x) ->
  r ∈ rows (ffill_column "Municipality" (identify_frame d)) ->
  (notna (get r "Barangay") = true -> notna (get r "Municipality") = true) /\
  (isna (get r "Barangay") = true \/ notna (get r "Barangay") = true).
Proof.
  intros Hd Hr.
  assert (H : Forall unmarked (rows d)) by (apply Forall_forall; exact Hd).
  pose proof (identify_ffill start CNone (rows d) H ltac:(discriminate)) as HF.
  rewrite Forall_forall in HF. apply (HF r). exact Hr.
Qed.

Lemma get_set_cell_eq c f (r : gmap string cell) : get (set_cell c f r) c = f r.
Proof. apply get_insert_eq. Qed.

Lemma get_set_cell_ne k c f (r : gmap string cell) :
  k <> c -> get (set_cell k f r) c = get r c.
Proof. apply get_insert_ne. Qed.

Lemma rename_wrong_width new df :
  List.length (columns df) <> List.length new -> rename_columns new df = Raise ValueError.
Proof.
  intros H. unfold rename_columns. apply Nat.eqb_neq in H. rewrite H. reflexivity.
Qed.

Lemma rename_right_width new df :
  List.length (columns df) = List.length new ->
  exists d, rename_columns new df = Ok d /\ columns d = new /\
            List.length (rows d) = List.length (rows df).
Proof.
  intros H. unfold rename_columns. apply Nat.eqb_eq in H. rewrite H.
  eexists. split; [reflexivity|]. split; [reflexivity|]. simpl. apply length_map.
Qed.

Section Run.
Variable REGION_IDENTIFIERS : list string.
Variable REGION_PROVINCE_MAP : gmap string (list string).
Variable to_numeric : string -> cell.

Local Abbreviation houses_frame_of :=
  (houses_frame REGION_IDENTIFIERS REGION_PROVINCE_MAP to_numeric).

Lemma columns_reorder cs d : columns (reorder cs d) = cs.
Proof. reflexivity. Qed.

Lemma houses_frame_columns d :
  columns d = house_columns ->
  columns (houses_frame_of d)
  = ["Region"; "Province"; "Municipality"; "Barangay"; "Location"; "Totally_Damaged";
     "Partially_Damaged"; "Grand_Total_Damaged"; "Amount_PHP"; "Remarks"; "Level"].
Proof.
  intros Hd. unfold houses_frame, houses_levels, houses_provinces, identify_frame,
    numeric_cols. cbv zeta. cbn [fold_left].
  repeat first [ rewrite columns_reorder | rewrite columns_assign | rewrite columns_select
               | rewrite columns_ffill_column | progress cbn [columns] ].
  rewrite Hd. vm_compute. reflexivity.
Qed.

Lemma houses_provinces_unmarked d x :
  x ∈ rows (houses_provinces REGION_IDENTIFIERS REGION_PROVINCE_MAP to_numeric d) ->
  unmarked x.
Proof.
  unfold houses_provinces. cbv zeta. intros Hx.
  apply elem_of_assign in Hx as (x1 & Hx & ->).
  apply elem_of_assign in Hx as (x2 & Hx & ->).
  unfold unmarked. rewrite get_set_cell_eq, get_set_cell_ne by discriminate.
  rewrite get_set_cell_eq. auto.
Qed.

Lemma houses_levels_rows d r :
  (forall x, x ∈ rows d -> unmarked x) ->
  r ∈ rows (houses_levels d) ->
  has_house_location r = true /\
  (get r "Level" = CStr "Barangay" /\ notna (get r "Barangay") = true /\
   notna (get r "Municipality") = true \/
   get r "Level" = CStr "Municipality" /\ isna (get r "Barangay") = true /\
   notna (get r "Municipality") = true \/
   get r "Level" = CNone /\ isna (get r "Barangay") = true /\
   isna (get r "Municipality") = true).
Proof.
  intros Hd. unfold houses_levels. cbv zeta. unfold reorder. cbn [rows]. intros Hr.
  apply elem_of_select in Hr as [Hr Hloc]. split; [exact Hloc|].
  apply elem_of_assign in Hr as (r1 & Hr & ->).
  apply elem_of_assign in Hr as (r2 & Hr & ->).
  apply ffill_identify_rows in Hr as [HBM HB]; [|exact Hd].
  rewrite !get_set_cell_eq, !get_set_cell_ne by discriminate.
  unfold house_level. rewrite !get_set_cell_ne by discriminate.
  destruct HB as [HB|HB].
  - unfold notna. rewrite HB. cbn [negb].
    destruct (isna (get r2 "Municipality")); cbn [negb].
    + right. right. auto.
    + right. left. auto.
  - rewrite HB. left. auto.
Qed.

End Run.

Lemma py_ne_same p : p <> CNaN -> py_ne p p = false.
Proof.
  intros H. unfold py_ne. destruct p; try congruence;
    rewrite bool_decide_eq_true_2 by reflexivity; reflexivity.
Qed.

Lemma py_ne_false a b : py_ne a b = false -> a = b.
Proof.
  unfold py_ne. destruct a, b; try discriminate; intros H;
    apply negb_false_iff, bool_decide_eq_true in H; exact H.
Qed.

Lemma identify_children t cs rest p :
  tracking t = true -> previous_province t = p -> p <> CNaN ->
  Forall (named_in p) cs ->
  fills (municipality_total t) (cumulative_total t) cs = true ->
  identify t (cs ++ rest)
  = (map as_barangay cs ++ identify (mkTracker false 0 0 p) rest)%list.
Proof.
  intros Ht Hp Hnan Hcs. revert t Ht Hp.
  induction Hcs as [|c cs [Hc1 Hc2] Hcs IH]; intros t Ht Hp Hfill; [discriminate Hfill|].
  cbn [fills] in Hfill. cbn [app map identify].
  unfold classify. fold (location_of c).
  rewrite Hc2, Hp, (py_ne_same p Hnan), Hc1, Ht.
  destruct (_ <=? _)%Z; cbn [fst snd].
  - destruct cs; [|discriminate Hfill]. rewrite Hp. reflexivity.
  - f_equal. apply IH; [reflexivity|exact Hp|exact Hfill].
Qed.

End HousesFacts.

Module HousesTheorems.
Import PyStr Pd Py Transformations Samples HousesFacts.

(** Step 16 of [transform_damaged_houses], the counter.  When no
    Municipality is open, a named row opens one, with its own total;
    the named rows that follow in the same Province are its Barangays, up
    to and including the first one at which their running sum reaches the
    total; the row after that one is read with no Municipality open. *)
Theorem houses_counter_closes_the_municipality
    (t : tracker) (h : gmap string cell) (cs rest : list (gmap string cell)) :
  tracking t = false ->
  get h "Province" <> CNaN ->
  blank_location (location_of h) = false ->
  Forall (named_in (get h "Province")) cs ->
  fills (damaged h) 0 cs = true ->
  identify t (h :: cs ++ rest)
  = (as_municipality h :: map as_barangay cs
     ++ identify (mkTracker false 0 0 (get h "Province")) rest)%list.
Proof.
  intros Ht Hnan Hh Hcs Hfill. cbn [identify].
  assert (E : classify t h
              = (mkTracker true (damaged h) 0 (get h "Province"), as_municipality h)).
  { unfold classify. fold (location_of h). rewrite Hh.
    destruct (py_ne (get h "Province") (previous_province t)) eqn:Ene; cbn [tracking].
    - reflexivity.
    - rewrite Ht. apply py_ne_false in Ene. rewrite <- Ene. reflexivity. }
  rewrite E. cbn [fst snd]. f_equal.
  apply identify_children; [reflexivity|reflexivity|exact Hnan|exact Hcs|exact Hfill].
Qed.

Lemma houses_counter_closes_the_municipality_witness :
  identify start (house_row "Tagaytay City" 50 :: houses_of_tagaytay
                  ++ [house_row "Silang" 7])
  = (as_municipality (house_row "Tagaytay City" 50) :: map as_barangay houses_of_tagaytay
     ++ identify (mkTracker false 0 0 (get (house_row "Tagaytay City" 50) "Province"))
          [house_row "Silang" 7])%list.
Proof.
  apply (houses_counter_closes_the_municipality start (house_row "Tagaytay City" 50)
           houses_of_tagaytay [house_row "Silang" 7]).
  - reflexivity.
  - vm_compute. discriminate.
  - vm_compute. reflexivity.
  - repeat constructor.
  - vm_compute. reflexivity.
Defined.





End HousesTheorems.

(** ** [detect_admin_levels] *)

Module LevelsFacts.
Import PyStr Pd Py Transformations DromicLevels FrameFacts AddPcodesFacts KeptFacts.

Lemma count_row_total st z next :
  (exists total, adm2_value st = Some total) ->
  (forall v', next = Some v' -> exists z', v' = Some z') ->
  exists adm2 adm3 st',
    count_row st (Some z) next = Ok (adm2, adm3, st') /\
    exists total', adm2_value st' = Some total'.
Proof.
  intros [total Ht] Hnext. unfold count_row. rewrite Ht.
  destruct (at_adm2 st); cbn zeta.
  - destruct (0 =? total)%Z.
    + destruct next as [v'|]; [destruct (Hnext v' eq_refl) as [z' ->]|]; simpl; eauto 10.
    + simpl. eauto 10.
  - destruct (_ =? total)%Z.
    + destruct next as [v'|]; [destruct (Hnext v' eq_refl) as [z' ->]|]; simpl; eauto 10.
    + simpl. eauto 10.
Qed.

Lemma count_rows_total st (zs : list Z) :
  (exists total, adm2_value st = Some total) ->
  exists flags, count_rows st (map Some zs) = Ok flags /\
                List.length flags = List.length zs.
Proof.
  revert st. induction zs as [|z zs IH]; intros st Hst; simpl; [eauto|].
  destruct (count_row_total st z (head (map Some zs)) Hst) as (a2 & a3 & st' & E & Hst').
  { intros v' Hv'. destruct zs; [discriminate|]. simpl in Hv'. injection Hv' as <-. eauto. }
  rewrite E. simpl. destruct (IH st' Hst') as (flags & -> & Hlen). simpl.
  eexists. split; [reflexivity|]. simpl. congruence.
Qed.

Lemma merge_flags_rows l flags :
  Forall2 (fun r r0 =>
             agree_off ["adm2"; "adm3"] r r0 /\
             (counted r0 = false -> get r "adm2" = CNaN /\ get r "adm3" = CNaN))
    (merge_flags l flags) l.
Proof.
  revert flags. induction l as [|r l IH]; intros flags; simpl; [constructor|].
  assert (Hag : forall v w, agree_off ["adm2"; "adm3"] (<["adm3" := v]> (<["adm2" := w]> r)) r).
  { intros v w. repeat apply agree_insert; [set_solver|set_solver|apply agree_refl]. }
  unfold counted.
  destruct (truth (get r "adm0") || truth (get r "adm1") || truth (get r "huc")) eqn:E.
  - constructor; [|apply IH]. split; [apply Hag|]. intros _.
    rewrite get_insert_eq, get_insert_ne, get_insert_eq by discriminate. auto.
  - assert (Hc : negb (truth (get r "adm0")) && negb (truth (get r "adm1"))
                 && negb (truth (get r "huc")) = true).
    { destruct (truth (get r "adm0")), (truth (get r "adm1")), (truth (get r "huc"));
        simpl in E; try discriminate E; reflexivity. }
    destruct flags as [|[a2 a3] flags]; (constructor; [|apply IH]);
      (split; [apply Hag|]); rewrite Hc; discriminate.
Qed.

Lemma count_children total c zs v' rest :
  reaches total c zs = true ->
  count_rows (mkCounter false (Some total) c) (map Some zs ++ v' :: rest)
  = rbind (count_rows (mkCounter true v' 0) (v' :: rest))
      (fun flags => Ok (child_flags total c zs ++ flags)%list).
Proof.
  remember (count_rows (mkCounter true v' 0) (v' :: rest)) as K eqn:HK.
  revert c. induction zs as [|z zs IH]; intros c Hr; [discriminate Hr|].
  cbn [reaches] in Hr. cbn [map app count_rows child_flags].
  unfold count_row. cbn [adm2_value at_adm2 previous_counter].
  destruct (c + z =? total)%Z eqn:E.
  - destruct zs; [|discriminate Hr]. cbn [map app head rbind child_flags].
    rewrite <- HK. destruct K; reflexivity.
  - cbn [rbind]. rewrite IH by exact Hr. destruct K; reflexivity.
Qed.

Lemma imap_map_Forall2 {A B C} (f : nat -> B -> C) (g : A -> B) (P : C -> A -> Prop) l :
  (forall i x, P (f i (g x)) x) -> Forall2 P (imap f (map g l)) l.
Proof.
  revert f. induction l as [|x l IH]; intros f H; simpl; constructor; [apply H|].
  apply IH. intros i y. apply H.
Qed.

Lemma Forall2_compose {A B C} (P : A -> B -> Prop) (Q : B -> C -> Prop)
    (R : A -> C -> Prop) l1 l2 l3 :
  (forall x y z, P x y -> Q y z -> R x z) ->
  Forall2 P l1 l2 -> Forall2 Q l2 l3 -> Forall2 R l1 l3.
Proof.
  intros H H12. revert l3. induction H12; intros l3 H23; inversion H23; subst;
    constructor; eauto.
Qed.

Lemma map_num_some c (l : list (gmap string cell)) :
  (forall r, r ∈ l -> exists z, get r c = CNum z) ->
  map (fun r => num (get r c)) l = map Some (map (fun r => default 0%Z (num (get r c))) l).
Proof.
  induction l as [|r l IH]; intros H; simpl; [reflexivity|].
  destruct (H r ltac:(left)) as [z ->]. simpl. f_equal.
  apply IH. intros x Hx. apply H. right. exact Hx.
Qed.

Section Flags.
Variable huc_df : option (list string * list string).
Variable c0 : string.
Hypothesis Hc0 : c0 ∉ level_labels.

Local Abbreviation flagged := (flagged huc_df c0).

Lemma rows_flag_rows df : rows (flag_rows huc_df c0 df) = map flagged (rows df).
Proof. unfold flag_rows. rewrite !rows_assign, !map_map. reflexivity. Qed.

Lemma get_flagged r :
  (forall c, c ∉ level_labels -> get (flagged r) c = get r c) /\
  get (flagged r) "adm0" = CBool (is_adm0 (get r c0)) /\
  get (flagged r) "adm1" = CBool (is_adm1 (get r c0)) /\
  get (flagged r) "huc" = CBool (is_huc huc_df (get r c0)).
Proof.
  pose proof Hc0 as H. unfold level_labels in H. repeat (apply not_elem_of_cons in H as [? H]).
  unfold flagged, set_cell. split; [|repeat split].
  - intros c Hc. unfold level_labels in Hc. repeat (apply not_elem_of_cons in Hc as [? Hc]).
    rewrite !get_insert_ne by congruence. reflexivity.
  - repeat first [rewrite get_insert_eq | rewrite get_insert_ne by congruence]. reflexivity.
  - repeat first [rewrite get_insert_eq | rewrite get_insert_ne by congruence]. reflexivity.
  - repeat first [rewrite get_insert_eq | rewrite get_insert_ne by congruence]. reflexivity.
Qed.

Lemma counted_flagged r :
  counted (flagged r)
  = negb (is_adm0 (get r c0) || is_adm1 (get r c0) || is_huc huc_df (get r c0)).
Proof.
  destruct (get_flagged r) as (_ & H0 & H1 & H2). unfold counted. rewrite H0, H1, H2.
  cbn [truth]. destruct (is_adm0 _), (is_adm1 _), (is_huc _ _); reflexivity.
Qed.

Lemma levelled_row r x r0 i :
  agree_off ["adm2"; "adm3"] r x /\
  (counted x = false -> get r "adm2" = CNaN /\ get r "adm3" = CNaN) ->
  x = <["index" := CNum i]> (flagged r0) ->
  levelled huc_df c0 r r0.
Proof.
  intros [Hag Hex] ->. destruct (get_flagged r0) as (Hg & H0 & H1 & H2).
  unfold levelled. split; [|split; [|split; [|split]]].
  - intros c Hc. pose proof Hc as Hc'. unfold level_labels in Hc'.
    repeat (apply not_elem_of_cons in Hc' as [? Hc']).
    rewrite Hag by (rewrite !not_elem_of_cons; repeat split;
                    first [congruence|apply not_elem_of_nil]).
    rewrite get_insert_ne by congruence. apply Hg, Hc.
  - rewrite Hag by (apply (bool_decide_unpack _); vm_compute; exact I).
    rewrite get_insert_ne by discriminate. exact H0.
  - rewrite Hag by (apply (bool_decide_unpack _); vm_compute; exact I).
    rewrite get_insert_ne by discriminate. exact H1.
  - rewrite Hag by (apply (bool_decide_unpack _); vm_compute; exact I).
    rewrite get_insert_ne by discriminate. exact H2.
  - intros Hx. apply Hex. unfold counted.
    rewrite !get_insert_ne by discriminate. fold (counted (flagged r0)).
    rewrite counted_flagged, Hx. reflexivity.
Qed.

End Flags.

End LevelsFacts.

Module LevelsTheorems.
Import PyStr Pd Py Transformations DromicLevels Samples FrameFacts AddPcodesFacts LevelsFacts.





(** [detect_admin_levels] raises ValueError when every column of numbers
    holds a zero (or when there is no such column), and IndexError when a
    column qualifies but every row is a total row, an upper-case row or a
    highly urbanized city, so that nothing is left to count. *)
Theorem levels_errors
    (numeric : list string) (huc_df : option (list string * list string)) (df : DataFrame) :
  ((forall c, c ∈ numeric -> all_nonzero c df = false) ->
   detect_admin_levels numeric huc_df df = Raise ValueError) /\
  (forall c c0 cols,
     c ∈ numeric -> all_nonzero c df = true -> columns df = c0 :: cols ->
     (forall r, r ∈ rows df ->
        is_adm0 (get r c0) || is_adm1 (get r c0) || is_huc huc_df (get r c0) = true) ->
     c0 ∉ ["adm0"; "adm1"] ->
     detect_admin_levels numeric huc_df df = Raise IndexError).
Proof.
  split.
  - intros H. unfold detect_admin_levels.
    destruct (List.filter _ numeric) as [|c l] eqn:E; [reflexivity|].
    assert (Hin : In c (List.filter (fun c => all_nonzero c df) numeric))
      by (rewrite E; left; reflexivity).
    apply filter_In in Hin as [Hin Hc]. rewrite H in Hc by (apply list_elem_of_In, Hin).
    discriminate Hc.
  - intros c c0 cols Hc Hnz Hcols Hrows Hc0. unfold detect_admin_levels.
    destruct (List.filter _ numeric) as [|c1 l] eqn:E.
    { assert (Hin : In c (List.filter (fun c => all_nonzero c df) numeric))
        by (apply filter_In; split; [apply list_elem_of_In, Hc|exact Hnz]).
      rewrite E in Hin. destruct Hin. }
    rewrite Hcols. cbv zeta.
    replace (List.filter counted (rows (flag_rows huc_df c0 df))) with (@nil (gmap string cell));
      [reflexivity|].
    symmetry. unfold flag_rows. rewrite !rows_assign, !map_map.
    apply not_elem_of_cons in Hc0 as [H0 Hc0]. apply not_elem_of_cons in Hc0 as [H1 _].
    induction (rows df) as [|r l' IH]; [reflexivity|]. simpl.
    rewrite IH by (intros x Hx; apply Hrows; right; exact Hx).
    specialize (Hrows r ltac:(left)).
    unfold counted, set_cell.
    repeat first [rewrite get_insert_eq | rewrite get_insert_ne by congruence].
    cbn [truth].
    destruct (is_adm0 _), (is_adm1 _), (is_huc _ _); simpl in Hrows; try discriminate Hrows;
      reflexivity.
Qed.

Lemma levels_errors_witness :
  detect_admin_levels ["houses"] None frame_with_zero = Raise ValueError.
Proof.
  apply (proj1 (levels_errors ["houses"] None frame_with_zero)).
  intros c Hc. apply list_elem_of_singleton in Hc as ->. reflexivity.
Defined.



End LevelsTheorems.

(** ** [transform_affected_population] *)

Module PopulationFacts.
Import PyStr Pd Py Transformations FrameFacts AddPcodesFacts HierarchyFacts HousesFacts.

Lemma dropped_labels_gone (labels : list string) c d :
  c ∈ labels ->
  has_column c (drop_columns (List.filter (fun c => has_column c d) labels) d) = false.
Proof.
  intros Hc. unfold has_column at 1, drop_columns. cbn [columns].
  apply bool_decide_eq_false_2. intros Hin.
  apply list_elem_of_In, filter_In in Hin as [Hin Hp].
  apply negb_true_iff, bool_decide_eq_false_1 in Hp. apply Hp.
  apply list_elem_of_In, filter_In. split; [apply list_elem_of_In, Hc|].
  unfold has_column. apply bool_decide_eq_true_2, list_elem_of_In, Hin.
Qed.

Lemma get_drop_flags (r : gmap string cell) (p : string -> bool) c :
  c ∉ flag_columns -> get (drop_cells (List.filter p flag_columns) r) c = get r c.
Proof.
  intros Hc. apply get_foldr_delete. intros Hin.
  apply Hc. apply list_elem_of_In, filter_In in Hin as [Hin _]. apply list_elem_of_In, Hin.
Qed.

Lemma rows_drop_present labels d :
  rows (drop_present labels d)
  = map (drop_cells (List.filter (fun c => has_column c d) labels)) (rows d).
Proof. reflexivity. Qed.

Lemma rows_select p d : rows (select p d) = List.filter p (rows d).
Proof. reflexivity. Qed.

Lemma rows_concat a b : rows (concat a b) = (rows a ++ rows b)%list.
Proof. reflexivity. Qed.

Section Run.
Variable HUCS : gmap string string.

Lemma marked_huc x (b : bool) p :
  x ∈ rows (select (fun r => if b then truth (get r "_is_huc")
                             else negb (truth (get r "_is_huc")))
              (assign "_is_huc"
                 (fun r => CBool (is_huc_name HUCS (get r "_location_upper")))
                 (assign "_location_upper" location_upper p))) ->
  forall q,
    huc_row HUCS
      (drop_cells (List.filter q flag_columns)
         (drop_cells ["_location_upper"; "_is_huc"] x)) = b.
Proof.
  intros Hx q. apply elem_of_select in Hx as [Hx Hb].
  apply elem_of_assign in Hx as (x1 & Hx & ->).
  apply elem_of_assign in Hx as (x2 & Hx & ->).
  rewrite get_set_cell_eq, get_set_cell_eq in Hb. cbn [truth] in Hb.
  unfold huc_row, location_upper at 1.
  rewrite get_drop_flags by (apply (bool_decide_unpack _); vm_compute; exact I).
  unfold drop_cells. cbn [foldr]. rewrite !get_delete_ne by discriminate.
  rewrite !get_set_cell_ne by discriminate.
  fold (location_upper x2). destruct b; [exact Hb|].
  apply negb_true_iff in Hb. exact Hb.
Qed.

Lemma population_frame_rows d :
  exists l1 l2,
    rows (population_frame HUCS d) = (l1 ++ l2)%list /\
    Forall (fun r => huc_row HUCS r = false) l1 /\
    Forall (fun r => huc_row HUCS r = true) l2 /\
    Forall (fun r => some_number r = true) (l1 ++ l2).
Proof.
  unfold population_frame. cbv zeta.
  rewrite rows_drop_present, rows_select, rows_drop_columns, rows_concat.
  rewrite map_app, List.filter_app, map_app.
  eexists _, _. split; [reflexivity|].
  split; [|split].
  - apply Forall_forall. intros r Hr.
    apply list_elem_of_fmap in Hr as (r1 & -> & Hr).
    apply list_elem_of_In, filter_In in Hr as [Hr _]. apply list_elem_of_In in Hr.
    apply list_elem_of_fmap in Hr as (r2 & -> & Hr).
    apply (marked_huc r2 false _ Hr).
  - apply Forall_forall. intros r Hr.
    apply list_elem_of_fmap in Hr as (r1 & -> & Hr).
    apply list_elem_of_In, filter_In in Hr as [Hr _]. apply list_elem_of_In in Hr.
    apply list_elem_of_fmap in Hr as (r2 & -> & Hr).
    apply elem_of_drop_dups in Hr.
    apply (marked_huc r2 true _ Hr).
  - rewrite <- map_app, <- List.filter_app. apply Forall_forall. intros r Hr.
    apply list_elem_of_fmap in Hr as (r1 & -> & Hr).
    apply list_elem_of_In, filter_In in Hr as [_ Hr].
    revert Hr. unfold some_number, population_numeric. cbn [existsb].
    rewrite !get_drop_flags by (apply (bool_decide_unpack _); vm_compute; exact I).
    auto.
Qed.

End Run.
Section Whole.
Variable REGION_IDENTIFIERS : list string.
Variable REGION_PROVINCE_MAP : gmap string (list string).
Variable HUCS : gmap string string.
Variable to_numeric : string -> cell.

(** With nineteen columns the function gets through the renaming and the
    hierarchy. *)
Lemma transform_affected_population_frame df :
  List.length (columns df) = 19 ->
  exists d,
    transform_affected_population REGION_IDENTIFIERS REGION_PROVINCE_MAP HUCS to_numeric df
    = Ok (population_frame HUCS d).
Proof.
  intros H. unfold transform_affected_population. cbv zeta.
  destruct (rename_right_width population_columns (mkDF (columns df) (skipn 3 (rows df))) H)
    as (d & -> & Hd & _).
  cbn [rbind]. unfold population_numeric. cbn [fold_left].
  assert (HL : has_column "Location" d = true) by (unfold has_column; rewrite Hd; reflexivity).
  assert (HS : has_column "Sub-total" d = true) by (unfold has_column; rewrite Hd; reflexivity).
  rewrite extract_location_hierarchy_frame by has_label.
  cbn [rbind]. eexists. reflexivity.
Qed.

End Whole.

End PopulationFacts.

Module PopulationTheorems.
Import PyStr Pd Py Transformations Samples HousesFacts PopulationFacts.





End PopulationTheorems.

(** ** [transform_related_incidents], [transform_power], [transform_water_supply] *)

Module DetailFacts.
Import PyStr Pd Py Transformations FrameFacts AddPcodesFacts HierarchyFacts KeptFacts
  HousesFacts PopulationFacts.

Lemma agree_drop_cells L cs r r0 :
  (forall c, c ∈ cs -> c ∈ L) -> agree_off L r r0 -> agree_off L (drop_cells cs r) r0.
Proof.
  unfold drop_cells. induction cs as [|c cs IH]; intros Hcs H; simpl; [exact H|].
  apply agree_delete; [apply Hcs; left|]. apply IH; [|exact H].
  intros x Hx. apply Hcs. right. exact Hx.
Qed.

Lemma kept_weaken L L' l l0 l0' :
  (forall c, c ∈ L -> c ∈ L') -> sublist l0 l0' ->
  kept_in_order L l l0 -> kept_in_order L' l l0'.
Proof.
  intros HL Hsub (l1 & Hsub1 & HF). exists l1. split; [etransitivity; eassumption|].
  eapply Forall2_impl; [exact HF|]. intros r r0 H c Hc. apply H. intros Hin. apply Hc, HL, Hin.
Qed.

Lemma sublist_filter {A} (p : A -> bool) l : sublist (List.filter p l) l.
Proof.
  induction l as [|x l IH]; simpl; [reflexivity|].
  destruct (p x); [apply sublist_skip|apply sublist_cons]; exact IH.
Qed.

Section Run.
Variable REGION_IDENTIFIERS : list string.
Variable REGION_PROVINCE_MAP : gmap string (list string).
Variable HUCS : gmap string string.
Variable to_numeric : string -> cell.

(** The frame of the hierarchy of a renamed table, its Sub-total read as
    a number, keeps the rows of the table. *)
Lemma numbered_hierarchy_kept d :
  kept_in_order detail_labels
    (rows (assign "Sub-total" (fun r => to_number to_numeric (get r "Sub-total"))
             (hierarchy_frame REGION_IDENTIFIERS REGION_PROVINCE_MAP HUCS "Sub-total" d)))
    (rows d).
Proof.
  rewrite rows_assign. apply kept_map.
  - intros r r0 H. apply agree_insert; [|exact H].
    apply (bool_decide_unpack _). vm_compute. exact I.
  - eapply kept_weaken; [| |apply hierarchy_frame_kept].
    + intros c Hc. unfold detail_labels. apply elem_of_app. left. exact Hc.
    + apply sublist_filter.
Qed.

Lemma detail_rows (subset : list string) numbered l0 (with_flags : bool) :
  kept_in_order detail_labels (rows numbered) l0 ->
  (forall c, c ∈ subset -> c ∉ flag_columns) ->
  kept_in_order detail_labels
    (rows (if with_flags then drop_present flag_columns (dropna_all subset numbered)
           else dropna_all subset numbered)) l0 /\
  Forall (fun r => existsb (fun c => notna (get r c)) subset = true)
    (rows (if with_flags then drop_present flag_columns (dropna_all subset numbered)
           else dropna_all subset numbered)).
Proof.
  intros Hnum Hsubset.
  assert (Hk : kept_in_order detail_labels (rows (dropna_all subset numbered)) l0).
  { unfold dropna_all. rewrite rows_select. apply kept_filter, Hnum. }
  assert (Hf : Forall (fun r => existsb (fun c => notna (get r c)) subset = true)
                 (rows (dropna_all subset numbered))).
  { unfold dropna_all. rewrite rows_select. apply Forall_forall. intros r Hr.
    apply list_elem_of_In, filter_In in Hr as [_ Hr]. exact Hr. }
  destruct with_flags; [|auto]. rewrite rows_drop_present. split.
  - apply kept_map; [|exact Hk]. intros r r0 H. apply agree_drop_cells; [|exact H].
    intros c Hc. apply list_elem_of_In, filter_In in Hc as [Hc _].
    unfold detail_labels. rewrite !elem_of_app. right. right. apply list_elem_of_In, Hc.
  - apply Forall_forall. intros r Hr. apply list_elem_of_fmap in Hr as (r1 & -> & Hr).
    rewrite Forall_forall in Hf. specialize (Hf r1 Hr).
    rewrite <- Hf. clear Hf Hk Hnum Hr.
    generalize (fun c : string => has_column c (dropna_all subset numbered)). intros q.
    induction subset as [|c cs IH]; [reflexivity|].
    cbn [existsb].
    rewrite get_drop_flags by (apply Hsubset; left).
    rewrite IH; [reflexivity|]. intros x Hx. apply Hsubset. right. exact Hx.
Qed.

Lemma detail_result labels subset df (with_flags : bool) res :
  List.length (columns df) = List.length labels ->
  "Location" ∈ labels -> "Sub-total" ∈ labels ->
  (forall c, c ∈ subset -> c ∉ flag_columns) ->
  (forall d, rename_columns labels df = Ok d ->
     res = rbind (call (extract_location_hierarchy REGION_IDENTIFIERS REGION_PROVINCE_MAP HUCS
                          "Sub-total") d)
             (fun d =>
                let d := assign "Sub-total"
                           (fun r => to_number to_numeric (get r "Sub-total")) d in
                Ok (if with_flags then drop_present flag_columns (dropna_all subset d)
                    else dropna_all subset d))) ->
  keeps_named_rows labels subset df res.
Proof.
  intros Hlen HL HS Hsubset Hres.
  destruct (rename_right_width labels df Hlen) as (d & E & Hd & _).
  rewrite (Hres d E). unfold keeps_named_rows.
  rewrite extract_location_hierarchy_frame
    by (unfold has_column; rewrite Hd; apply bool_decide_eq_true_2; assumption).
  cbn [rbind]. cbv zeta. eexists d, _. split; [exact E|]. split; [reflexivity|].
  apply detail_rows; [apply numbered_hierarchy_kept|exact Hsubset].
Qed.

End Run.
End DetailFacts.

Module DetailTheorems.
Import PyStr Pd Py Transformations Samples HousesFacts DetailFacts.

Ltac labels_ok :=
  first
    [ reflexivity
    | apply (bool_decide_unpack _); vm_compute; exact I
    | let c := fresh "c" in let Hc := fresh "Hc" in
      intros c Hc; rewrite !elem_of_cons, elem_of_nil in Hc;
      repeat (destruct Hc as [->|Hc]); [..|destruct Hc];
      apply (bool_decide_unpack _); vm_compute; exact I ].







End DetailTheorems.
